(** * ITI Student Affairs System: the record-management engine

    A shallow embedding of [js/modules/DataTable.js] and of the four entity
    adapters ([Student.js], [Course.js], [Instructor.js], [Employee.js]),
    with the properties of the engine stated and proved about it.

    Modelling conventions.
    - JavaScript strings are [string]s whose characters are ASCII
      (code units below 128): [length] is [String.length], white space is
      TAB, LF, VT, FF, CR and SPACE, and [toUpperCase] acts on [a-z] only.
    - JavaScript numbers are [number]: [NaN], the two infinities, or an
      exact rational.  Rounding to a double and the sign of zero are left
      out; every integer the engine handles is far below 2^53, where
      double arithmetic on integers and [Math.ceil] of a quotient are exact.
    - The DOM is the part of [View] that the handlers read or write:
      the [active] class of the two modals, the loading and error panels,
      the disabled state of the two page buttons.  The HTML text of the
      table and of the form is not modelled, nor is [console.*].
    - [fetch], [alert], [form.reset()] are recorded in a log of events;
      the answers of the REST resource come from an arbitrary server
      [serve] with a state of its own.
    - A field of a record is a string or a number, and the JSON body of
      an answer is an array of records or one record.  The handlers are
      followed on both, whichever the request was: an object where an
      array is expected, and the other way round.
    - [new Date(s)] is its time value in milliseconds, [NaN] for an
      invalid date; the parser and the clock are parameters of the two
      validators that read them.
    - An [async] handler runs to completion before the next one starts. *)

From Stdlib Require Import ZArith QArith Qround String Ascii List Bool Lia.
From stdpp Require Import base option gmap strings list.

Local Open Scope string_scope.
Local Open Scope Z_scope.

(* ================================================================== *)
(** * JavaScript values *)
(* ================================================================== *)

Module Js.

(** ** Numbers *)

Inductive number :=
  | NaN
  | Inf (negative : bool)
  | Fin (q : Q).

Definition of_Z (z : Z) : number := Fin (inject_Z z).

Definition isNaN (x : number) : bool :=
  match x with NaN => true | _ => false end.

(** [x < y] of JavaScript: false as soon as one side is [NaN]. *)
Definition lt (x y : number) : bool :=
  match x, y with
  | NaN, _ | _, NaN => false
  | Inf true, Inf true => false
  | Inf true, _ => true
  | _, Inf true => false
  | Inf false, _ => false
  | _, Inf false => true
  | Fin a, Fin b => negb (Qle_bool b a)
  end.

Definition gt (x y : number) : bool := lt y x.

(** [x === y] on numbers. *)
Definition eq (x y : number) : bool :=
  match x, y with
  | Fin a, Fin b => Qeq_bool a b
  | Inf s, Inf t => Bool.eqb s t
  | _, _ => false
  end.

(** [x / y]. *)
Definition div (x y : number) : number :=
  match x, y with
  | NaN, _ | _, NaN => NaN
  | Inf _, Inf _ => NaN
  | Inf s, Fin b => Inf (xorb s (negb (Qle_bool 0 b)))
  | Fin _, Inf _ => Fin 0
  | Fin a, Fin b =>
      if Qeq_bool b 0 then
        if Qeq_bool a 0 then NaN else Inf (negb (Qle_bool 0 a))
      else Fin (a / b)
  end.

(** [Math.ceil]. *)
Definition ceil (x : number) : number :=
  match x with
  | Fin q => of_Z (Qceiling q)
  | _ => x
  end.

(** ** Strings *)

Definition code (c : ascii) : N := N_of_ascii c.

Definition is_space (c : ascii) : bool :=
  ((9 <=? code c) && (code c <=? 13) || (code c =? 32))%N.

Definition is_digit (c : ascii) : bool :=
  ((48 <=? code c) && (code c <=? 57))%N.

Definition is_upper (c : ascii) : bool :=
  ((65 <=? code c) && (code c <=? 90))%N.

Definition is_lower (c : ascii) : bool :=
  ((97 <=? code c) && (code c <=? 122))%N.

Definition upper (c : ascii) : ascii :=
  if is_lower c then ascii_of_N (code c - 32) else c.

(** [s.toUpperCase()]. *)
Fixpoint toUpperCase (s : string) : string :=
  match s with
  | EmptyString => EmptyString
  | String c s' => String (upper c) (toUpperCase s')
  end.

Fixpoint trimStart (s : string) : string :=
  match s with
  | String c s' => if is_space c then trimStart s' else s
  | EmptyString => EmptyString
  end.

(** Drops the white space at the end: a character is kept when it is
    not a space or when something is kept after it. *)
Fixpoint trimEnd (s : string) : string :=
  match s with
  | EmptyString => EmptyString
  | String c s' =>
      match trimEnd s' with
      | EmptyString => if is_space c then EmptyString else String c EmptyString
      | t => String c t
      end
  end.

(** [s.trim()]. *)
Definition trim (s : string) : string := trimEnd (trimStart s).

(** [s.length], as an integer. *)
Definition len (s : string) : Z := Z.of_nat (String.length s).

(** The longest prefix of [s] whose characters satisfy [p], and the rest. *)
Fixpoint span (p : ascii -> bool) (s : string) : string * string :=
  match s with
  | String c s' =>
      if p c then let '(a, b) := span p s' in (String c a, b)
      else (EmptyString, s)
  | EmptyString => (EmptyString, EmptyString)
  end.

(** An optional sign: [true] for a minus. *)
Definition sign (s : string) : bool * string :=
  match s with
  | String "-" s' => (true, s')
  | String "+" s' => (false, s')
  | _ => (false, s)
  end.

Definition is_hex (c : ascii) : bool :=
  is_digit c
  || ((65 <=? code c) && (code c <=? 70))%N
  || ((97 <=? code c) && (code c <=? 102))%N.

Definition digit_value (c : ascii) : Z :=
  if is_digit c then Z.of_N (code c) - 48
  else if is_upper c then Z.of_N (code c) - 55
  else Z.of_N (code c) - 87.

(** The value of a string of digits in the given radix. *)
Definition digits_value (radix : Z) (s : string) : Z :=
  fold_left (fun acc c => acc * radix + digit_value c)
            (list_ascii_of_string s) 0.

Definition signed (neg : bool) (z : Z) : Z := if neg then - z else z.

(** [parseInt(s)], no radix given: leading white space, a sign, [0x] for
    hexadecimal, then the longest run of digits; [NaN] when it is empty. *)
Definition parseInt (s : string) : number :=
  let '(neg, s1) := sign (trimStart s) in
  let '(radix, isd, s2) :=
    match s1 with
    | String "0" (String "x" r) | String "0" (String "X" r) => (16, is_hex, r)
    | _ => (10, is_digit, s1)
    end in
  let '(ds, _) := span isd s2 in
  match ds with
  | EmptyString => NaN
  | _ => of_Z (signed neg (digits_value radix ds))
  end.

(** [parseFloat(s)]: leading white space, then the longest prefix that
    is a decimal literal (sign, [Infinity], or digits with an optional
    fraction and an optional exponent); [NaN] when there is none. *)
Definition parseFloat (s : string) : number :=
  let '(neg, r) := sign (trimStart s) in
  if String.prefix "Infinity" r then Inf neg
  else
    let '(ip, r1) := span is_digit r in
    let '(fp, r2) :=
      match r1 with
      | String "." r' => span is_digit r'
      | _ => (EmptyString, r1)
      end in
    match ip ++ fp with
    | EmptyString => NaN
    | ds =>
        let e :=
          match r2 with
          | String "e" r3 | String "E" r3 =>
              let '(eneg, r4) := sign r3 in
              let '(ed, _) := span is_digit r4 in
              match ed with
              | EmptyString => 0
              | _ => signed eneg (digits_value 10 ed)
              end
          | _ => 0
          end in
        Fin (Qred (inject_Z (signed neg (digits_value 10 ds))
                   * Qpower (10 # 1) (e - len fp)))
    end.

Definition is_octal (c : ascii) : bool :=
  ((48 <=? code c) && (code c <=? 55))%N.

Definition is_binary (c : ascii) : bool :=
  ((48 <=? code c) && (code c <=? 49))%N.

(** A literal in radix 16, 8 or 2, after its prefix: at least one digit
    of the radix, and nothing else. *)
Definition radix_literal (radix : Z) (isd : ascii -> bool) (s : string)
  : number :=
  match span isd s with
  | (String _ _ as ds, EmptyString) => of_Z (digits_value radix ds)
  | _ => NaN
  end.

(** The exponent of a decimal literal that ends the string: absent, or
    [e], an optional sign and at least one digit.  [None] when what is
    left of the string is neither. *)
Definition exponent (s : string) : option Z :=
  match s with
  | EmptyString => Some 0
  | String "e" r | String "E" r =>
      let '(eneg, r1) := sign r in
      match span is_digit r1 with
      | (String _ _ as ed, EmptyString) =>
          Some (signed eneg (digits_value 10 ed))
      | _ => None
      end
  | _ => None
  end.

(** [Number(s)], which is what [/] and [>] make of a string: white
    space at both ends is dropped; the empty string is [0]; then comes
    a literal in radix 16, 8 or 2, or a signed decimal literal or
    [Infinity], with nothing after it; anything else is [NaN]. *)
Definition Number (s : string) : number :=
  let t := trim s in
  match t with
  | EmptyString => of_Z 0
  | String "0" (String "x" r) | String "0" (String "X" r) =>
      radix_literal 16 is_hex r
  | String "0" (String "o" r) | String "0" (String "O" r) =>
      radix_literal 8 is_octal r
  | String "0" (String "b" r) | String "0" (String "B" r) =>
      radix_literal 2 is_binary r
  | _ =>
      let '(neg, r) := sign t in
      if String.eqb r "Infinity" then Inf neg
      else
        let '(ip, r1) := span is_digit r in
        let '(fp, r2) :=
          match r1 with
          | String "." r' => span is_digit r'
          | _ => (EmptyString, r1)
          end in
        match ip ++ fp, exponent r2 with
        | String _ _ as ds, Some e =>
            Fin (Qred (inject_Z (signed neg (digits_value 10 ds))
                       * Qpower (10 # 1) (e - len fp)))
        | _, _ => NaN
        end
  end.

(** A string is falsy when it is [undefined] or empty. *)
Definition truthy (o : option string) : bool :=
  match o with
  | Some (String _ _) => true
  | _ => false
  end.

(** A number is falsy when it is [0] or [NaN]. *)
Definition truthy_number (x : number) : bool :=
  match x with
  | NaN => false
  | Inf _ => true
  | Fin q => negb (Qeq_bool q 0)
  end.

(** [Math.max(x, y)]: [NaN] as soon as one side is. *)
Definition max (x y : number) : number :=
  match x, y with
  | NaN, _ | _, NaN => NaN
  | _, _ => if lt x y then y else x
  end.

(** [s.includes(t)]. *)
Fixpoint includes (s t : string) : bool :=
  String.prefix t s ||
  match s with
  | EmptyString => false
  | String _ s' => includes s' t
  end.

(** [l.filter(test)] where the callback may throw: [None] is the
    exception, which stops the loop at the element that raises it. *)
Fixpoint filter {A} (test : A -> option bool) (l : list A)
  : option (list A) :=
  match l with
  | [] => Some []
  | x :: l' =>
      match test x with
      | None => None
      | Some keep =>
          match filter test l' with
          | None => None
          | Some r => Some (if keep then x :: r else r)
          end
      end
  end.

End Js.

(* ================================================================== *)
(** * Regular expressions *)
(* ================================================================== *)

(** The patterns of the validators are anchored at both ends ([^...$],
    no flag), so [test] is a match of the whole string.  It is computed
    with derivatives. *)

Module Regex.

Inductive regex :=
  | Void
  | Eps
  | Class (p : ascii -> bool)
  | Cat (r1 r2 : regex)
  | Alt (r1 r2 : regex)
  | Star (r : regex).

(** [r+] *)
Definition Plus (r : regex) : regex := Cat r (Star r).

(** [r{n}] *)
Fixpoint Times (n : nat) (r : regex) : regex :=
  match n with
  | O => Eps
  | S n' => Cat r (Times n' r)
  end.

(** [r{0,n}] *)
Fixpoint Upto (n : nat) (r : regex) : regex :=
  match n with
  | O => Eps
  | S n' => Alt Eps (Cat r (Upto n' r))
  end.

(** [r{lo,hi}] *)
Definition Rep (lo hi : nat) (r : regex) : regex :=
  Cat (Times lo r) (Upto (hi - lo) r).

Fixpoint nullable (r : regex) : bool :=
  match r with
  | Void => false
  | Eps => true
  | Class _ => false
  | Cat r1 r2 => nullable r1 && nullable r2
  | Alt r1 r2 => nullable r1 || nullable r2
  | Star _ => true
  end.

Fixpoint deriv (c : ascii) (r : regex) : regex :=
  match r with
  | Void => Void
  | Eps => Void
  | Class p => if p c then Eps else Void
  | Cat r1 r2 =>
      if nullable r1 then Alt (Cat (deriv c r1) r2) (deriv c r2)
      else Cat (deriv c r1) r2
  | Alt r1 r2 => Alt (deriv c r1) (deriv c r2)
  | Star r1 => Cat (deriv c r1) (Star r1)
  end.

(** [r.test(s)] for an anchored [r]. *)
Fixpoint test (r : regex) (s : string) : bool :=
  match s with
  | EmptyString => nullable r
  | String c s' => test (deriv c r) s'
  end.

(** The language of a pattern. *)
Inductive Matches : regex -> string -> Prop :=
  | MEps : Matches Eps EmptyString
  | MClass p c : p c = true -> Matches (Class p) (String c EmptyString)
  | MCat r1 r2 s1 s2 :
      Matches r1 s1 -> Matches r2 s2 -> Matches (Cat r1 r2) (s1 ++ s2)
  | MAltL r1 r2 s : Matches r1 s -> Matches (Alt r1 r2) s
  | MAltR r1 r2 s : Matches r2 s -> Matches (Alt r1 r2) s
  | MStar0 r : Matches (Star r) EmptyString
  | MStarS r s1 s2 :
      Matches r s1 -> Matches (Star r) s2 -> Matches (Star r) (s1 ++ s2).

(** Every character of [s] satisfies [p]. *)
Fixpoint all (p : ascii -> bool) (s : string) : bool :=
  match s with
  | EmptyString => true
  | String c s' => p c && all p s'
  end.

End Regex.

(* ================================================================== *)
(** * Records, requests and the view *)
(* ================================================================== *)

(** A field of a persisted record. *)
Inductive value :=
  | VStr (s : string)
  | VNum (x : Js.number).

(** A record: field name to value; [id] is there once it is persisted. *)
Abbreviation record := (gmap string value).

(** What [Object.fromEntries(new FormData(form).entries())] gives. *)
Abbreviation formdata := (gmap string string).

Inductive order := asc | desc.

(** The query of [loadData]: [_page] and [_limit] always, [q] and
    [_sort]/[_order] when they are set. *)
Record listquery := {
  q_page : Z;
  q_limit : Js.number;
  q_text : option string;
  q_sort : option (string * order)
}.

(** The requests the engine sends: [GET apiUrl?_page=..&_limit=..],
    [GET apiUrl/id], [GET apiUrl?code=..], [POST apiUrl] with a body,
    [PUT apiUrl/id] with a body, [DELETE apiUrl/id].  The id of a
    [PUT] is [this.currentRecord.id], which may be [undefined]. *)
Inductive request :=
  | GetList (q : listquery)
  | GetById (id : string)
  | GetByCode (code : string)
  | Post (body : record)
  | Put (id : option value) (body : record)
  | Delete (id : string).

(** A JSON body: an array of records, or one record. *)
Inductive json :=
  | JArray (rows : list record)
  | JObject (r : record).

(** What reading a property of a record gives is a value or
    [undefined], which is [None]. *)

(** The number that [/], [>] and [Math.ceil] make of it. *)
Definition to_number (x : option value) : Js.number :=
  match x with
  | None => Js.NaN
  | Some (VNum n) => n
  | Some (VStr s) => Js.Number s
  end.

(** [if (x)] *)
Definition truthy_value (x : option value) : bool :=
  match x with
  | None => false
  | Some (VNum n) => Js.truthy_number n
  | Some (VStr s) => Js.truthy (Some s)
  end.

(** [j.length]: the number of rows of an array, the field [length] of
    an object. *)
Definition length_of (j : json) : option value :=
  match j with
  | JArray rows => Some (VNum (Js.of_Z (Z.of_nat (length rows))))
  | JObject o => o !! "length"
  end.

(** [j.id]: an array has none. *)
Definition id_of (j : json) : option value :=
  match j with
  | JArray _ => None
  | JObject o => o !! "id"
  end.

(** What [j[0]] gives: the first row of an array, the field [0] of an
    object; [None] is [undefined]. *)
Inductive element :=
  | Row (r : record)
  | Field (x : value).

Definition first_of (j : json) : option element :=
  match j with
  | JArray rows => Row <$> head rows
  | JObject o => Field <$> (o !! "0")
  end.

(** [if (e)]: an object is truthy. *)
Definition truthy_element (e : option element) : bool :=
  match e with
  | None => false
  | Some (Row _) => true
  | Some (Field x) => truthy_value (Some x)
  end.

(** A response: [ok], the [X-Total-Count] header, and the body, [None]
    when [response.json()] rejects. *)
Record response := {
  ok : bool;
  xTotalCount : option string;
  body : option json
}.

(** [fetch] resolves with a response or rejects (transport error). *)
Inductive fetched :=
  | Rejected
  | Resolved (r : response).

Inductive event :=
  | Fetch (r : request)
  | Alert (msg : string)
  | FormReset
  | RenderForm (data : option json).

(** The fields of a [DataTable] and the DOM state it drives.  [data],
    [totalItems] and [currentRecord] hold what the handlers assign to
    them, which is what the server sent. *)
Record View := {
  currentPage : Z;
  itemsPerPage : Js.number;
  totalItems : option value;
  totalPages : Js.number;
  sortColumn : option string;
  sortOrder : order;
  searchQuery : string;
  data : json;
  currentRecord : option json;
  recordToDelete : option string;
  formModalActive : bool;
  deleteModalActive : bool;
  loading : bool;
  errorText : option string;
  prevDisabled : bool;
  nextDisabled : bool
}.

(** Field updates, one per field that a handler assigns. *)

Definition set_currentPage (x : Z) (v : View) : View :=
  {| currentPage := x; itemsPerPage := itemsPerPage v;
     totalItems := totalItems v; totalPages := totalPages v;
     sortColumn := sortColumn v; sortOrder := sortOrder v;
     searchQuery := searchQuery v; data := data v;
     currentRecord := currentRecord v;
     recordToDelete := recordToDelete v;
     formModalActive := formModalActive v;
     deleteModalActive := deleteModalActive v; loading := loading v;
     errorText := errorText v; prevDisabled := prevDisabled v;
     nextDisabled := nextDisabled v |}.

Definition set_itemsPerPage (x : Js.number) (v : View) : View :=
  {| currentPage := currentPage v; itemsPerPage := x;
     totalItems := totalItems v; totalPages := totalPages v;
     sortColumn := sortColumn v; sortOrder := sortOrder v;
     searchQuery := searchQuery v; data := data v;
     currentRecord := currentRecord v;
     recordToDelete := recordToDelete v;
     formModalActive := formModalActive v;
     deleteModalActive := deleteModalActive v; loading := loading v;
     errorText := errorText v; prevDisabled := prevDisabled v;
     nextDisabled := nextDisabled v |}.

Definition set_totalItems (x : option value) (v : View) : View :=
  {| currentPage := currentPage v; itemsPerPage := itemsPerPage v;
     totalItems := x; totalPages := totalPages v;
     sortColumn := sortColumn v; sortOrder := sortOrder v;
     searchQuery := searchQuery v; data := data v;
     currentRecord := currentRecord v;
     recordToDelete := recordToDelete v;
     formModalActive := formModalActive v;
     deleteModalActive := deleteModalActive v; loading := loading v;
     errorText := errorText v; prevDisabled := prevDisabled v;
     nextDisabled := nextDisabled v |}.

Definition set_totalPages (x : Js.number) (v : View) : View :=
  {| currentPage := currentPage v; itemsPerPage := itemsPerPage v;
     totalItems := totalItems v; totalPages := x;
     sortColumn := sortColumn v; sortOrder := sortOrder v;
     searchQuery := searchQuery v; data := data v;
     currentRecord := currentRecord v;
     recordToDelete := recordToDelete v;
     formModalActive := formModalActive v;
     deleteModalActive := deleteModalActive v; loading := loading v;
     errorText := errorText v; prevDisabled := prevDisabled v;
     nextDisabled := nextDisabled v |}.

Definition set_sortColumn (x : option string) (v : View) : View :=
  {| currentPage := currentPage v; itemsPerPage := itemsPerPage v;
     totalItems := totalItems v; totalPages := totalPages v;
     sortColumn := x; sortOrder := sortOrder v;
     searchQuery := searchQuery v; data := data v;
     currentRecord := currentRecord v;
     recordToDelete := recordToDelete v;
     formModalActive := formModalActive v;
     deleteModalActive := deleteModalActive v; loading := loading v;
     errorText := errorText v; prevDisabled := prevDisabled v;
     nextDisabled := nextDisabled v |}.

Definition set_sortOrder (x : order) (v : View) : View :=
  {| currentPage := currentPage v; itemsPerPage := itemsPerPage v;
     totalItems := totalItems v; totalPages := totalPages v;
     sortColumn := sortColumn v; sortOrder := x;
     searchQuery := searchQuery v; data := data v;
     currentRecord := currentRecord v;
     recordToDelete := recordToDelete v;
     formModalActive := formModalActive v;
     deleteModalActive := deleteModalActive v; loading := loading v;
     errorText := errorText v; prevDisabled := prevDisabled v;
     nextDisabled := nextDisabled v |}.

Definition set_searchQuery (x : string) (v : View) : View :=
  {| currentPage := currentPage v; itemsPerPage := itemsPerPage v;
     totalItems := totalItems v; totalPages := totalPages v;
     sortColumn := sortColumn v; sortOrder := sortOrder v;
     searchQuery := x; data := data v;
     currentRecord := currentRecord v;
     recordToDelete := recordToDelete v;
     formModalActive := formModalActive v;
     deleteModalActive := deleteModalActive v; loading := loading v;
     errorText := errorText v; prevDisabled := prevDisabled v;
     nextDisabled := nextDisabled v |}.

Definition set_data (x : json) (v : View) : View :=
  {| currentPage := currentPage v; itemsPerPage := itemsPerPage v;
     totalItems := totalItems v; totalPages := totalPages v;
     sortColumn := sortColumn v; sortOrder := sortOrder v;
     searchQuery := searchQuery v; data := x;
     currentRecord := currentRecord v;
     recordToDelete := recordToDelete v;
     formModalActive := formModalActive v;
     deleteModalActive := deleteModalActive v; loading := loading v;
     errorText := errorText v; prevDisabled := prevDisabled v;
     nextDisabled := nextDisabled v |}.

Definition set_currentRecord (x : option json) (v : View) : View :=
  {| currentPage := currentPage v; itemsPerPage := itemsPerPage v;
     totalItems := totalItems v; totalPages := totalPages v;
     sortColumn := sortColumn v; sortOrder := sortOrder v;
     searchQuery := searchQuery v; data := data v; currentRecord := x;
     recordToDelete := recordToDelete v;
     formModalActive := formModalActive v;
     deleteModalActive := deleteModalActive v; loading := loading v;
     errorText := errorText v; prevDisabled := prevDisabled v;
     nextDisabled := nextDisabled v |}.

Definition set_recordToDelete (x : option string) (v : View) : View :=
  {| currentPage := currentPage v; itemsPerPage := itemsPerPage v;
     totalItems := totalItems v; totalPages := totalPages v;
     sortColumn := sortColumn v; sortOrder := sortOrder v;
     searchQuery := searchQuery v; data := data v;
     currentRecord := currentRecord v; recordToDelete := x;
     formModalActive := formModalActive v;
     deleteModalActive := deleteModalActive v; loading := loading v;
     errorText := errorText v; prevDisabled := prevDisabled v;
     nextDisabled := nextDisabled v |}.

Definition set_formModalActive (x : bool) (v : View) : View :=
  {| currentPage := currentPage v; itemsPerPage := itemsPerPage v;
     totalItems := totalItems v; totalPages := totalPages v;
     sortColumn := sortColumn v; sortOrder := sortOrder v;
     searchQuery := searchQuery v; data := data v;
     currentRecord := currentRecord v;
     recordToDelete := recordToDelete v; formModalActive := x;
     deleteModalActive := deleteModalActive v; loading := loading v;
     errorText := errorText v; prevDisabled := prevDisabled v;
     nextDisabled := nextDisabled v |}.

Definition set_deleteModalActive (x : bool) (v : View) : View :=
  {| currentPage := currentPage v; itemsPerPage := itemsPerPage v;
     totalItems := totalItems v; totalPages := totalPages v;
     sortColumn := sortColumn v; sortOrder := sortOrder v;
     searchQuery := searchQuery v; data := data v;
     currentRecord := currentRecord v;
     recordToDelete := recordToDelete v;
     formModalActive := formModalActive v; deleteModalActive := x;
     loading := loading v; errorText := errorText v;
     prevDisabled := prevDisabled v; nextDisabled := nextDisabled v |}.

Definition set_loading (x : bool) (v : View) : View :=
  {| currentPage := currentPage v; itemsPerPage := itemsPerPage v;
     totalItems := totalItems v; totalPages := totalPages v;
     sortColumn := sortColumn v; sortOrder := sortOrder v;
     searchQuery := searchQuery v; data := data v;
     currentRecord := currentRecord v;
     recordToDelete := recordToDelete v;
     formModalActive := formModalActive v;
     deleteModalActive := deleteModalActive v; loading := x;
     errorText := errorText v; prevDisabled := prevDisabled v;
     nextDisabled := nextDisabled v |}.

Definition set_errorText (x : option string) (v : View) : View :=
  {| currentPage := currentPage v; itemsPerPage := itemsPerPage v;
     totalItems := totalItems v; totalPages := totalPages v;
     sortColumn := sortColumn v; sortOrder := sortOrder v;
     searchQuery := searchQuery v; data := data v;
     currentRecord := currentRecord v;
     recordToDelete := recordToDelete v;
     formModalActive := formModalActive v;
     deleteModalActive := deleteModalActive v; loading := loading v;
     errorText := x; prevDisabled := prevDisabled v;
     nextDisabled := nextDisabled v |}.

Definition set_prevDisabled (x : bool) (v : View) : View :=
  {| currentPage := currentPage v; itemsPerPage := itemsPerPage v;
     totalItems := totalItems v; totalPages := totalPages v;
     sortColumn := sortColumn v; sortOrder := sortOrder v;
     searchQuery := searchQuery v; data := data v;
     currentRecord := currentRecord v;
     recordToDelete := recordToDelete v;
     formModalActive := formModalActive v;
     deleteModalActive := deleteModalActive v; loading := loading v;
     errorText := errorText v; prevDisabled := x;
     nextDisabled := nextDisabled v |}.

Definition set_nextDisabled (x : bool) (v : View) : View :=
  {| currentPage := currentPage v; itemsPerPage := itemsPerPage v;
     totalItems := totalItems v; totalPages := totalPages v;
     sortColumn := sortColumn v; sortOrder := sortOrder v;
     searchQuery := searchQuery v; data := data v;
     currentRecord := currentRecord v;
     recordToDelete := recordToDelete v;
     formModalActive := formModalActive v;
     deleteModalActive := deleteModalActive v; loading := loading v;
     errorText := errorText v; prevDisabled := prevDisabled v;
     nextDisabled := x |}.

Arguments set_currentPage x v /.
Arguments set_itemsPerPage x v /.
Arguments set_totalItems x v /.
Arguments set_totalPages x v /.
Arguments set_sortColumn x v /.
Arguments set_sortOrder x v /.
Arguments set_searchQuery x v /.
Arguments set_data x v /.
Arguments set_currentRecord x v /.
Arguments set_recordToDelete x v /.
Arguments set_formModalActive x v /.
Arguments set_deleteModalActive x v /.
Arguments set_loading x v /.
Arguments set_errorText x v /.
Arguments set_prevDisabled x v /.
Arguments set_nextDisabled x v /.

(** The view a constructor leaves: page 1, ten rows a page, nothing
    loaded, no sort, no search; the page starts with both modals
    closed. *)
Definition initial : View :=
  {| currentPage := 1; itemsPerPage := Js.of_Z 10;
     totalItems := Some (VNum (Js.of_Z 0)); totalPages := Js.of_Z 0;
     sortColumn := None; sortOrder := asc; searchQuery := "";
     data := JArray []; currentRecord := None; recordToDelete := None;
     formModalActive := false; deleteModalActive := false;
     loading := false; errorText := None;
     prevDisabled := false; nextDisabled := false |}.

(* ================================================================== *)
(** * Handlers as programs over the view, the server and the log *)
(* ================================================================== *)

Module Eff.

Inductive result (A : Type) :=
  | Ok (a : A)
  | Throw.
Arguments Ok {A} a.
Arguments Throw {A}.

Section WithServer.
Context {Srv : Type}.

Record World := { view : View; srv : Srv; log : list event }.

(** A program: it ends with a value or with an exception thrown. *)
Definition M (A : Type) : Type := World -> result A * World.

Definition ret {A} (a : A) : M A := fun w => (Ok a, w).

Definition bind {A B} (m : M A) (k : A -> M B) : M B :=
  fun w =>
    match m w with
    | (Ok a, w') => k a w'
    | (Throw, w') => (Throw, w')
    end.

Definition throw {A} : M A := fun w => (Throw, w).

(** [try { m } catch (error) { h }] *)
Definition try_catch {A} (m h : M A) : M A :=
  fun w =>
    match m w with
    | (Ok a, w') => (Ok a, w')
    | (Throw, w') => h w'
    end.

Definition get : M View := fun w => (Ok (view w), w).

Definition modify (f : View -> View) : M unit :=
  fun w => (Ok tt, {| view := f (view w); srv := srv w; log := log w |}).

Definition emit (e : event) : M unit :=
  fun w => (Ok tt, {| view := view w; srv := srv w; log := log w ++ [e] |}).

(** [await fetch(...)]: the request is logged, the server answers and
    moves on; a rejected promise is an exception. *)
Definition fetch (serve : request -> Srv -> fetched * Srv)
           (r : request) : M response :=
  fun w =>
    let '(a, s') := serve r (srv w) in
    let w' := {| view := view w; srv := s'; log := log w ++ [Fetch r] |} in
    match a with
    | Rejected => (Throw, w')
    | Resolved resp => (Ok resp, w')
    end.

(** The world a handler leaves. *)
Definition exec (m : M unit) (w : World) : World := snd (m w).

End WithServer.

Arguments World : clear implicits.
Arguments M : clear implicits.

End Eff.

Import Eff.

Notation "x <- m ;; k" := (bind m (fun x => k))
  (at level 20, m at level 99, k at level 200, only parsing).
Notation "m ;; k" := (bind m (fun _ => k))
  (at level 100, k at level 200, right associativity, only parsing).

(* ================================================================== *)
(** * DataTable.js *)
(* ================================================================== *)

Module DataTable.

(** The form data as the body of a write: every entry is a string. *)
Definition body_of (fd : formdata) : record := VStr <$> fd.

(** [{ ...data, id: this.currentRecord.id }], as [JSON.stringify] sends
    it: a key whose value is [undefined] is left out. *)
Definition with_id (body : record) (cur : json) : record :=
  match id_of cur with
  | Some i => <["id" := i]> body
  | None => delete "id" body
  end.

(** [if (s)] on a string. *)
Definition nonempty (s : string) : bool :=
  match s with
  | EmptyString => false
  | String _ _ => true
  end.

(** The query parameters of [loadData]. *)
Definition query (v : View) : listquery :=
  {| q_page := currentPage v;
     q_limit := itemsPerPage v;
     q_text := if nonempty (searchQuery v) then Some (searchQuery v) else None;
     q_sort :=
       match sortColumn v with
       | Some c => if nonempty c then Some (c, sortOrder v) else None
       | None => None
       end |}.

(** [totalCount ? parseInt(totalCount) : this.data.length], where
    [totalCount] is the [X-Total-Count] header or [null]. *)
Definition total_of (totalCount : option string) (data : json)
  : option value :=
  if Js.truthy totalCount then Some (VNum (Js.parseInt (default "" totalCount)))
  else length_of data.

(** The same when the data is an array of [rows]: a number. *)
Definition counted (totalCount : option string) (rows : list record)
  : Js.number :=
  if Js.truthy totalCount then Js.parseInt (default "" totalCount)
  else Js.of_Z (Z.of_nat (length rows)).

(** [Math.ceil(this.totalItems / this.itemsPerPage)] *)
Definition pages (total size : Js.number) : Js.number :=
  Js.ceil (Js.div total size).

(** [sortBy] without its reload. *)
Definition toggle (column : string) (v : View) : View :=
  if decide (sortColumn v = Some column) then
    set_sortOrder (match sortOrder v with asc => desc | desc => asc end) v
  else
    set_sortOrder asc (set_sortColumn (Some column) v).

(** The request of a write: [PUT] on the record being edited, [POST]
    when there is none. *)
Definition write_request (payload : record) (v : View) : request :=
  match currentRecord v with
  | Some cur => Put (id_of cur) (with_id payload cur)
  | None => Post payload
  end.

(** The JSON body of a write. *)
Definition request_body (r : request) : option record :=
  match r with
  | Post b | Put _ b => Some b
  | _ => None
  end.

(** The data that [renderTable] renders without an exception.  An
    array always does.  On an object it returns early when
    [this.data.length === 0]; otherwise [this.data.forEach] is no
    function, since a field is a string or a number, and the call
    throws. *)
Definition renders (data : json) : bool :=
  match data with
  | JArray _ => true
  | JObject o =>
      match o !! "length" with
      | Some (VNum n) => Js.eq n (Js.of_Z 0)
      | _ => false
      end
  end.

Section Handlers.
Context {Srv : Type} (serve : request -> Srv -> fetched * Srv).

Definition showLoading : M Srv unit := modify (set_loading true).
Definition hideLoading : M Srv unit := modify (set_loading false).
Definition showError (msg : string) : M Srv unit :=
  modify (set_errorText (Some msg)).
Definition hideError : M Srv unit := modify (set_errorText None).

(** [await response.json()]: the body, an exception when it does not
    parse. *)
Definition response_json (r : response) : M Srv json :=
  match body r with
  | Some j => ret j
  | None => throw
  end.

(** [renderTable], as far as it can fail: it only writes HTML, and it
    throws on the data that do not render. *)
Definition renderTable : M Srv unit :=
  v <- get ;;
  if renders (data v) then ret tt else throw.

Definition updatePagination : M Srv unit :=
  v <- get ;;
  modify (set_prevDisabled (bool_decide (currentPage v = 1))) ;;
  modify (set_nextDisabled
            (Js.eq (Js.of_Z (currentPage v)) (totalPages v)
             || Js.eq (totalPages v) (Js.of_Z 0))).

Definition loadData : M Srv unit :=
  try_catch
    (showLoading ;;
     hideError ;;
     v <- get ;;
     resp <- fetch serve (GetList (query v)) ;;
     if negb (ok resp) then throw else
     data <- response_json resp ;;
     modify (set_data data) ;;
     let totalCount := xTotalCount resp in
     modify (set_totalItems (total_of totalCount data)) ;;
     v <- get ;;
     modify (set_totalPages
               (pages (to_number (totalItems v)) (itemsPerPage v))) ;;
     renderTable ;;
     updatePagination ;;
     hideLoading)
    (showError "Failed to load data. Please check if json-server is running." ;;
     hideLoading).

(** The [input] listener of the search box. *)
Definition onSearchInput (text : string) : M Srv unit :=
  modify (set_searchQuery text) ;;
  modify (set_currentPage 1) ;;
  loadData.

(** The [change] listener of the items-per-page select. *)
Definition onItemsPerPageChange (selected : string) : M Srv unit :=
  modify (set_itemsPerPage (Js.parseInt selected)) ;;
  modify (set_currentPage 1) ;;
  loadData.

Definition sortBy (column : string) : M Srv unit :=
  modify (toggle column) ;;
  loadData.

Definition previousPage : M Srv unit :=
  v <- get ;;
  if (1 <? currentPage v)%Z then
    modify (set_currentPage (currentPage v - 1)) ;;
    loadData
  else ret tt.

Definition nextPage : M Srv unit :=
  v <- get ;;
  if Js.lt (Js.of_Z (currentPage v)) (totalPages v) then
    modify (set_currentPage (currentPage v + 1)) ;;
    loadData
  else ret tt.

Definition openAddModal : M Srv unit :=
  modify (set_currentRecord None) ;;
  emit (RenderForm None) ;;
  modify (set_formModalActive true).

Definition openEditModal (id : string) : M Srv unit :=
  try_catch
    (resp <- fetch serve (GetById id) ;;
     if negb (ok resp) then throw else
     r <- response_json resp ;;
     modify (set_currentRecord (Some r)) ;;
     emit (RenderForm (Some r)) ;;
     modify (set_formModalActive true))
    (emit (Alert "Failed to load record for editing")).

Definition closeModal : M Srv unit :=
  modify (set_formModalActive false) ;;
  emit FormReset ;;
  modify (set_currentRecord None).

(** The write of every [saveRecord]: [PUT] on the record being edited,
    [POST] when there is none. *)
Definition write (payload : record) : M Srv response :=
  v <- get ;;
  fetch serve (write_request payload v).

Definition saveRecord (fd : formdata) : M Srv unit :=
  try_catch
    (resp <- write (body_of fd) ;;
     if negb (ok resp) then throw else
     closeModal ;;
     loadData)
    (emit (Alert "Failed to save record. Please try again.")).

Definition openDeleteModal (id : string) : M Srv unit :=
  modify (set_recordToDelete (Some id)) ;;
  modify (set_deleteModalActive true).

Definition closeDeleteModal : M Srv unit :=
  modify (set_deleteModalActive false) ;;
  modify (set_recordToDelete None).

Definition confirmDelete : M Srv unit :=
  v <- get ;;
  match recordToDelete v with
  | Some (String c id' as id) =>
      try_catch
        (resp <- fetch serve (Delete id) ;;
         if negb (ok resp) then throw else
         closeDeleteModal ;;
         loadData)
        (emit (Alert "Failed to delete record. Please try again."))
  | _ => ret tt
  end.

End Handlers.

(** The rows a collection request brings: none when the request is
    rejected, when the status is not a success, or when the body is not
    an array that parses. *)
Definition rows_of (a : fetched) : option (list record) :=
  match a with
  | Resolved r =>
      if ok r then
        match body r with
        | Some (JArray rows) => Some rows
        | _ => None
        end
      else None
  | Rejected => None
  end.

(** The body an answer brings: none when the request is rejected, when
    the status is not a success, or when the body does not parse. *)
Definition json_of (a : fetched) : option json :=
  match a with
  | Resolved r => if ok r then body r else None
  | Rejected => None
  end.

(** A write has failed: rejected, or answered without a success. *)
Definition write_failed (a : fetched) : bool :=
  match a with
  | Resolved r => negb (ok r)
  | Rejected => true
  end.

End DataTable.

(* ================================================================== *)
(** * What the four validators share *)
(* ================================================================== *)

Module Validation.

Import Regex.

Record ValidationResult := {
  isValid : bool;
  errors : list string
}.

(** [data.name] where the code has already found it truthy; the empty
    string stands for [undefined], which [parseInt] and [parseFloat]
    send to [NaN] as well. *)
Definition field (data : formdata) (name : string) : string :=
  default "" (data !! name).

(** [if (c) { errors.push(msg); }] *)
Definition push_if (c : bool) (msg : string) (errors : list string)
  : list string :=
  if c then errors ++ [msg] else errors.

(** [{ isValid: errors.length === 0, errors: errors }] *)
Definition result_of (errors : list string) : ValidationResult :=
  {| isValid := Nat.eqb (length errors) 0; errors := errors |}.

Definition not_space_at (c : ascii) : bool :=
  negb (Js.is_space c) && negb (Ascii.eqb c "@").

Definition is_char (a c : ascii) : bool := Ascii.eqb c a.

(** [/^[^\s@]+@[^\s@]+\.[^\s@]+$/], declared alike in [Student.js],
    [Instructor.js] and [Employee.js]. *)
Definition emailRegex : regex :=
  Cat (Plus (Class not_space_at))
   (Cat (Class (is_char "@"))
    (Cat (Plus (Class not_space_at))
     (Cat (Class (is_char "."))
      (Plus (Class not_space_at))))).

Definition newline : string := String (ascii_of_nat 10) EmptyString.

(** [errors.join('\n')] *)
Fixpoint join (sep : string) (l : list string) : string :=
  match l with
  | [] => EmptyString
  | [x] => x
  | x :: l' => x ++ sep ++ join sep l'
  end.

(** ['Validation errors:\n' + validation.errors.join('\n')] *)
Definition validation_alert (errs : list string) : string :=
  "Validation errors:" ++ newline ++ join newline errs.

(** A rule of a validator: when it is violated, and what it reports. *)
Record rule := {
  violated : formdata -> bool;
  message : string
}.

(** The messages of the rules that [data] violates, in the order of
    the rules. *)
Definition violations (rules : list rule) (data : formdata) : list string :=
  message <$> filter (fun r => violated r data = true) rules.

End Validation.

Import Validation.

(* ================================================================== *)
(** * Student.js *)
(* ================================================================== *)

Module Student.

Definition name_violated (data : formdata) : bool :=
  negb (Js.truthy (data !! "name"))
  || (Js.len (Js.trim (field data "name")) <? 3)%Z.

Definition email_violated (data : formdata) : bool :=
  negb (Js.truthy (data !! "email"))
  || negb (Regex.test emailRegex (field data "email")).

Definition phone_violated (data : formdata) : bool :=
  negb (Js.truthy (data !! "phone"))
  || (Js.len (Js.trim (field data "phone")) <? 10)%Z.

Definition gpa_violated (data : formdata) : bool :=
  let gpa := Js.parseFloat (field data "gpa") in
  Js.isNaN gpa || Js.lt gpa (Js.of_Z 0) || Js.gt gpa (Js.of_Z 4).

Definition department_violated (data : formdata) : bool :=
  negb (Js.truthy (data !! "department"))
  || bool_decide (Js.trim (field data "department") = "").

Definition enrollmentDate_violated (data : formdata) : bool :=
  negb (Js.truthy (data !! "enrollmentDate")).

Definition validateStudent (data : formdata) : ValidationResult :=
  let errors := [] in
  let errors :=
    push_if (name_violated data)
            "Name must be at least 3 characters long" errors in
  let errors :=
    push_if (email_violated data)
            "Please enter a valid email address" errors in
  let errors :=
    push_if (phone_violated data)
            "Please enter a valid phone number" errors in
  let errors :=
    push_if (gpa_violated data)
            "GPA must be between 0.0 and 4.0" errors in
  let errors :=
    push_if (department_violated data)
            "Please select a department" errors in
  let errors :=
    push_if (enrollmentDate_violated data)
            "Please enter enrollment date" errors in
  result_of errors.

(** [data.gpa = parseFloat(data.gpa)] on the body to send. *)
Definition normalize (fd : formdata) : record :=
  <["gpa" := VNum (Js.parseFloat (field fd "gpa"))]> (DataTable.body_of fd).

Section Save.
Context {Srv : Type} (serve : request -> Srv -> fetched * Srv).

Definition saveRecord (fd : formdata) : M Srv unit :=
  try_catch
    (let validation := validateStudent fd in
     if negb (isValid validation) then
       emit (Alert (validation_alert (errors validation)))
     else
       resp <- DataTable.write serve (normalize fd) ;;
       if negb (ok resp) then throw else
       DataTable.closeModal ;;
       DataTable.loadData serve)
    (emit (Alert "Failed to save student. Please try again.")).

End Save.

End Student.

(* ================================================================== *)
(** * Course.js *)
(* ================================================================== *)

Module Course.

Import Regex.

(** [/^[A-Z]{2,4}\d{3}$/] *)
Definition codeRegex : regex :=
  Cat (Rep 2 4 (Class Js.is_upper)) (Times 3 (Class Js.is_digit)).

Definition code_violated (data : formdata) : bool :=
  negb (Js.truthy (data !! "code"))
  || negb (test codeRegex (Js.toUpperCase (field data "code"))).

Definition name_violated (data : formdata) : bool :=
  negb (Js.truthy (data !! "name"))
  || (Js.len (Js.trim (field data "name")) <? 5)%Z.

Definition credits_violated (data : formdata) : bool :=
  let credits := Js.parseInt (field data "credits") in
  Js.isNaN credits || Js.lt credits (Js.of_Z 1) || Js.gt credits (Js.of_Z 6).

Definition department_violated (data : formdata) : bool :=
  negb (Js.truthy (data !! "department"))
  || bool_decide (Js.trim (field data "department") = "").

Definition instructor_violated (data : formdata) : bool :=
  negb (Js.truthy (data !! "instructor"))
  || (Js.len (Js.trim (field data "instructor")) <? 3)%Z.

Definition validateCourse (data : formdata) : ValidationResult :=
  let errors := [] in
  let errors :=
    push_if (code_violated data)
            "Course code must be in format: CS101, ENG201, BUS301, etc."
            errors in
  let errors :=
    push_if (name_violated data)
            "Course name must be at least 5 characters long" errors in
  let errors :=
    push_if (credits_violated data)
            "Credit hours must be between 1 and 6" errors in
  let errors :=
    push_if (department_violated data)
            "Please select a department" errors in
  let errors :=
    push_if (instructor_violated data)
            "Instructor name must be at least 3 characters long" errors in
  result_of errors.

(** [data.code = data.code.toUpperCase()] then
    [data.credits = parseInt(data.credits)] on the body to send. *)
Definition normalize (fd : formdata) : record :=
  <["credits" := VNum (Js.parseInt (field fd "credits"))]>
    (<["code" := VStr (Js.toUpperCase (field fd "code"))]>
       (DataTable.body_of fd)).

(** [courses.length > 0 ? courses[0] : null]; [None] stands for [null]
    as for [undefined], which are falsy both. *)
Definition first_course (courses : json) : option element :=
  if Js.gt (to_number (length_of courses)) (Js.of_Z 0) then first_of courses
  else None.

(** What [getCourseByCode] returns on an answer of the server: [null]
    when the request fails, when the status is not a success or when
    the body does not parse. *)
Definition returned (a : fetched) : option element :=
  match DataTable.json_of a with
  | Some courses => first_course courses
  | None => None
  end.

(** The existing course that the lookup finds: what it returns, when
    that is truthy. *)
Definition found (a : fetched) : option element :=
  if truthy_element (returned a) then returned a else None.

Section Save.
Context {Srv : Type} (serve : request -> Srv -> fetched * Srv).

Definition getCourseByCode (code : string) : M Srv (option element) :=
  try_catch
    (resp <- fetch serve (GetByCode code) ;;
     if negb (ok resp) then throw else
     courses <- DataTable.response_json resp ;;
     ret (first_course courses))
    (ret None).

Definition saveRecord (fd : formdata) : M Srv unit :=
  try_catch
    (let validation := validateCourse fd in
     if negb (isValid validation) then
       emit (Alert (validation_alert (errors validation)))
     else
       let code := Js.toUpperCase (field fd "code") in
       v <- get ;;
       existingCourse <-
         match currentRecord v with
         | None => getCourseByCode code
         | Some _ => ret None
         end ;;
       if truthy_element existingCourse then
         emit (Alert ("Course code " ++ code ++ " already exists!"))
       else
         resp <- DataTable.write serve (normalize fd) ;;
         if negb (ok resp) then throw else
         DataTable.closeModal ;;
         DataTable.loadData serve)
    (emit (Alert "Failed to save course. Please try again.")).

End Save.

End Course.

(* ================================================================== *)
(** * Dates *)
(* ================================================================== *)

(** [new Date(s)] is taken through its time value, milliseconds since
    the epoch or [NaN] for an invalid date: that is what [<] and [>]
    compare.  The validators are stated for any parser; [Dates.parse]
    is the one of the date-only form [YYYY-MM-DD], read as UTC, which is
    what an [<input type="date">] delivers. *)

Module Dates.

Definition leap (y : Z) : bool :=
  ((y mod 4 =? 0) && negb (y mod 100 =? 0) || (y mod 400 =? 0))%Z.

Definition days_in_month (y m : Z) : Z :=
  if (m =? 2)%Z then (if leap y then 29 else 28)
  else if ((m =? 4) || (m =? 6) || (m =? 9) || (m =? 11))%Z then 30
  else 31.

(** Days from 1970-01-01 to the given civil date. *)
Definition days_from_civil (y m d : Z) : Z :=
  let y' := if (m <=? 2)%Z then y - 1 else y in
  let era := y' / 400 in
  let yoe := y' - era * 400 in
  let mp := (m + 9) mod 12 in
  let doy := (153 * mp + 2) / 5 + d - 1 in
  let doe := yoe * 365 + yoe / 4 - yoe / 100 + doy in
  era * 146097 + doe - 719468.

Definition msPerDay : Z := 86400000.

Definition all_digits (s : string) : bool := Regex.all Js.is_digit s.

Definition parse (s : string) : Js.number :=
  match s with
  | String y1 (String y2 (String y3 (String y4 (String "-"
      (String m1 (String m2 (String "-" (String d1 (String d2 ""))))))))) =>
      let ys := String y1 (String y2 (String y3 (String y4 ""))) in
      let ms := String m1 (String m2 "") in
      let ds := String d1 (String d2 "") in
      if all_digits ys && all_digits ms && all_digits ds then
        let y := Js.digits_value 10 ys in
        let m := Js.digits_value 10 ms in
        let d := Js.digits_value 10 ds in
        if ((1 <=? m) && (m <=? 12) && (1 <=? d)
            && (d <=? days_in_month y m))%Z
        then Js.of_Z (days_from_civil y m d * msPerDay)
        else Js.NaN
      else Js.NaN
  | _ => Js.NaN
  end.

(** The time value of [new Date('2000-01-01')]. *)
Definition floor2000 : Z := 946684800000.

(** What [getFullYear()], [getMonth()] (0 for January) and [getDate()]
    give on a valid date, in local time. *)
Record calendar := {
  fullYear : Z;
  month : Z;
  date : Z
}.

(** The calendar fields of the date-only form [YYYY-MM-DD], for a
    browser whose local time is UTC. *)
Definition fields (s : string) : option calendar :=
  match s with
  | String y1 (String y2 (String y3 (String y4 (String "-"
      (String m1 (String m2 (String "-" (String d1 (String d2 ""))))))))) =>
      let ys := String y1 (String y2 (String y3 (String y4 ""))) in
      let ms := String m1 (String m2 "") in
      let ds := String d1 (String d2 "") in
      if all_digits ys && all_digits ms && all_digits ds then
        let y := Js.digits_value 10 ys in
        let m := Js.digits_value 10 ms in
        let d := Js.digits_value 10 ds in
        if ((1 <=? m) && (m <=? 12) && (1 <=? d)
            && (d <=? days_in_month y m))%Z
        then Some {| fullYear := y; month := m - 1; date := d |}
        else None
      else None
  | _ => None
  end.

(** [a] is an earlier day than [b]. *)
Definition before (a b : calendar) : Prop :=
  fullYear a < fullYear b
  \/ (fullYear a = fullYear b
      /\ (month a < month b \/ (month a = month b /\ date a < date b))).

(** The day [k] years after [c]. *)
Definition anniversary (c : calendar) (k : Z) : calendar :=
  {| fullYear := fullYear c + k; month := month c; date := date c |}.

End Dates.

(* ================================================================== *)
(** * Employee.js and Instructor.js *)
(* ================================================================== *)

(** The hire-date block, which the two files share word for word:
    [today] is [new Date()], [minDate] is [new Date('2000-01-01')]. *)
Module HireDate.

Section WithClock.
Context (Date_parse : string -> Js.number) (now : Z).

Definition missing (data : formdata) : bool :=
  negb (Js.truthy (data !! "hireDate")).

Definition in_future (data : formdata) : bool :=
  Js.truthy (data !! "hireDate")
  && Js.gt (Date_parse (field data "hireDate")) (Js.of_Z now).

Definition too_old (data : formdata) : bool :=
  Js.truthy (data !! "hireDate")
  && Js.lt (Date_parse (field data "hireDate")) (Date_parse "2000-01-01").

Definition check (data : formdata) (errors : list string) : list string :=
  if negb (Js.truthy (data !! "hireDate")) then
    errors ++ ["Please enter hire date"]
  else
    let hireDate := Date_parse (field data "hireDate") in
    let today := Js.of_Z now in
    let minDate := Date_parse "2000-01-01" in
    let errors :=
      push_if (Js.gt hireDate today)
              "Hire date cannot be in the future" errors in
    let errors :=
      push_if (Js.lt hireDate minDate)
              "Hire date seems too old (before 2000)" errors in
    errors.

End WithClock.

End HireDate.

Module Employee.

Definition name_violated (data : formdata) : bool :=
  negb (Js.truthy (data !! "name"))
  || (Js.len (Js.trim (field data "name")) <? 3)%Z.

Definition email_violated (data : formdata) : bool :=
  negb (Js.truthy (data !! "email"))
  || negb (Regex.test emailRegex (field data "email")).

Definition phone_violated (data : formdata) : bool :=
  negb (Js.truthy (data !! "phone"))
  || (Js.len (Js.trim (field data "phone")) <? 10)%Z.

Definition position_violated (data : formdata) : bool :=
  negb (Js.truthy (data !! "position"))
  || bool_decide (Js.trim (field data "position") = "").

Definition department_violated (data : formdata) : bool :=
  negb (Js.truthy (data !! "department"))
  || bool_decide (Js.trim (field data "department") = "").

Section WithClock.
Context (Date_parse : string -> Js.number) (now : Z).

Definition validateEmployee (data : formdata) : ValidationResult :=
  let errors := [] in
  let errors :=
    push_if (name_violated data)
            "Name must be at least 3 characters long" errors in
  let errors :=
    push_if (email_violated data)
            "Please enter a valid email address" errors in
  let errors :=
    push_if (phone_violated data)
            "Please enter a valid phone number" errors in
  let errors :=
    push_if (position_violated data)
            "Please select a position" errors in
  let errors :=
    push_if (department_violated data)
            "Please select a department" errors in
  let errors := HireDate.check Date_parse now data errors in
  result_of errors.

Context {Srv : Type} (serve : request -> Srv -> fetched * Srv).

Definition saveRecord (fd : formdata) : M Srv unit :=
  try_catch
    (let validation := validateEmployee fd in
     if negb (isValid validation) then
       emit (Alert (validation_alert (errors validation)))
     else
       resp <- DataTable.write serve (DataTable.body_of fd) ;;
       if negb (ok resp) then throw else
       DataTable.closeModal ;;
       DataTable.loadData serve)
    (emit (Alert "Failed to save employee. Please try again.")).

End WithClock.

(** [getAllEmployees], on the answer to [GET apiUrl]: the body when the
    status is a success and the body parses, [[]] otherwise. *)
Definition getAllEmployees (a : fetched) : json :=
  match a with
  | Resolved r =>
      if ok r then
        match body r with
        | Some j => j
        | None => JArray []
        end
      else JArray []
  | Rejected => JArray []
  end.

(** The callback of [getStudentAffairsStaff].  [employee.department]
    may be a string, a number or [undefined]; [includes] on a number
    that is truthy is a [TypeError]. *)
Definition in_student_affairs (employee : record) : option bool :=
  match employee !! "department" with
  | None => Some false
  | Some (VStr department) =>
      Some (DataTable.nonempty department
            && (Js.includes department "Student Affairs"
                || Js.includes department "Student Services"
                || Js.includes department "Admissions"
                || Js.includes department "Academic Affairs"))
  | Some (VNum x) => if Js.truthy_number x then None else Some false
  end.

(** [getStudentAffairsStaff], on the answer to [GET apiUrl].  Its own
    [catch] turns any exception, a body that is no array included,
    into [[]]. *)
Definition getStudentAffairsStaff (a : fetched) : list record :=
  match getAllEmployees a with
  | JArray allEmployees =>
      default [] (Js.filter in_student_affairs allEmployees)
  | JObject _ => []
  end.

(** [calculateYearsOfService(hireDate)]: [Date_fields] reads a date
    string into its local calendar fields, [None] for an invalid date,
    whose fields are all [NaN]; [today] is [new Date()]. *)
Definition calculateYearsOfService
           (Date_fields : string -> option Dates.calendar)
           (today : Dates.calendar) (hireDate : string) : Js.number :=
  match Date_fields hireDate with
  | None => Js.NaN
  | Some hire =>
      let years := Dates.fullYear today - Dates.fullYear hire in
      let monthDiff := Dates.month today - Dates.month hire in
      if (monthDiff <? 0)
         || ((monthDiff =? 0) && (Dates.date today <? Dates.date hire))
      then Js.of_Z (years - 1)
      else Js.of_Z years
  end.

End Employee.

Module Instructor.

Definition name_violated (data : formdata) : bool :=
  negb (Js.truthy (data !! "name"))
  || (Js.len (Js.trim (field data "name")) <? 5)%Z.

Definition email_violated (data : formdata) : bool :=
  negb (Js.truthy (data !! "email"))
  || negb (Regex.test emailRegex (field data "email")).

Definition phone_violated (data : formdata) : bool :=
  negb (Js.truthy (data !! "phone"))
  || (Js.len (Js.trim (field data "phone")) <? 10)%Z.

Definition department_violated (data : formdata) : bool :=
  negb (Js.truthy (data !! "department"))
  || bool_decide (Js.trim (field data "department") = "").

Definition specialization_violated (data : formdata) : bool :=
  negb (Js.truthy (data !! "specialization"))
  || (Js.len (Js.trim (field data "specialization")) <? 3)%Z.

Section WithClock.
Context (Date_parse : string -> Js.number) (now : Z).

Definition validateInstructor (data : formdata) : ValidationResult :=
  let errors := [] in
  let errors :=
    push_if (name_violated data)
            "Name must be at least 5 characters long (include title: Dr., Prof., etc.)"
            errors in
  let errors :=
    push_if (email_violated data)
            "Please enter a valid email address" errors in
  let errors :=
    push_if (phone_violated data)
            "Please enter a valid phone number" errors in
  let errors :=
    push_if (department_violated data)
            "Please select a department" errors in
  let errors :=
    push_if (specialization_violated data)
            "Specialization must be at least 3 characters long" errors in
  let errors := HireDate.check Date_parse now data errors in
  result_of errors.

Context {Srv : Type} (serve : request -> Srv -> fetched * Srv).

Definition saveRecord (fd : formdata) : M Srv unit :=
  try_catch
    (let validation := validateInstructor fd in
     if negb (isValid validation) then
       emit (Alert (validation_alert (errors validation)))
     else
       resp <- DataTable.write serve (DataTable.body_of fd) ;;
       if negb (ok resp) then throw else
       DataTable.closeModal ;;
       DataTable.loadData serve)
    (emit (Alert "Failed to save instructor. Please try again.")).

End WithClock.

(** [getAllInstructors], on the answer to [GET apiUrl]. *)
Definition getAllInstructors (a : fetched) : json :=
  match a with
  | Resolved r =>
      if ok r then
        match body r with
        | Some j => j
        | None => JArray []
        end
      else JArray []
  | Rejected => JArray []
  end.

(** The callback of [getInstructorsByEmailDomain]. *)
Definition has_domain (domain : string) (instructor : record) : option bool :=
  match instructor !! "email" with
  | None => Some false
  | Some (VStr email) =>
      Some (DataTable.nonempty email && Js.includes email domain)
  | Some (VNum x) => if Js.truthy_number x then None else Some false
  end.

(** [getInstructorsByEmailDomain(domain)], on the answer to
    [GET apiUrl]. *)
Definition getInstructorsByEmailDomain (domain : string) (a : fetched)
  : list record :=
  match getAllInstructors a with
  | JArray allInstructors =>
      default [] (Js.filter (has_domain domain) allInstructors)
  | JObject _ => []
  end.

End Instructor.

(* ================================================================== *)
(** * Dashboard.js *)
(* ================================================================== *)

Module Dashboard.

Record statsData := {
  students : Js.number;
  courses : Js.number;
  instructors : Js.number;
  employees : Js.number
}.

(** The statistics a constructor leaves. *)
Definition initial : statsData :=
  {| students := Js.of_Z 0; courses := Js.of_Z 0;
     instructors := Js.of_Z 0; employees := Js.of_Z 0 |}.

Definition getMostActive (this : statsData) : string :=
  let max :=
    Js.max (Js.max (Js.max (students this) (courses this))
                   (instructors this))
           (employees this) in
  if Js.eq max (students this) then "Students"
  else if Js.eq max (courses this) then "Courses"
  else if Js.eq max (instructors this) then "Instructors"
  else if Js.eq max (employees this) then "Employees"
  else "None".

End Dashboard.

(* ================================================================== *)
(** * The checks of each validator, as a table *)
(* ================================================================== *)

(** The conditions that each validator tests, in its order, with the
    message each pushes: a device of the proofs about [errors]. *)
Module Checks.

Definition student : list rule :=
  [ {| violated := Student.name_violated;
       message := "Name must be at least 3 characters long" |};
    {| violated := Student.email_violated;
       message := "Please enter a valid email address" |};
    {| violated := Student.phone_violated;
       message := "Please enter a valid phone number" |};
    {| violated := Student.gpa_violated;
       message := "GPA must be between 0.0 and 4.0" |};
    {| violated := Student.department_violated;
       message := "Please select a department" |};
    {| violated := Student.enrollmentDate_violated;
       message := "Please enter enrollment date" |} ].

Definition course : list rule :=
  [ {| violated := Course.code_violated;
       message := "Course code must be in format: CS101, ENG201, BUS301, etc." |};
    {| violated := Course.name_violated;
       message := "Course name must be at least 5 characters long" |};
    {| violated := Course.credits_violated;
       message := "Credit hours must be between 1 and 6" |};
    {| violated := Course.department_violated;
       message := "Please select a department" |};
    {| violated := Course.instructor_violated;
       message := "Instructor name must be at least 3 characters long" |} ].

Section WithClock.
Context (Date_parse : string -> Js.number) (now : Z).

Definition hireDate : list rule :=
  [ {| violated := HireDate.missing;
       message := "Please enter hire date" |};
    {| violated := HireDate.in_future Date_parse now;
       message := "Hire date cannot be in the future" |};
    {| violated := HireDate.too_old Date_parse;
       message := "Hire date seems too old (before 2000)" |} ].

Definition employee : list rule :=
  [ {| violated := Employee.name_violated;
       message := "Name must be at least 3 characters long" |};
    {| violated := Employee.email_violated;
       message := "Please enter a valid email address" |};
    {| violated := Employee.phone_violated;
       message := "Please enter a valid phone number" |};
    {| violated := Employee.position_violated;
       message := "Please select a position" |};
    {| violated := Employee.department_violated;
       message := "Please select a department" |} ]
  ++ hireDate.

Definition instructor : list rule :=
  [ {| violated := Instructor.name_violated;
       message := "Name must be at least 5 characters long (include title: Dr., Prof., etc.)" |};
    {| violated := Instructor.email_violated;
       message := "Please enter a valid email address" |};
    {| violated := Instructor.phone_violated;
       message := "Please enter a valid phone number" |};
    {| violated := Instructor.department_violated;
       message := "Please select a department" |};
    {| violated := Instructor.specialization_violated;
       message := "Specialization must be at least 3 characters long" |} ]
  ++ hireDate.

End WithClock.

End Checks.

(* ================================================================== *)
(** * What the statements are written with *)
(* ================================================================== *)

Module Rules.

(** What [/^[A-Z]{2,4}\d{3}$/] says: two to four capital letters, then
    three digits, and nothing else. *)
Definition code_shape (s : string) : Prop :=
  exists letters digits : string,
    s = letters ++ digits
    /\ (2 <= String.length letters <= 4)%nat
    /\ Regex.all Js.is_upper letters = true
    /\ String.length digits = 3%nat
    /\ Regex.all Js.is_digit digits = true.

(** [n] is the ceiling of [a / b]. *)
Definition is_ceiling (a b n : Z) : Prop :=
  a <= n * b /\ (n - 1) * b < a.

(** [t] occurs in [s]. *)
Definition contains (s t : string) : Prop :=
  exists pre post : string, s = pre ++ t ++ post.

(** What [/^[^\s@]+@[^\s@]+\.[^\s@]+$/] says: a local part, [@], a
    domain, a dot and an ending, the three of them non-empty and free of
    white space and of [@]. *)
Definition email_shape (s : string) : Prop :=
  exists local domain ending : string,
    s = local ++ "@" ++ domain ++ "." ++ ending
    /\ local <> "" /\ domain <> "" /\ ending <> ""
    /\ Regex.all not_space_at local = true
    /\ Regex.all not_space_at domain = true
    /\ Regex.all not_space_at ending = true.

(** The departments that [getStudentAffairsStaff] looks for. *)
Definition student_affairs : list string :=
  ["Student Affairs"; "Student Services"; "Admissions"; "Academic Affairs"].

(** ** The rules of the validation pipeline

    Each rule says what it asks of the raw input, in terms of the input
    alone, and gives the message that reports an input which does not
    meet it. *)

Record requirement := {
  holds : formdata -> Prop;
  report : string
}.

(** A required text: present and, once trimmed, of at least [n]
    characters. *)
Definition text_of_length (n : nat) (key : string) (data : formdata) : Prop :=
  exists s, data !! key = Some s /\ (n <= String.length (Js.trim s))%nat.

(** A choice, or a date that is only asked for: present and not empty. *)
Definition given (key : string) (data : formdata) : Prop :=
  exists s, data !! key = Some s /\ s <> "".

(** An email of the shape [local@domain.tld]. *)
Definition email_given (data : formdata) : Prop :=
  exists e, data !! "email" = Some e /\ email_shape e.

(** A GPA that parses to a number from 0 to 4; to parse is what
    [parseFloat] does, which reads the longest numeric prefix. *)
Definition gpa_in_range (data : formdata) : Prop :=
  exists g q, data !! "gpa" = Some g
              /\ Js.parseFloat g = Js.Fin q /\ (0 <= q <= 4)%Q.

(** Credit hours that parse to an integer from 1 to 6; to parse is
    what [parseInt] does, which reads the longest integer prefix. *)
Definition credits_in_range (data : formdata) : Prop :=
  exists c n, data !! "credits" = Some c
              /\ Js.parseInt c = Js.of_Z n /\ 1 <= n <= 6.

(** A course code that, once in upper case, has the shape of a code. *)
Definition code_given (data : formdata) : Prop :=
  exists c, data !! "code" = Some c /\ code_shape (Js.toUpperCase c).

Definition student : list requirement :=
  [ {| holds := text_of_length 3 "name";
       report := "Name must be at least 3 characters long" |};
    {| holds := email_given;
       report := "Please enter a valid email address" |};
    {| holds := text_of_length 10 "phone";
       report := "Please enter a valid phone number" |};
    {| holds := gpa_in_range;
       report := "GPA must be between 0.0 and 4.0" |};
    {| holds := given "department";
       report := "Please select a department" |};
    {| holds := given "enrollmentDate";
       report := "Please enter enrollment date" |} ].

Definition course : list requirement :=
  [ {| holds := code_given;
       report := "Course code must be in format: CS101, ENG201, BUS301, etc." |};
    {| holds := text_of_length 5 "name";
       report := "Course name must be at least 5 characters long" |};
    {| holds := credits_in_range;
       report := "Credit hours must be between 1 and 6" |};
    {| holds := given "department";
       report := "Please select a department" |};
    {| holds := text_of_length 3 "instructor";
       report := "Instructor name must be at least 3 characters long" |} ].

Section WithClock.
Context (Date_parse : string -> Js.number) (now : Z).

(** The hire date parses to a valid date. *)
Definition valid_date (data : formdata) : Prop :=
  exists h, data !! "hireDate" = Some h /\ Date_parse h <> Js.NaN.

(** The hire date, when it is a date, is not after [now]. *)
Definition not_in_future (data : formdata) : Prop :=
  forall h t, data !! "hireDate" = Some h -> Date_parse h = Js.Fin t ->
              (t <= inject_Z now)%Q.

(** The hire date, when it is a date, is not before 2000-01-01. *)
Definition not_too_old (data : formdata) : Prop :=
  forall h t, data !! "hireDate" = Some h -> Date_parse h = Js.Fin t ->
              (inject_Z Dates.floor2000 <= t)%Q.

(** The rules on a hire date that the validators report: of the date
    itself they only ask that it be given. *)
Definition hireDate : list requirement :=
  [ {| holds := given "hireDate";
       report := "Please enter hire date" |};
    {| holds := not_in_future;
       report := "Hire date cannot be in the future" |};
    {| holds := not_too_old;
       report := "Hire date seems too old (before 2000)" |} ].

Definition instructor : list requirement :=
  [ {| holds := text_of_length 5 "name";
       report := "Name must be at least 5 characters long (include title: Dr., Prof., etc.)" |};
    {| holds := email_given;
       report := "Please enter a valid email address" |};
    {| holds := text_of_length 10 "phone";
       report := "Please enter a valid phone number" |};
    {| holds := given "department";
       report := "Please select a department" |};
    {| holds := text_of_length 3 "specialization";
       report := "Specialization must be at least 3 characters long" |} ]
  ++ hireDate.

Definition employee : list requirement :=
  [ {| holds := text_of_length 3 "name";
       report := "Name must be at least 3 characters long" |};
    {| holds := email_given;
       report := "Please enter a valid email address" |};
    {| holds := text_of_length 10 "phone";
       report := "Please enter a valid phone number" |};
    {| holds := given "position";
       report := "Please select a position" |};
    {| holds := given "department";
       report := "Please select a department" |} ]
  ++ hireDate.

End WithClock.

End Rules.

(* ================================================================== *)
(** * app.js: one view, its listeners, and the user's actions *)
(* ================================================================== *)

Module App.

(** The module on screen: which class [loadModule] has instantiated. *)
Inductive kind := students | courses | instructors | employees.

(** What the user can do to a view, with what the environment supplies:
    the text typed, the row clicked, the form as filled on submit and
    the time of the submit. *)
Inductive action :=
  | Init
  | SearchInput (text : string)
  | ItemsPerPageChange (selected : string)
  | PrevClick
  | NextClick
  | SortClick (column : string)
  | AddNewClick
  | EditClick (id : string)
  | DeleteClick (id : string)
  | ModalClose
  | DeleteModalClose
  | DeleteConfirmClick
  | Submit (fd : formdata) (now : Z).

(** The validator of each kind. *)
Definition validate (Date_parse : string -> Js.number) (now : Z)
           (k : kind) (fd : formdata) : ValidationResult :=
  match k with
  | students => Student.validateStudent fd
  | courses => Course.validateCourse fd
  | instructors => Instructor.validateInstructor Date_parse now fd
  | employees => Employee.validateEmployee Date_parse now fd
  end.

(** The body that each kind writes for a valid form. *)
Definition payload (k : kind) (fd : formdata) : record :=
  match k with
  | students => Student.normalize fd
  | courses => Course.normalize fd
  | instructors | employees => DataTable.body_of fd
  end.

(** What each kind alerts when its write fails. *)
Definition save_error (k : kind) : string :=
  match k with
  | students => "Failed to save student. Please try again."
  | courses => "Failed to save course. Please try again."
  | instructors => "Failed to save instructor. Please try again."
  | employees => "Failed to save employee. Please try again."
  end.

Section WithEnv.
Context (Date_parse : string -> Js.number).
Context {Srv : Type} (serve : request -> Srv -> fetched * Srv).

(** The [saveRecord] that the class of the view overrides. *)
Definition saveRecord (k : kind) (fd : formdata) (now : Z) : M Srv unit :=
  match k with
  | students => Student.saveRecord serve fd
  | courses => Course.saveRecord serve fd
  | instructors => Instructor.saveRecord Date_parse now serve fd
  | employees => Employee.saveRecord Date_parse now serve fd
  end.

(** The listeners of [initEventListeners] and of [renderTable]. *)
Definition handle (k : kind) (a : action) : M Srv unit :=
  match a with
  | Init => DataTable.loadData serve
  | SearchInput text => DataTable.onSearchInput serve text
  | ItemsPerPageChange sel => DataTable.onItemsPerPageChange serve sel
  | PrevClick => DataTable.previousPage serve
  | NextClick => DataTable.nextPage serve
  | SortClick column => DataTable.sortBy serve column
  | AddNewClick => DataTable.openAddModal
  | EditClick id => DataTable.openEditModal serve id
  | DeleteClick id => DataTable.openDeleteModal id
  | ModalClose => DataTable.closeModal
  | DeleteModalClose => DataTable.closeDeleteModal
  | DeleteConfirmClick => DataTable.confirmDelete serve
  | Submit fd now => saveRecord k fd now
  end.

(** The world after a sequence of actions. *)
Definition run (k : kind) (acts : list action) (w : World Srv) : World Srv :=
  fold_left (fun w a => exec (handle k a) w) acts w.

(** A fresh view in front of a server in state [s]. *)
Definition start (s : Srv) : World Srv :=
  {| view := initial; srv := s; log := [] |}.

End WithEnv.

End App.

(* ================================================================== *)
(** * A server that plays a script *)
(* ================================================================== *)

(** The answers to come, in order, whatever the requests; a transport
    error once the script is over. *)
Module Script.

Definition serve (r : request) (s : list fetched) : fetched * list fetched :=
  match s with
  | [] => (Rejected, [])
  | a :: s' => (a, s')
  end.

Definition ok_list (rows : list record) (total : string) : fetched :=
  Resolved {| ok := true; xTotalCount := Some total;
              body := Some (JArray rows) |}.

Definition ok_empty : fetched :=
  Resolved {| ok := true; xTotalCount := None; body := Some (JObject ∅) |}.

Definition ok_object (r : record) : fetched :=
  Resolved {| ok := true; xTotalCount := None; body := Some (JObject r) |}.

Definition failed : fetched :=
  Resolved {| ok := false; xTotalCount := None; body := Some (JObject ∅) |}.

(** Rows with ids [from], [from + 1], ..., [n] of them. *)
Definition rows (from : Z) (n : nat) : list record :=
  (fun i => {[ "id" := VNum (Js.of_Z i) ]}) <$> seqZ from (Z.of_nat n).

End Script.

(* ================================================================== *)
(** * Sample inputs *)
(* ================================================================== *)

Module Examples.

Definition ann : formdata :=
  list_to_map
    [("name", "Ann Lee"); ("email", "a@b.edu"); ("phone", "1234567890");
     ("department", "Science"); ("gpa", "3.5abc");
     ("enrollmentDate", "2023-01-01")].

Definition cs101 : formdata :=
  list_to_map
    [("code", "cs101"); ("name", "Intro to Systems"); ("credits", "3");
     ("department", "Engineering"); ("instructor", "Dr. Lee")].

Definition clerk (hireDate : string) : formdata :=
  list_to_map
    [("name", "Bob Ray"); ("email", "bob@university.edu");
     ("phone", "1234567890"); ("position", "Clerk");
     ("department", "Library"); ("hireDate", hireDate)].

Definition lecturer (hireDate : string) : formdata :=
  list_to_map
    [("name", "Dr. Kim"); ("email", "kim@university.edu");
     ("phone", "1234567890"); ("department", "Physics");
     ("specialization", "Optics"); ("hireDate", hireDate)].

(** 2026-11-02, in milliseconds. *)
Definition today : Z := 1793577600000.

(** 2026-11-02, on the calendar. *)
Definition today_fields : Dates.calendar :=
  {| Dates.fullYear := 2026; Dates.month := 10; Dates.date := 2 |}.

Definition registrar : record :=
  {[ "id" := VNum (Js.of_Z 1); "department" := VStr "Student Affairs Office" ]}.

Definition librarian : record :=
  {[ "id" := VNum (Js.of_Z 2); "department" := VStr "Library" ]}.

(** An employee whose department is the number 7. *)
Definition misfiled : record :=
  {[ "id" := VNum (Js.of_Z 3); "department" := VNum (Js.of_Z 7) ]}.

Definition dr_kim : record :=
  {[ "id" := VNum (Js.of_Z 1); "email" := VStr "kim@university.edu" ]}.

Definition dr_roe : record :=
  {[ "id" := VNum (Js.of_Z 2); "email" := VStr "roe@example.org" ]}.

(** An object that reads like an array of one element. *)
Definition array_like : record :=
  {[ "length" := VNum (Js.of_Z 1); "0" := VStr "x" ]}.

End Examples.

(* ================================================================== *)
(** * Sample runs *)
(* ================================================================== *)

Module Runs.

Import App Script.

(** Eleven students, ten a page: the first page, then the second. *)
Definition page1 : fetched := ok_list (rows 1 10) "11".
Definition page2 : fetched := ok_list (rows 11 1) "11".

Definition go (acts : list action) (script : list fetched)
  : World (list fetched) :=
  run Dates.parse serve students acts (start script).

(** The second page of the eleven, then a click on the [Name] header. *)
Definition on_page2 : World (list fetched) :=
  go [Init; NextClick] [page1; page2; page2].

(** The second page, its only row deleted: ten students are left, and
    the reload of page 2 finds no row. *)
Definition after_delete : World (list fetched) :=
  go [Init; NextClick; DeleteClick "11"; DeleteConfirmClick]
     [page1; page2; ok_empty; ok_list [] "10"].

(** The delete dialog open on row 3, in front of a server that will
    refuse the delete, that will not answer, that will accept it. *)
Definition confirm (answer : list fetched) : World (list fetched) :=
  go [Init; DeleteClick "3"] (page1 :: answer).

(** The add form open. *)
Definition adding (script : list fetched) : World (list fetched) :=
  go [Init; AddNewClick] (page1 :: script).

(** The edit form open on course 5. *)
Definition cs100 : record :=
  {[ "id" := VNum (Js.of_Z 5); "code" := VStr "CS100" ]}.

Definition editing (script : list fetched) : World (list fetched) :=
  go [Init; EditClick "5"] (page1 :: ok_object cs100 :: script).

(** Three students, all on one page. *)
Definition one_page : fetched := ok_list (rows 1 3) "3".

(** The first page loaded. *)
Definition listed (script : list fetched) : World (list fetched) :=
  go [Init] (page1 :: script).

End Runs.

(* ================================================================== *)
(** * What the statements about handlers are made of *)
(* ================================================================== *)

Module Frame.

Import DataTable.

(** What a reload leaves alone: the query state and the modals. *)
Definition kept (v v' : View) : Prop :=
  currentPage v' = currentPage v
  /\ itemsPerPage v' = itemsPerPage v
  /\ sortColumn v' = sortColumn v
  /\ sortOrder v' = sortOrder v
  /\ searchQuery v' = searchQuery v
  /\ currentRecord v' = currentRecord v
  /\ recordToDelete v' = recordToDelete v
  /\ formModalActive v' = formModalActive v
  /\ deleteModalActive v' = deleteModalActive v.

(** The view once the form modal is closed. *)
Definition closed (v : View) : View :=
  set_currentRecord None (set_formModalActive false v).

(** What [loadData] shows when the list could not be loaded. *)
Definition load_error : string :=
  "Failed to load data. Please check if json-server is running.".

(** The page is at least 1 and so is every page asked for so far. *)
Definition pages_from_1 {Srv} (w : World Srv) : Prop :=
  1 <= currentPage (view w)
  /\ forall q, In (Fetch (GetList q)) (log w) -> 1 <= q_page q.

(** What the listeners keep true of a view: the page is at least 1,
    the delete dialog is open exactly when a record id is pending, a
    record being edited has its form open, and the order is ascending
    while no column is sorted. *)
Definition wf (v : View) : Prop :=
  1 <= currentPage v
  /\ (deleteModalActive v = true <-> is_Some (recordToDelete v))
  /\ (is_Some (currentRecord v) -> formModalActive v = true)
  /\ (sortColumn v = None -> sortOrder v = asc).

Section WithServer.
Context {Srv : Type} (serve : request -> Srv -> fetched * Srv).

(** A program that leaves the page where it is. *)
Definition same_page {A} (m : M Srv A) : Prop :=
  forall w, currentPage (view (snd (m w))) = currentPage (view w).

(** A program that keeps [wf]. *)
Definition keeps_wf {A} (m : M Srv A) : Prop :=
  forall w, wf (view w) -> wf (view (snd (m w))).

(** A program that keeps [pages_from_1]. *)
Definition keeps_pages {A} (m : M Srv A) : Prop :=
  forall w, pages_from_1 w -> pages_from_1 (snd (m w)).

(** The tail of every [saveRecord]: write, then close and reload. *)
Definition commit (payload : record) : M Srv unit :=
  resp <- write serve payload ;;
  if negb (ok resp) then throw else
  closeModal ;; loadData serve.

End WithServer.

End Frame.

(* ================================================================== *)
(** * Facts about strings and patterns *)
(* ================================================================== *)

Module RegexFacts.

Import Regex.

#[local] Arguments String.append !s1 s2 / : simpl nomatch.

Lemma append_empty_r (s : string) : s ++ "" = s.
Proof. induction s as [|c s IH]; simpl; [reflexivity | now rewrite IH]. Qed.

Lemma append_assoc (a b c : string) : (a ++ b) ++ c = a ++ (b ++ c).
Proof. induction a as [|x a IH]; simpl; [reflexivity | now rewrite IH]. Qed.

Lemma append_eq_empty (a b : string) : a ++ b = "" -> a = "" /\ b = "".
Proof. destruct a; simpl; [auto | discriminate]. Qed.

Lemma length_append (a b : string) :
  String.length (a ++ b) = (String.length a + String.length b)%nat.
Proof. induction a as [|x a IH]; simpl; [reflexivity | now rewrite IH]. Qed.

Lemma all_append p (a b : string) : all p (a ++ b) = all p a && all p b.
Proof.
  induction a as [|x a IH]; simpl; [reflexivity |].
  now rewrite IH, andb_assoc.
Qed.

Lemma length_zero (s : string) : String.length s = 0%nat -> s = "".
Proof. destruct s; [reflexivity | discriminate]. Qed.

(** ** The derivative matcher computes the language *)

Lemma nullable_sound r : nullable r = true -> Matches r "".
Proof.
  induction r as [| |p|r1 IH1 r2 IH2|r1 IH1 r2 IH2|r IH]; simpl; intros H;
    try discriminate.
  - constructor.
  - apply andb_true_iff in H as [H1 H2].
    change "" with ("" ++ ""). constructor; auto.
  - apply orb_true_iff in H as [H|H]; [apply MAltL | apply MAltR]; auto.
  - constructor.
Qed.

Lemma nullable_complete r s : Matches r s -> s = "" -> nullable r = true.
Proof.
  induction 1 as [|p c Hp|r1 r2 s1 s2 _ IH1 _ IH2|r1 r2 s _ IH|r1 r2 s _ IH
                 |r|r s1 s2 _ _ _ _]; simpl; intros E; try reflexivity.
  - discriminate.
  - apply append_eq_empty in E as [-> ->]. now rewrite IH1, IH2.
  - now rewrite IH.
  - rewrite IH by assumption. apply orb_true_r.
Qed.

Lemma deriv_sound c r : forall s, Matches (deriv c r) s -> Matches r (String c s).
Proof.
  induction r as [| |p|r1 IH1 r2 IH2|r1 IH1 r2 IH2|r IH]; simpl; intros s H.
  - inversion H.
  - inversion H.
  - destruct (p c) eqn:Hp; inversion H; subst. now constructor.
  - destruct (nullable r1) eqn:Hn.
    + inversion H as [| |? ? ? ? | ? ? ? H' | ? ? ? H' | |]; subst.
      * inversion H' as [| |? ? s1 s2 Ha Hb | | | |]; subst.
        change (String c (s1 ++ s2)) with (String c s1 ++ s2).
        constructor; auto.
      * change (String c s) with ("" ++ String c s).
        constructor; auto using nullable_sound.
    + inversion H as [| |? ? s1 s2 Ha Hb | | | |]; subst.
      change (String c (s1 ++ s2)) with (String c s1 ++ s2).
      constructor; auto.
  - inversion H; subst; [apply MAltL | apply MAltR]; auto.
  - inversion H as [| |? ? s1 s2 Ha Hb | | | |]; subst.
    change (String c (s1 ++ s2)) with (String c s1 ++ s2).
    constructor; auto.
Qed.

Lemma deriv_complete r t :
  Matches r t -> forall c s, t = String c s -> Matches (deriv c r) s.
Proof.
  induction 1 as [|p x Hp|r1 r2 s1 s2 H1 IH1 H2 IH2|r1 r2 s0 _ IH|r1 r2 s0 _ IH
                 |r|r s1 s2 H1 IH1 H2 IH2]; intros c s E; simpl.
  - discriminate.
  - injection E as -> <-. rewrite Hp. constructor.
  - destruct s1 as [|y s1']; simpl in E.
    + rewrite (nullable_complete _ _ H1 eq_refl).
      apply MAltR. now apply IH2.
    + injection E as -> <-.
      destruct (nullable r1); [apply MAltL |]; constructor; auto.
  - apply MAltL. auto.
  - apply MAltR. auto.
  - discriminate.
  - destruct s1 as [|y s1']; simpl in E.
    + now apply IH2.
    + injection E as -> <-. constructor; auto.
Qed.

Theorem test_Matches r s : test r s = true <-> Matches r s.
Proof.
  revert r. induction s as [|c s IH]; intros r; simpl.
  - split; [apply nullable_sound | intros H; eapply nullable_complete; eauto].
  - rewrite IH. split; [apply deriv_sound |].
    intros H. eapply deriv_complete; eauto.
Qed.

(** ** Runs of one class of characters *)

Lemma Matches_Class p s :
  Matches (Class p) s <-> exists c, s = String c "" /\ p c = true.
Proof.
  split.
  - inversion 1; subst. eauto.
  - intros (c & -> & Hp). now constructor.
Qed.

Lemma Matches_Cat r1 r2 s :
  Matches (Cat r1 r2) s <->
  exists s1 s2, s = s1 ++ s2 /\ Matches r1 s1 /\ Matches r2 s2.
Proof.
  split.
  - inversion 1; subst. eauto.
  - intros (s1 & s2 & -> & H1 & H2). now constructor.
Qed.

Lemma Matches_Times p n : forall s,
  Matches (Times n (Class p)) s <->
  String.length s = n /\ all p s = true.
Proof.
  induction n as [|n IH]; intros s; simpl.
  - split.
    + inversion 1. auto.
    + intros [H _]. apply length_zero in H as ->. constructor.
  - rewrite Matches_Cat. split.
    + intros (s1 & s2 & -> & H1 & H2).
      apply Matches_Class in H1 as (c & -> & Hp).
      apply IH in H2 as [Hl Ha]. simpl. now rewrite Hl, Hp, Ha.
    + intros [Hl Ha]. destruct s as [|c s]; [discriminate |].
      simpl in *. apply andb_true_iff in Ha as [Hp Ha].
      exists (String c ""), s. repeat split.
      * now constructor.
      * apply IH. split; [lia | assumption].
Qed.

Lemma Matches_Upto p n : forall s,
  Matches (Upto n (Class p)) s <->
  (String.length s <= n)%nat /\ all p s = true.
Proof.
  induction n as [|n IH]; intros s; simpl.
  - split.
    + inversion 1. auto.
    + intros [H _]. destruct s; [constructor | simpl in H; lia].
  - split.
    + inversion 1 as [| | | ? ? ? H' | ? ? ? H' | |]; subst.
      * inversion H'. simpl. split; [lia | reflexivity].
      * apply Matches_Cat in H' as (s1 & s2 & -> & H1 & H2).
        apply Matches_Class in H1 as (c & -> & Hp).
        apply IH in H2 as [Hl Ha]. simpl. rewrite Hp, Ha.
        split; [lia | reflexivity].
    + intros [Hl Ha]. destruct s as [|c s].
      * apply MAltL. constructor.
      * simpl in *. apply andb_true_iff in Ha as [Hp Ha].
        apply MAltR. apply Matches_Cat.
        exists (String c ""), s. repeat split.
        -- now constructor.
        -- apply IH. split; [lia | assumption].
Qed.

Lemma Matches_Rep p lo hi s :
  (lo <= hi)%nat ->
  Matches (Rep lo hi (Class p)) s <->
  (lo <= String.length s <= hi)%nat /\ all p s = true.
Proof.
  intros Hle. unfold Rep. rewrite Matches_Cat. split.
  - intros (s1 & s2 & -> & H1 & H2).
    apply Matches_Times in H1 as [Hl1 Ha1].
    apply Matches_Upto in H2 as [Hl2 Ha2].
    rewrite length_append, all_append, Ha1, Ha2. split; [lia | reflexivity].
  - revert hi Hle s. induction lo as [|lo IH]; intros hi Hle s [Hl Ha].
    + exists "", s. repeat split.
      * constructor.
      * apply Matches_Upto. split; [lia | assumption].
    + destruct s as [|c s]; [simpl in Hl; lia |].
      simpl in Hl, Ha. apply andb_true_iff in Ha as [Hp Ha].
      destruct hi as [|hi]; [lia |].
      destruct (IH hi ltac:(lia) s) as (s1 & s2 & -> & H1 & H2).
      { split; [lia | assumption]. }
      exists (String c s1), s2. repeat split.
      * simpl. apply Matches_Cat. exists (String c ""), s1.
        repeat split; [now constructor | assumption].
      * replace (S hi - S lo)%nat with (hi - lo)%nat by lia. assumption.
Qed.

(** ** The course code *)

Theorem codeRegex_shape s :
  test Course.codeRegex s = true <-> Rules.code_shape s.
Proof.
  rewrite test_Matches. unfold Course.codeRegex, Rules.code_shape.
  rewrite Matches_Cat. split.
  - intros (s1 & s2 & -> & H1 & H2).
    apply Matches_Rep in H1 as [Hl1 Ha1]; [|lia].
    apply Matches_Times in H2 as [Hl2 Ha2].
    exists s1, s2. auto.
  - intros (s1 & s2 & -> & Hl1 & Ha1 & Hl2 & Ha2).
    exists s1, s2. repeat split.
    + apply Matches_Rep; [lia | auto].
    + apply Matches_Times. auto.
Qed.

End RegexFacts.

(* ================================================================== *)
(** * Facts about numbers *)
(* ================================================================== *)

Module NumberFacts.

Lemma lt_of_Z (a b : Z) : Js.lt (Js.of_Z a) (Js.of_Z b) = (a <? b).
Proof.
  unfold Js.lt, Js.of_Z, Qle_bool. cbn.
  rewrite !Z.mul_1_r. apply eq_sym, Z.ltb_antisym.
Qed.

(** On integers, [Math.ceil(t / ps)] is the integer ceiling. *)
Lemma pages_of_Z (t ps : Z) :
  0 < ps ->
  DataTable.pages (Js.of_Z t) (Js.of_Z ps) = Js.of_Z (- (- t / ps)).
Proof.
  intros Hps. destruct ps as [|p|p]; try lia.
  unfold DataTable.pages, Js.div, Js.ceil, Js.of_Z.
  replace (Qeq_bool (inject_Z (Z.pos p)) 0) with false by reflexivity.
  unfold Qceiling, Qfloor, Qdiv, Qmult, Qinv, Qopp, inject_Z. cbn.
  now rewrite Z.mul_1_r.
Qed.

Lemma ceiling_spec (t ps : Z) :
  0 < ps -> Rules.is_ceiling t ps (- (- t / ps)).
Proof.
  intros Hps. unfold Rules.is_ceiling.
  pose proof (Z.div_mod (- t) ps ltac:(lia)) as E.
  pose proof (Z.mod_pos_bound (- t) ps Hps) as B.
  nia.
Qed.

Lemma ceiling_unique (t ps n m : Z) :
  0 < ps -> Rules.is_ceiling t ps n -> Rules.is_ceiling t ps m -> n = m.
Proof. unfold Rules.is_ceiling. intros Hps [A B] [C D]. nia. Qed.

Lemma ceiling_zero (t ps n : Z) :
  0 < ps -> 0 <= t -> Rules.is_ceiling t ps n -> (n = 0 <-> t = 0).
Proof. unfold Rules.is_ceiling. intros Hps Ht [A B]. split; intros ->; nia. Qed.

End NumberFacts.

(* ================================================================== *)
(** * Facts about the handlers *)
(* ================================================================== *)

Module EngineFacts.

Import DataTable App Frame.

Ltac unfold_eff :=
  unfold exec, try_catch, bind, ret, throw, get, modify, emit, fetch in *.

Ltac unfold_handlers :=
  unfold onSearchInput, onItemsPerPageChange, sortBy,
    previousPage, nextPage, openAddModal, openEditModal, closeModal, write,
    openDeleteModal, closeDeleteModal, confirmDelete,
    updatePagination, showLoading, hideLoading, showError, hideError,
    response_json, renderTable in *.

Ltac branch :=
  match goal with
  | |- context [if ?b then _ else _] => destruct b eqn:?; cbn
  end.

Section WithServer.
Context {Srv : Type} (serve : request -> Srv -> fetched * Srv).

(** A reload always ends normally, sends one request, the query of
    the view, and keeps the query state and the modals. *)
Lemma loadData_spec (w : World Srv) :
  exists v' s',
    loadData serve w =
      (Ok tt, {| view := v'; srv := s';
                 log := (log w ++ [Fetch (GetList (query (view w)))])%list |})
    /\ kept (view w) v'.
Proof.
  unfold loadData, kept. unfold_handlers. unfold_eff. cbn.
  destruct (serve _ _) as [[|resp] s']; cbn.
  - eauto 12.
  - destruct (ok resp); cbn; [|eauto 12].
    destruct (body resp) as [j|]; cbn; [|eauto 12].
    destruct (renders j); cbn; eauto 12.
Qed.

(** A reload that the server answers with rows: the rows, their
    count and the page count are stored. *)
Lemma loadData_ok (w : World Srv) resp s1 rows :
  serve (GetList (query (view w))) (srv w) = (Resolved resp, s1) ->
  ok resp = true ->
  body resp = Some (JArray rows) ->
  let v' := view (exec (loadData serve) w) in
  data v' = JArray rows
  /\ totalItems v' = Some (VNum (counted (xTotalCount resp) rows))
  /\ totalPages v'
     = pages (counted (xTotalCount resp) rows) (itemsPerPage (view w)).
Proof.
  intros E Hok Hb. unfold loadData. unfold_handlers. unfold_eff. cbn.
  match goal with
  | |- context [serve ?r ?s] =>
      change (serve r s) with (serve (GetList (query (view w))) (srv w))
  end.
  rewrite E. cbn. rewrite Hok. cbn. rewrite Hb. cbn.
  unfold total_of, counted. destruct (Js.truthy (xTotalCount resp)); auto.
Qed.

(** Replaces the reload in the goal by what [loadData_spec] says. *)
Ltac reload :=
  match goal with
  | |- context [loadData serve ?w] =>
      let v := fresh "v" in
      let s := fresh "s" in
      let E := fresh "E" in
      let K := fresh "K" in
      destruct (loadData_spec w) as (v & s & E & K);
      rewrite E; clear E; cbn
  end.

(** ** The search box, the page size, the sort headers *)

Lemma onSearchInput_spec text (w : World Srv) :
  let w' := exec (onSearchInput serve text) w in
  log w' = (log w ++ [Fetch (GetList
             (query (set_currentPage 1 (set_searchQuery text (view w)))))])%list
  /\ currentPage (view w') = 1
  /\ searchQuery (view w') = text.
Proof.
  unfold onSearchInput. unfold_eff. cbn. reload.
  destruct K as (-> & _ & _ & _ & -> & _). auto.
Qed.

Lemma onItemsPerPageChange_spec sel (w : World Srv) :
  let w' := exec (onItemsPerPageChange serve sel) w in
  log w' = (log w ++ [Fetch (GetList
             (query (set_currentPage 1
                       (set_itemsPerPage (Js.parseInt sel) (view w)))))])%list
  /\ currentPage (view w') = 1
  /\ itemsPerPage (view w') = Js.parseInt sel.
Proof.
  unfold onItemsPerPageChange. unfold_eff. cbn. reload.
  destruct K as (-> & -> & _). auto.
Qed.

Lemma sortBy_spec column (w : World Srv) :
  let w' := exec (sortBy serve column) w in
  log w' = (log w ++ [Fetch (GetList (query (toggle column (view w))))])%list
  /\ currentPage (view w') = currentPage (view w)
  /\ sortColumn (view w') = sortColumn (toggle column (view w))
  /\ sortOrder (view w') = sortOrder (toggle column (view w)).
Proof.
  unfold sortBy. unfold_eff. cbn. reload.
  destruct K as (-> & _ & -> & -> & _).
  repeat split. unfold toggle. destruct (decide _); reflexivity.
Qed.

(** ** The page buttons *)

Lemma previousPage_page (w : World Srv) :
  currentPage (view (exec (previousPage serve) w))
  = if 1 <? currentPage (view w) then currentPage (view w) - 1
    else currentPage (view w).
Proof.
  unfold previousPage. unfold_eff. cbn.
  branch; [|reflexivity]. reload. now destruct K as [-> _].
Qed.

Lemma nextPage_page (w : World Srv) :
  currentPage (view (exec (nextPage serve) w))
  = if Js.lt (Js.of_Z (currentPage (view w))) (totalPages (view w))
    then currentPage (view w) + 1
    else currentPage (view w).
Proof.
  unfold nextPage. unfold_eff. cbn.
  branch; [|reflexivity]. reload. now destruct K as [-> _].
Qed.

(** ** The delete dialog *)

Lemma confirmDelete_spec (w : World Srv) c id' :
  let id := String c id' in
  recordToDelete (view w) = Some id ->
  let w' := exec (confirmDelete serve) w in
  match serve (Delete id) (srv w) with
  | (Resolved resp, _) =>
      if ok resp then
        deleteModalActive (view w') = false
        /\ recordToDelete (view w') = None
        /\ log w' = (log w ++ [Fetch (Delete id);
                              Fetch (GetList (query (view w)))])%list
      else
        view w' = view w
        /\ log w' = (log w ++ [Fetch (Delete id);
                 Alert "Failed to delete record. Please try again."])%list
  | (Rejected, _) =>
      view w' = view w
      /\ log w' = (log w ++ [Fetch (Delete id);
               Alert "Failed to delete record. Please try again."])%list
  end.
Proof.
  intros id Hid. unfold confirmDelete. unfold_handlers. unfold_eff. cbn.
  rewrite Hid. cbn. subst id.
  destruct (serve _ _) as [[|resp] s1]; cbn.
  - now rewrite <- app_assoc.
  - destruct (ok resp); cbn; [|now rewrite <- app_assoc].
    reload. destruct K as (_ & _ & _ & _ & _ & _ & -> & _ & ->).
    now rewrite <- app_assoc.
Qed.

(** ** Programs that leave the page alone *)


Lemma same_page_ret {A} (a : A) : same_page (@ret Srv A a).
Proof. intros w. reflexivity. Qed.

Lemma same_page_throw {A} : same_page (@throw Srv A).
Proof. intros w. reflexivity. Qed.

Lemma same_page_get : same_page (@get Srv).
Proof. intros w. reflexivity. Qed.

Lemma same_page_emit e : same_page (@emit Srv e).
Proof. intros w. reflexivity. Qed.

Lemma same_page_modify f :
  (forall v, currentPage (f v) = currentPage v) ->
  same_page (@modify Srv f).
Proof. intros H w. apply H. Qed.

Lemma same_page_fetch r : same_page (fetch serve r).
Proof.
  intros w. unfold fetch. destruct (serve r (srv w)) as [[|resp] s']; reflexivity.
Qed.

Lemma same_page_bind {A B} (m : M Srv A) (k : A -> M Srv B) :
  same_page m -> (forall a, same_page (k a)) -> same_page (bind m k).
Proof.
  intros Hm Hk w. unfold bind. specialize (Hm w).
  destruct (m w) as [[a|] w1]; cbn in *; [|exact Hm].
  now rewrite Hk.
Qed.

Lemma same_page_try_catch {A} (m h : M Srv A) :
  same_page m -> same_page h -> same_page (try_catch m h).
Proof.
  intros Hm Hh w. unfold try_catch. specialize (Hm w).
  destruct (m w) as [[a|] w1]; cbn in *; [exact Hm |].
  now rewrite Hh.
Qed.

Lemma same_page_loadData : same_page (loadData serve).
Proof.
  intros w. destruct (loadData_spec w) as (v & s & -> & K & _). exact K.
Qed.

(** One step of a proof that a program leaves the page alone. *)
Ltac same_page_step :=
  lazymatch goal with
  | |- same_page (bind _ _) => apply same_page_bind; [|intros ?]
  | |- same_page (try_catch _ _) => apply same_page_try_catch
  | |- same_page (ret _) => apply same_page_ret
  | |- same_page throw => apply same_page_throw
  | |- same_page get => apply same_page_get
  | |- same_page (emit _) => apply same_page_emit
  | |- same_page (fetch _ _) => apply same_page_fetch
  | |- same_page (modify _) => apply same_page_modify; reflexivity
  | |- same_page (loadData _) => apply same_page_loadData
  | |- same_page (if ?b then _ else _) => destruct b
  | |- same_page (match ?x with _ => _ end) => destruct x
  end.

Ltac same_page_auto := cbv zeta; repeat same_page_step.

Lemma same_page_closeModal : same_page (@closeModal Srv).
Proof. unfold closeModal. same_page_auto. Qed.

Lemma same_page_write payload : same_page (write serve payload).
Proof. unfold write. same_page_auto. Qed.

Lemma same_page_openEditModal id : same_page (openEditModal serve id).
Proof. unfold openEditModal, response_json. same_page_auto. Qed.

Lemma same_page_confirmDelete : same_page (confirmDelete serve).
Proof. unfold confirmDelete, closeDeleteModal. same_page_auto. Qed.

(** The tail of every [saveRecord]: write, close, reload. *)
Lemma same_page_commit payload : same_page (commit serve payload).
Proof.
  unfold commit.
  apply same_page_bind; [apply same_page_write | intros resp].
  destruct (negb (ok resp)); [apply same_page_throw |].
  apply same_page_bind; [apply same_page_closeModal | intros _].
  apply same_page_loadData.
Qed.

Context (Date_parse : string -> Js.number).

Lemma same_page_saveRecord k fd now :
  same_page (saveRecord Date_parse serve k fd now).
Proof.
  destruct k; cbn [saveRecord];
    unfold Student.saveRecord, Course.saveRecord, Course.getCourseByCode,
      Instructor.saveRecord, Employee.saveRecord, response_json;
    cbv zeta; apply same_page_try_catch;
    try apply same_page_emit;
    (destruct (negb (isValid _)); [apply same_page_emit |]);
    try apply same_page_commit.
  apply same_page_bind; [apply same_page_get | intros v].
  apply same_page_bind; [same_page_auto | intros e].
  destruct (truthy_element e).
  - apply same_page_emit.
  - apply same_page_commit.
Qed.

(** ** Every listener keeps the page at 1 or above *)

Lemma handle_page_ge_1 k a (w : World Srv) :
  1 <= currentPage (view w) ->
  1 <= currentPage (view (exec (handle Date_parse serve k a) w)).
Proof.
  intros H. destruct a; cbn [handle].
  - unfold exec. now rewrite same_page_loadData.
  - now rewrite (proj1 (proj2 (onSearchInput_spec _ _))).
  - now rewrite (proj1 (proj2 (onItemsPerPageChange_spec _ _))).
  - rewrite previousPage_page.
    destruct (Z.ltb_spec 1 (currentPage (view w))); lia.
  - rewrite nextPage_page. branch; lia.
  - now rewrite (proj1 (proj2 (sortBy_spec _ _))).
  - exact H.
  - unfold exec. now rewrite same_page_openEditModal.
  - exact H.
  - exact H.
  - exact H.
  - unfold exec. now rewrite same_page_confirmDelete.
  - unfold exec. now rewrite same_page_saveRecord.
Qed.

Lemma run_page_ge_1 k acts : forall w : World Srv,
  1 <= currentPage (view w) ->
  1 <= currentPage (view (run Date_parse serve k acts w)).
Proof.
  induction acts as [|a acts IH]; intros w H; cbn; [exact H |].
  apply IH, handle_page_ge_1, H.
Qed.

End WithServer.

End EngineFacts.

(* ================================================================== *)
(** * The query state *)
(* ================================================================== *)

Section QueryState.
Import DataTable App EngineFacts NumberFacts.
Context {Srv : Type} (serve : request -> Srv -> fetched * Srv).

(** C1, as the code has it.  Typing in the search box and choosing a
    page size set the page to 1 before the one fetch they issue, which
    asks for page 1.  A click on a sort header changes the sort column
    or the sort order and issues its fetch with the page left as it
    was. *)
Theorem query_change_page (w : World Srv) :
  (forall text,
     let w' := exec (onSearchInput serve text) w in
     searchQuery (view w') = text
     /\ currentPage (view w') = 1
     /\ exists q, log w' = (log w ++ [Fetch (GetList q)])%list
                  /\ q_page q = 1)
  /\ (forall selected,
        let w' := exec (onItemsPerPageChange serve selected) w in
        itemsPerPage (view w') = Js.parseInt selected
        /\ currentPage (view w') = 1
        /\ exists q, log w' = (log w ++ [Fetch (GetList q)])%list
                     /\ q_page q = 1)
  /\ (forall column,
        let w' := exec (sortBy serve column) w in
        currentPage (view w') = currentPage (view w)
        /\ exists q, log w' = (log w ++ [Fetch (GetList q)])%list
                     /\ q_page q = currentPage (view w)).
Proof.
  split; [|split].
  - intros text w'. destruct (onSearchInput_spec serve text w) as (L & P & Q).
    repeat split; [exact Q | exact P |]. eexists. split; [exact L |]. reflexivity.
  - intros sel w'.
    destruct (onItemsPerPageChange_spec serve sel w) as (L & P & Q).
    repeat split; [exact Q | exact P |]. eexists. split; [exact L |]. reflexivity.
  - intros column w'. destruct (sortBy_spec serve column w) as (L & P & _).
    split; [exact P |]. eexists. split; [exact L |].
    unfold toggle. destruct (decide _); reflexivity.
Qed.

(** C5.  A click on the header of a column other than the sorted one,
    or when none is sorted, makes it the sort column, ascending; a
    click on the sorted column keeps the column and flips the order. *)
Theorem sort_header_click (w : World Srv) (column : string) :
  let v := view w in
  let v' := view (exec (sortBy serve column) w) in
  (sortColumn v <> Some column ->
   sortColumn v' = Some column /\ sortOrder v' = asc)
  /\ (sortColumn v = Some column ->
      sortColumn v' = Some column
      /\ (sortOrder v = asc -> sortOrder v' = desc)
      /\ (sortOrder v = desc -> sortOrder v' = asc)).
Proof.
  intros v v'. destruct (sortBy_spec serve column w) as (_ & _ & C & O).
  fold v v' in C, O. rewrite C, O. unfold toggle.
  split; intros H; destruct (decide _) as [E|E]; try contradiction; cbn.
  - auto.
  - repeat split; [exact H | intros -> | intros ->]; reflexivity.
Qed.

(** C4.  A fetch that succeeds stores the total it is given, from the
    [X-Total-Count] header or else the number of rows, and for a page
    size of at least 1 and a total of at least 0 the page count it
    stores is the ceiling of total over size, 0 exactly when the
    total is 0. *)
Theorem total_pages_is_ceiling (w : World Srv) resp s1 rows
        (pageSize total : Z) :
  1 <= pageSize ->
  0 <= total ->
  itemsPerPage (view w) = Js.of_Z pageSize ->
  serve (GetList (query (view w))) (srv w) = (Resolved resp, s1) ->
  ok resp = true ->
  body resp = Some (JArray rows) ->
  counted (xTotalCount resp) rows = Js.of_Z total ->
  let v' := view (exec (loadData serve) w) in
  totalItems v' = Some (VNum (Js.of_Z total))
  /\ exists n, totalPages v' = Js.of_Z n
               /\ Rules.is_ceiling total pageSize n
               /\ (n = 0 <-> total = 0).
Proof.
  intros Hps Ht Hsize E Hok Hb Hc v'.
  destruct (loadData_ok serve w resp s1 rows E Hok Hb) as (_ & TI & TP).
  fold v' in TI, TP. rewrite Hc in TI, TP. rewrite Hsize in TP.
  split; [exact TI |].
  exists (- (- total / pageSize)).
  rewrite TP, pages_of_Z by lia.
  pose proof (ceiling_spec total pageSize ltac:(lia)) as C.
  repeat split; try apply C; apply (ceiling_zero total pageSize); auto; lia.
Qed.

(** C3, as the code has it.  In every state that the listeners reach
    from a fresh view the page is at least 1; [previousPage] never
    takes it below 1, and [nextPage] moves it only while it is below
    the page count of the latest load, so never above that count.
    Nothing brings the page back when a later load finds fewer
    pages. *)
Theorem page_bounds (Date_parse : string -> Js.number) (k : kind)
        (acts : list action) (s : Srv) :
  let w := run Date_parse serve k acts (start s) in
  1 <= currentPage (view w)
  /\ 1 <= currentPage (view (exec (previousPage serve) w))
  /\ (forall n, totalPages (view w) = Js.of_Z n ->
        currentPage (view (exec (nextPage serve) w))
        <= Z.max (currentPage (view w)) n).
Proof.
  intros w.
  assert (H : 1 <= currentPage (view w))
    by (apply run_page_ge_1; cbn; lia).
  split; [exact H |]. split.
  - rewrite previousPage_page.
    destruct (Z.ltb_spec 1 (currentPage (view w))); lia.
  - intros n Hn. rewrite nextPage_page, Hn, lt_of_Z.
    destruct (Z.ltb_spec (currentPage (view w)) n); lia.
Qed.

End QueryState.

(* ================================================================== *)
(** * Facts about the validators *)
(* ================================================================== *)

Module ValidationFacts.

#[local] Arguments String.append !s1 s2 / : simpl nomatch.

Lemma push_if_app c msg errs :
  push_if c msg errs = (errs ++ if c then [msg] else [])%list.
Proof. destruct c; cbn; [reflexivity | now rewrite app_nil_r]. Qed.

Lemma In_push_if c msg errs m :
  In m (push_if c msg errs) <-> In m errs \/ (c = true /\ m = msg).
Proof.
  rewrite push_if_app, in_app_iff. destruct c; cbn; intuition congruence.
Qed.

Lemma isValid_result errs : isValid (result_of errs) = true <-> errs = [].
Proof. destruct errs; cbn; split; congruence. Qed.

Lemma violations_cons r rules data :
  violations (r :: rules) data
  = ((if violated r data then [message r] else []) ++ violations rules data)%list.
Proof.
  unfold violations. rewrite filter_cons.
  destruct (violated r data); reflexivity.
Qed.

Lemma violations_nil data : violations [] data = [].
Proof. reflexivity. Qed.

(** A violated rule of the table has its message among the violations. *)
Lemma violations_complete rules data r :
  In r rules -> violated r data = true -> In (message r) (violations rules data).
Proof.
  induction rules as [|r' rules IH]; intros Hin Hv; [contradiction |].
  rewrite violations_cons, in_app_iff. destruct Hin as [->|Hin].
  - rewrite Hv. left. now left.
  - right. auto.
Qed.

Lemma join_contains sep errs e :
  In e errs -> exists pre post, join sep errs = pre ++ e ++ post.
Proof.
  induction errs as [|x errs IH]; [contradiction |].
  intros [->|Hin].
  - destruct errs as [|y errs].
    + exists "", "". cbn. now rewrite RegexFacts.append_empty_r.
    + exists "", (sep ++ join sep (y :: errs)). reflexivity.
  - destruct (IH Hin) as (pre & post & E).
    destruct errs as [|y errs]; [contradiction |].
    exists (x ++ sep ++ pre), post.
    change (join sep (x :: y :: errs)) with (x ++ sep ++ join sep (y :: errs)).
    now rewrite E, !RegexFacts.append_assoc.
Qed.

(** The alert of a failed validation shows every error. *)
Lemma alert_contains errs e :
  In e errs -> exists pre post, validation_alert errs = pre ++ e ++ post.
Proof.
  intros Hin. destruct (join_contains newline errs e Hin) as (pre & post & E).
  exists ("Validation errors:" ++ newline ++ pre), post.
  unfold validation_alert. now rewrite E, !RegexFacts.append_assoc.
Qed.

Section WithClock.
Context (Date_parse : string -> Js.number) (now : Z).

Lemma hireDate_check data errs :
  HireDate.check Date_parse now data errs
  = (errs ++ violations (Checks.hireDate Date_parse now) data)%list.
Proof.
  unfold HireDate.check, Checks.hireDate.
  rewrite !violations_cons, violations_nil. cbn [violated message].
  unfold HireDate.missing, HireDate.in_future, HireDate.too_old.
  destruct (Js.truthy (data !! "hireDate")); cbn [negb andb].
  - rewrite !push_if_app, <- app_assoc. cbn [app]. now rewrite app_nil_r.
  - reflexivity.
Qed.

End WithClock.

(** Each validator reports the violated rules of its table, all of
    them, in the order of the table. *)

Ltac by_rules :=
  rewrite ?hireDate_check; rewrite !push_if_app;
  unfold Checks.student, Checks.course, Checks.employee, Checks.instructor;
  rewrite <- ?app_assoc;
  repeat (rewrite ?violations_cons, ?violations_nil; cbn [app violated message]);
  rewrite ?app_nil_r; reflexivity.

Lemma validateStudent_rules data :
  errors (Student.validateStudent data) = violations Checks.student data.
Proof. unfold Student.validateStudent, result_of. cbn [errors]. by_rules. Qed.

Lemma validateCourse_rules data :
  errors (Course.validateCourse data) = violations Checks.course data.
Proof. unfold Course.validateCourse, result_of. cbn [errors]. by_rules. Qed.

Lemma validateEmployee_rules Date_parse now data :
  errors (Employee.validateEmployee Date_parse now data)
  = violations (Checks.employee Date_parse now) data.
Proof. unfold Employee.validateEmployee, result_of. cbn [errors]. by_rules. Qed.

Lemma validateInstructor_rules Date_parse now data :
  errors (Instructor.validateInstructor Date_parse now data)
  = violations (Checks.instructor Date_parse now) data.
Proof.
  unfold Instructor.validateInstructor, result_of. cbn [errors]. by_rules.
Qed.

End ValidationFacts.

(* ================================================================== *)
(** * The validation pipeline *)
(* ================================================================== *)

Section Validators.
Import ValidationFacts NumberFacts.

Lemma In_violations rules data m :
  In m (violations rules data) <->
  exists r, In r rules /\ violated r data = true /\ message r = m.
Proof.
  induction rules as [|r rules IH].
  - cbn. split; [contradiction | intros (r & [] & _)].
  - rewrite violations_cons, in_app_iff, IH. split.
    + intros [H|(r' & Hin & Hv & Hm)].
      * destruct (violated r data) eqn:Hv; [|contradiction].
        destruct H as [<-|[]]. exists r. cbn. auto.
      * exists r'. cbn. auto.
    + intros (r' & [<-|Hin] & Hv & Hm).
      * left. rewrite Hv. now left.
      * right. eauto.
Qed.

(** C9.  For an Employee or Instructor input whose hire date is
    present and parses to a valid date: a date after the time of the
    check is reported as in the future, a date before 2000-01-01 as
    too old, and a date from 2000-01-01 up to the time of the check
    gets neither report. *)
Theorem hire_date_bounds (Date_parse : string -> Js.number) (now : Z)
        (data : formdata) (h : string) (t : Z) (errs : list string) :
  data !! "hireDate" = Some h ->
  h <> "" ->
  Date_parse h = Js.of_Z t ->
  Date_parse "2000-01-01" = Js.of_Z Dates.floor2000 ->
  errs = errors (Employee.validateEmployee Date_parse now data)
  \/ errs = errors (Instructor.validateInstructor Date_parse now data) ->
  (now < t -> In "Hire date cannot be in the future" errs)
  /\ (t < Dates.floor2000 ->
      In "Hire date seems too old (before 2000)" errs)
  /\ (Dates.floor2000 <= t <= now ->
      ~ In "Hire date cannot be in the future" errs
      /\ ~ In "Hire date seems too old (before 2000)" errs).
Proof.
  intros Hh Hne Ht Hfloor Herrs.
  assert (Hf : HireDate.in_future Date_parse now data = (now <? t)).
  { unfold HireDate.in_future, field, Js.gt.
    rewrite Hh. change (default "" (Some h)) with h. rewrite Ht, lt_of_Z.
    destruct h; [contradiction | reflexivity]. }
  assert (Ho : HireDate.too_old Date_parse data = (t <? Dates.floor2000)).
  { unfold HireDate.too_old, field.
    rewrite Hh. change (default "" (Some h)) with h.
    rewrite Ht, Hfloor, lt_of_Z.
    destruct h; [contradiction | reflexivity]. }
  assert (Hfut : In "Hire date cannot be in the future" errs <-> now < t).
  { destruct Herrs as [-> | ->];
      rewrite ?validateEmployee_rules, ?validateInstructor_rules,
        In_violations; (split; [intros (r & Hin & Hv & Hm) | intros Hlt]).
    1, 3: cbn in Hin; decompose [or] Hin; try contradiction; subst r;
      cbn in Hm; try discriminate Hm; cbn in Hv; rewrite Hf in Hv; lia.
    all: eexists {| violated := HireDate.in_future Date_parse now |};
      cbn; rewrite Hf; repeat split; [intuition | lia]. }
  assert (Hold : In "Hire date seems too old (before 2000)" errs
                 <-> t < Dates.floor2000).
  { destruct Herrs as [-> | ->];
      rewrite ?validateEmployee_rules, ?validateInstructor_rules,
        In_violations; (split; [intros (r & Hin & Hv & Hm) | intros Hlt]).
    1, 3: cbn in Hin; decompose [or] Hin; try contradiction; subst r;
      cbn in Hm; try discriminate Hm; cbn in Hv; rewrite Ho in Hv; lia.
    all: eexists {| violated := HireDate.too_old Date_parse |};
      cbn; rewrite Ho; repeat split; [intuition | lia]. }
  rewrite Hfut, Hold. lia.
Qed.

End Validators.

(* ================================================================== *)
(** * Facts about saving *)
(* ================================================================== *)

Module SaveFacts.

Import DataTable App Frame EngineFacts.

#[local] Arguments query : simpl never.
#[local] Arguments write_request : simpl never.
#[local] Arguments validation_alert : simpl never.
#[local] Arguments Student.normalize : simpl never.
#[local] Arguments Course.normalize : simpl never.
#[local] Arguments body_of : simpl never.
#[local] Arguments Js.toUpperCase : simpl never.
#[local] Arguments field : simpl never.
#[local] Arguments String.append : simpl never.
#[local] Arguments Course.found : simpl never.
#[local] Arguments Course.returned : simpl never.
#[local] Arguments Course.first_course : simpl never.


Section WithServer.
Context {Srv : Type} (serve : request -> Srv -> fetched * Srv).

Lemma commit_spec payload (w : World Srv) :
  let req := write_request payload (view w) in
  commit serve payload w =
  match serve req (srv w) with
  | (Resolved resp, s1) =>
      if ok resp then
        loadData serve {| view := closed (view w); srv := s1;
                          log := log w ++ [Fetch req; FormReset] |}
      else
        (Throw, {| view := view w; srv := s1; log := log w ++ [Fetch req] |})
  | (Rejected, s1) =>
      (Throw, {| view := view w; srv := s1; log := log w ++ [Fetch req] |})
  end.
Proof.
  unfold commit, write, closeModal. unfold_eff. cbn.
  destruct (serve _ _) as [[|resp] s1]; cbn; [reflexivity |].
  destruct (ok resp); cbn; [|reflexivity].
  now rewrite <- app_assoc.
Qed.

(** A write that succeeds: the modal is closed, the form reset, the
    table reloaded. *)
Lemma commit_ok payload (w : World Srv) resp s1 :
  serve (write_request payload (view w)) (srv w) = (Resolved resp, s1) ->
  ok resp = true ->
  exists v' s',
    commit serve payload w =
      (Ok tt, {| view := v'; srv := s';
                 log := log w ++ [Fetch (write_request payload (view w));
                                  FormReset;
                                  Fetch (GetList (query (view w)))] |})
    /\ formModalActive v' = false
    /\ currentRecord v' = None.
Proof.
  intros E Hok. rewrite commit_spec. cbv zeta. rewrite E, Hok.
  destruct (loadData_spec serve
              {| view := closed (view w); srv := s1;
                 log := log w ++ [Fetch (write_request payload (view w));
                                  FormReset] |})
    as (v' & s' & -> & K).
  destruct K as (_ & _ & _ & _ & _ & Hc & _ & Hf & _).
  exists v', s'. cbn in *. rewrite <- app_assoc. auto.
Qed.

(** The events a write adds, whatever the server answers: the request
    first, then no lookup by code. *)
Lemma commit_log payload h (w : World Srv) :
  exists rest,
    log (exec (try_catch (commit serve payload) (emit (Alert h))) w)
    = (log w ++ Fetch (write_request payload (view w)) :: rest)%list
    /\ forall code, ~ In (Fetch (GetByCode code)) rest.
Proof.
  unfold exec, try_catch. rewrite commit_spec. cbv zeta.
  destruct (serve _ _) as [[|resp] s1].
  - exists [Alert h]. cbn. rewrite <- app_assoc. split; [reflexivity |].
    intros code [H|[]]. discriminate.
  - destruct (ok resp).
    + match goal with
      | |- context [loadData serve ?w0] =>
          destruct (loadData_spec serve w0) as (v' & s' & -> & _)
      end.
      exists [FormReset; Fetch (GetList (query (closed (view w))))].
      cbn. rewrite <- app_assoc. split; [reflexivity |].
      intros code [H|[H|[]]]; discriminate.
    + exists [Alert h]. cbn. rewrite <- app_assoc. split; [reflexivity |].
      intros code [H|[]]. discriminate.
Qed.

Lemma getCourseByCode_spec code (w : World Srv) :
  Course.getCourseByCode serve code w =
  (Ok (Course.returned (fst (serve (GetByCode code) (srv w)))),
   {| view := view w; srv := snd (serve (GetByCode code) (srv w));
      log := log w ++ [Fetch (GetByCode code)] |}).
Proof.
  unfold Course.getCourseByCode, Course.returned, json_of, response_json.
  unfold_eff. cbn.
  destruct (serve _ _) as [[|resp] s1]; cbn; [reflexivity |].
  destruct (ok resp); cbn; [|reflexivity].
  destruct (body resp) as [j|]; reflexivity.
Qed.

(** The lookup finds a course exactly when what it returns is truthy. *)
Lemma found_truthy (a : fetched) :
  truthy_element (Course.returned a) = bool_decide (is_Some (Course.found a)).
Proof.
  unfold Course.found. destruct (truthy_element (Course.returned a)) eqn:T.
  - destruct (Course.returned a); [reflexivity | discriminate T].
  - reflexivity.
Qed.

(** ** The shape of the four [saveRecord] *)

Context (Date_parse : string -> Js.number).

(** An invalid form: one alert, nothing else. *)
Lemma saveRecord_invalid k fd now (w : World Srv) :
  isValid (validate Date_parse now k fd) = false ->
  saveRecord Date_parse serve k fd now w =
  (Ok tt, {| view := view w; srv := srv w;
             log := log w ++ [Alert (validation_alert
                        (errors (validate Date_parse now k fd)))] |}).
Proof.
  intros H. destruct k; cbn [saveRecord validate] in *;
    unfold Student.saveRecord, Course.saveRecord, Instructor.saveRecord,
      Employee.saveRecord; cbv zeta; rewrite H; reflexivity.
Qed.

(** A valid form of a kind other than courses: the write and what
    follows it, under the [catch] of the kind. *)
Lemma saveRecord_valid k fd now (w : World Srv) :
  isValid (validate Date_parse now k fd) = true ->
  k <> courses ->
  exists h,
    saveRecord Date_parse serve k fd now w =
    try_catch (commit serve (payload k fd)) (emit (Alert h)) w.
Proof.
  intros H Hk. destruct k; [| contradiction | |];
    cbn [saveRecord validate payload] in *;
    unfold Student.saveRecord, Instructor.saveRecord, Employee.saveRecord;
    cbv zeta; unfold try_catch at 1; rewrite H; cbn [negb];
    eexists; reflexivity.
Qed.

(** A valid course: the lookup on the create path, then the write
    when no course is found. *)
Lemma saveRecord_course fd (w : World Srv) :
  isValid (Course.validateCourse fd) = true ->
  let code := Js.toUpperCase (field fd "code") in
  let h := "Failed to save course. Please try again." in
  Course.saveRecord serve fd w =
  match currentRecord (view w) with
  | Some _ => try_catch (commit serve (Course.normalize fd)) (emit (Alert h)) w
  | None =>
      let w1 := {| view := view w;
                   srv := snd (serve (GetByCode code) (srv w));
                   log := log w ++ [Fetch (GetByCode code)] |} in
      match Course.found (fst (serve (GetByCode code) (srv w))) with
      | Some _ =>
          (Ok tt, {| view := view w1; srv := srv w1;
                     log := log w1 ++ [Alert ("Course code " ++ code
                                              ++ " already exists!")] |})
      | None => try_catch (commit serve (Course.normalize fd)) (emit (Alert h)) w1
      end
  end.
Proof.
  intros H code h. unfold Course.saveRecord. cbv zeta.
  unfold try_catch at 1. rewrite H. cbn [negb].
  unfold bind at 1. unfold get at 1. cbn [view].
  destruct (currentRecord (view w)) as [cur|] eqn:Hc.
  - unfold bind at 1. unfold ret at 1. reflexivity.
  - unfold bind at 1. rewrite getCourseByCode_spec.
    fold code. cbn [fst snd]. rewrite found_truthy.
    destruct (Course.found _); reflexivity.
Qed.

End WithServer.

End SaveFacts.

(* ================================================================== *)
(** * The modal workflow *)
(* ================================================================== *)

Section ModalWorkflow.
Import DataTable App Frame EngineFacts SaveFacts ValidationFacts.
Context {Srv : Type} (serve : request -> Srv -> fetched * Srv).

(** C2, as the code has it.  On confirm with a record id pending: when
    the delete succeeds the delete modal is closed, the pending id is
    cleared and exactly one reload follows the delete; when it fails,
    by its status or in transport, an error is shown, no reload is
    issued, and the view is left as it was: the delete modal is still
    open on the same id. *)
Theorem delete_confirm (w : World Srv) (id : string) :
  recordToDelete (view w) = Some id ->
  id <> "" ->
  let w' := exec (confirmDelete serve) w in
  (forall resp s1,
     serve (Delete id) (srv w) = (Resolved resp, s1) ->
     ok resp = true ->
     deleteModalActive (view w') = false
     /\ recordToDelete (view w') = None
     /\ log w' = (log w ++ [Fetch (Delete id);
                            Fetch (GetList (query (view w)))])%list)
  /\ (forall a s1,
        serve (Delete id) (srv w) = (a, s1) ->
        a = Rejected \/ (exists resp, a = Resolved resp /\ ok resp = false) ->
        view w' = view w
        /\ log w' = (log w ++ [Fetch (Delete id);
                 Alert "Failed to delete record. Please try again."])%list).
Proof.
  intros Hid Hne w'. destruct id as [|c id']; [contradiction |].
  pose proof (confirmDelete_spec serve w c id' Hid) as S.
  cbv zeta in S. fold w' in S. split.
  - intros resp s1 E Hok. now rewrite E, Hok in S.
  - intros a s1 E [-> | (resp & -> & Hok)]; rewrite E in S;
      [|rewrite Hok in S]; exact S.
Qed.

(** C6.  On save with no record being edited: when validation fails,
    no request is sent, the view and so the open modal are left as
    they were, and one alert shows every validation error; when
    validation succeeds and the create request succeeds, exactly one
    create and then exactly one reload are issued, the modal is
    closed, the form reset and the current record cleared.  A course
    is looked up by its code before it is created. *)
Theorem add_modal_save (Date_parse : string -> Js.number) (now : Z)
        (k : kind) (fd : formdata) (w : World Srv) :
  currentRecord (view w) = None ->
  let res := validate Date_parse now k fd in
  let w' := exec (saveRecord Date_parse serve k fd now) w in
  (isValid res = false ->
   view w' = view w
   /\ srv w' = srv w
   /\ log w' = (log w ++ [Alert (validation_alert (errors res))])%list
   /\ forall e, In e (errors res) ->
        exists pre post, validation_alert (errors res) = pre ++ e ++ post)
  /\ (isValid res = true ->
      k <> courses ->
      forall resp s1,
        serve (Post (payload k fd)) (srv w) = (Resolved resp, s1) ->
        ok resp = true ->
        formModalActive (view w') = false
        /\ currentRecord (view w') = None
        /\ log w' = (log w ++ [Fetch (Post (payload k fd));
                               FormReset;
                               Fetch (GetList (query (view w)))])%list)
  /\ (isValid res = true ->
      k = courses ->
      let code := Js.toUpperCase (field fd "code") in
      forall a s0 resp s1,
        serve (GetByCode code) (srv w) = (a, s0) ->
        Course.found a = None ->
        serve (Post (payload k fd)) s0 = (Resolved resp, s1) ->
        ok resp = true ->
        formModalActive (view w') = false
        /\ currentRecord (view w') = None
        /\ log w' = (log w ++ [Fetch (GetByCode code);
                               Fetch (Post (payload k fd));
                               FormReset;
                               Fetch (GetList (query (view w)))])%list).
Proof.
  intros Hc res w'. split; [|split].
  - intros Hv. unfold w', exec.
    rewrite (saveRecord_invalid serve Date_parse k fd now w Hv). cbn.
    repeat split. apply alert_contains.
  - intros Hv Hk resp s1 E Hok. unfold w', exec.
    destruct (saveRecord_valid serve Date_parse k fd now w Hv Hk) as (h & ->).
    destruct (commit_ok serve (payload k fd) w resp s1) as (v' & s' & C & F & R);
      [unfold write_request; now rewrite Hc | exact Hok |].
    unfold try_catch. rewrite C. cbn.
    unfold write_request. rewrite Hc. auto.
  - intros Hv -> code a s0 resp s1 E Hf E' Hok. unfold w', exec.
    cbn [saveRecord payload validate] in *.
    rewrite (saveRecord_course serve fd w Hv). cbv zeta. rewrite Hc.
    fold code. rewrite E. cbn [fst snd]. rewrite Hf.
    match goal with
    | |- context [try_catch _ _ ?w1] =>
        destruct (commit_ok serve (Course.normalize fd) w1 resp s1)
          as (v' & s' & C & F & R);
        [unfold write_request; cbn [view srv]; now rewrite Hc | exact Hok |]
    end.
    unfold try_catch. rewrite C. cbn.
    unfold write_request. rewrite Hc, <- app_assoc. auto.
Qed.

(** C8.  The code of a course passes validation exactly when, once in
    upper case, it is two to four capital letters followed by three
    digits.  A valid course is written with its code in upper case.
    With no record being edited the save first looks the code up, and
    when the lookup lists a course it stops there: one alert, no
    write.  With a record being edited the save goes straight to the
    write and looks nothing up. *)
Theorem course_code (fd : formdata) (c : string) (w : World Srv) :
  fd !! "code" = Some c ->
  let code := Js.toUpperCase c in
  let w' := exec (Course.saveRecord serve fd) w in
  (~ In "Course code must be in format: CS101, ENG201, BUS301, etc."
        (errors (Course.validateCourse fd))
   <-> Rules.code_shape code)
  /\ (isValid (Course.validateCourse fd) = true ->
      Course.normalize fd !! "code" = Some (VStr code)
      /\ (currentRecord (view w) = None ->
          forall a s0 r,
            serve (GetByCode code) (srv w) = (a, s0) ->
            Course.found a = Some r ->
            view w' = view w
            /\ log w' = (log w ++ [Fetch (GetByCode code);
                          Alert ("Course code " ++ code
                                 ++ " already exists!")])%list)
      /\ (forall cur,
            currentRecord (view w) = Some cur ->
            exists rest,
              log w' = (log w ++ Fetch (Put (id_of cur)
                                  (with_id (Course.normalize fd) cur))
                                 :: rest)%list
              /\ forall x, ~ In (Fetch (GetByCode x)) rest)).
Proof.
  intros Hcode code w'.
  assert (Hfield : field fd "code" = c) by (unfold field; now rewrite Hcode).
  split.
  - rewrite validateCourse_rules, In_violations.
    rewrite <- RegexFacts.codeRegex_shape. fold code.
    assert (Hv : Course.code_violated fd
                 = negb (Js.truthy (Some c))
                   || negb (Regex.test Course.codeRegex code)).
    { unfold Course.code_violated. now rewrite Hfield, Hcode. }
    assert (Hempty : c = "" -> Regex.test Course.codeRegex code = false).
    { intros ->. reflexivity. }
    split.
    + intros Hn. destruct (Regex.test Course.codeRegex code) eqn:T;
        [reflexivity | exfalso].
      apply Hn. eexists {| violated := Course.code_violated |}.
      cbn. rewrite Hv. repeat split; [intuition | apply orb_true_r].
    + intros T (r & Hin & Hr & Hm).
      cbn in Hin. decompose [or] Hin; try contradiction; subst r;
        cbn in Hm; try discriminate Hm.
      cbn in Hr. rewrite Hv, T in Hr.
      destruct c; [now rewrite Hempty in T | discriminate Hr].
  - intros Hv. split; [|split].
    + unfold Course.normalize. rewrite lookup_insert_ne by discriminate.
      rewrite lookup_insert_eq, Hfield. reflexivity.
    + intros Hc a s0 r E Hf. unfold w', exec.
      rewrite (saveRecord_course serve fd w Hv). cbv zeta.
      rewrite Hc, Hfield. fold code. rewrite E. cbn [fst snd]. rewrite Hf.
      cbn. rewrite <- app_assoc. auto.
    + intros cur Hc. unfold w'.
      pose proof (saveRecord_course serve fd w Hv) as S. cbv zeta in S.
      rewrite Hc in S.
      destruct (commit_log serve (Course.normalize fd)
                  "Failed to save course. Please try again." w)
        as (rest & L & N).
      exists rest. unfold exec in *. rewrite S, L.
      unfold write_request. rewrite Hc. auto.
Qed.

(** C10.  The student form with gpa ["3.5abc"], the other fields
    valid, passes validation with no error at all, because
    [parseFloat] reads the prefix ["3.5"]; and the save that follows
    sends 3.5 as the [gpa] of the body it writes. *)
Theorem gpa_numeric_prefix (w : World Srv) :
  Examples.ann !! "gpa" = Some "3.5abc"
  /\ Js.parseFloat "3.5abc" = Js.Fin (7 # 2)
  /\ Student.gpa_violated Examples.ann = false
  /\ Student.validateStudent Examples.ann
     = {| isValid := true; errors := [] |}
  /\ exists req b rest,
       log (exec (Student.saveRecord serve Examples.ann) w)
       = (log w ++ Fetch req :: rest)%list
       /\ request_body req = Some b
       /\ b !! "gpa" = Some (VNum (Js.Fin (7 # 2))).
Proof.
  repeat split; try reflexivity.
  destruct (saveRecord_valid serve (fun _ => Js.NaN) students Examples.ann 0 w)
    as (h & S); [reflexivity | discriminate |].
  cbn [saveRecord payload] in S.
  destruct (commit_log serve (Student.normalize Examples.ann) h w)
    as (rest & L & _).
  unfold exec in *. rewrite S, L.
  unfold write_request. destruct (currentRecord (view w)) as [cur|].
  - eexists _, _, rest. split; [reflexivity |]. split; [reflexivity |].
    unfold with_id. destruct (id_of cur).
    + rewrite lookup_insert_ne by discriminate. reflexivity.
    + rewrite lookup_delete_ne by discriminate. reflexivity.
  - eexists _, _, rest. split; [reflexivity |]. split; reflexivity.
Qed.

End ModalWorkflow.

(* ================================================================== *)
(** * The claims on sample runs *)
(* ================================================================== *)

Section SampleRuns.
Import DataTable App Script Runs.

(** Against C1 as stated: on the second page a click on a sort header
    changes the sort column, and the fetch it issues asks for page 2,
    not for page 1. *)
Lemma sort_click_keeps_page :
  sortColumn (view on_page2) = None
  /\ sortColumn (view (exec (sortBy serve "name") on_page2)) = Some "name"
  /\ last (log (exec (sortBy serve "name") on_page2))
     = Some (Fetch (GetList {| q_page := 2; q_limit := Js.of_Z 10;
                               q_text := None;
                               q_sort := Some ("name", asc) |}))
  /\ currentPage (view (exec (sortBy serve "name") on_page2)) = 2.
Proof. vm_compute. auto. Qed.

(** Against C2 as stated: a delete that the server refuses leaves the
    delete modal open with the record id still pending; so does a
    delete that fails in transport. *)
Lemma failed_delete_stays_open :
  deleteModalActive (view (exec (confirmDelete serve) (confirm [failed])))
  = true
  /\ recordToDelete (view (exec (confirmDelete serve) (confirm [failed])))
     = Some "3"
  /\ deleteModalActive (view (exec (confirmDelete serve) (confirm [])))
     = true
  /\ recordToDelete (view (exec (confirmDelete serve) (confirm [])))
     = Some "3".
Proof. vm_compute. auto. Qed.

(** Against C3 as stated: after the only row of page 2 is deleted the
    view is on page 2 of ten items, ten a page, whose ceiling is 1. *)
Lemma page_above_page_count :
  currentPage (view after_delete) = 2
  /\ totalItems (view after_delete) = Some (VNum (Js.of_Z 10))
  /\ itemsPerPage (view after_delete) = Js.of_Z 10
  /\ totalPages (view after_delete) = Js.of_Z 1
  /\ Rules.is_ceiling 10 10 1
  /\ ~ currentPage (view after_delete) <= Z.max 1 1.
Proof.
  vm_compute. repeat split; try discriminate. intros H. apply H. reflexivity.
Qed.

End SampleRuns.

Section Witnesses.
Import DataTable App Script Runs.

(** [delete_confirm] on the dialog open on row 3: the server accepts
    the delete, then refuses it. *)
Lemma delete_confirm_witness :
  (deleteModalActive (view (exec (confirmDelete serve)
                              (confirm [ok_empty; page1]))) = false
   /\ recordToDelete (view (exec (confirmDelete serve)
                              (confirm [ok_empty; page1]))) = None
   /\ log (exec (confirmDelete serve) (confirm [ok_empty; page1]))
      = (log (confirm [ok_empty; page1])
         ++ [Fetch (Delete "3");
             Fetch (GetList (query (view (confirm [ok_empty; page1]))))])%list)
  /\ (view (exec (confirmDelete serve) (confirm [failed]))
      = view (confirm [failed])
      /\ log (exec (confirmDelete serve) (confirm [failed]))
         = (log (confirm [failed])
            ++ [Fetch (Delete "3");
                Alert "Failed to delete record. Please try again."])%list).
Proof.
  split.
  - refine (proj1 (delete_confirm serve (confirm [ok_empty; page1]) "3"
                     _ _) _ [page1] _ _);
      [reflexivity | discriminate | reflexivity | reflexivity].
  - refine (proj2 (delete_confirm serve (confirm [failed]) "3" _ _)
                  failed [] _ _);
      [reflexivity | discriminate | reflexivity |].
    right. eexists. split; reflexivity.
Defined.

(** [page_bounds] on the run that deletes the only row of page 2. *)
Lemma page_bounds_witness :
  1 <= currentPage (view after_delete)
  /\ 1 <= currentPage (view (exec (previousPage serve) after_delete))
  /\ currentPage (view (exec (nextPage serve) after_delete))
     <= Z.max (currentPage (view after_delete)) 1.
Proof.
  destruct (page_bounds serve Dates.parse students
              [Init; NextClick; DeleteClick "11"; DeleteConfirmClick]
              [page1; page2; ok_empty; ok_list [] "10"])
    as (A & B & C).
  split; [exact A |]. split; [exact B |].
  apply C. reflexivity.
Defined.

(** [total_pages_is_ceiling] on the first load of eleven students. *)
Lemma total_pages_is_ceiling_witness :
  totalItems (view (exec (loadData serve) (start [page1])))
  = Some (VNum (Js.of_Z 11))
  /\ exists n,
       totalPages (view (exec (loadData serve) (start [page1]))) = Js.of_Z n
       /\ Rules.is_ceiling 11 10 n
       /\ (n = 0 <-> 11 = 0).
Proof.
  refine (total_pages_is_ceiling serve (start [page1])
            {| ok := true; xTotalCount := Some "11";
               body := Some (JArray (rows 1 10)) |}
            [] (rows 1 10) 10 11 _ _ _ _ _ _ _);
    try reflexivity; lia.
Defined.

(** [sort_header_click] on a first and a second click on [Name]. *)
Lemma sort_header_click_witness :
  (sortColumn (view (exec (sortBy serve "name") on_page2)) = Some "name"
   /\ sortOrder (view (exec (sortBy serve "name") on_page2)) = asc)
  /\ (sortColumn (view (exec (sortBy serve "name")
                          (exec (sortBy serve "name") on_page2)))
      = Some "name"
      /\ sortOrder (view (exec (sortBy serve "name")
                            (exec (sortBy serve "name") on_page2)))
         = desc).
Proof.
  split.
  - apply (proj1 (sort_header_click serve on_page2 "name")). discriminate.
  - destruct (proj2 (sort_header_click serve
                       (exec (sortBy serve "name") on_page2) "name")
                    eq_refl) as (C & A & _).
    split; [exact C | apply A; reflexivity].
Defined.

(** [add_modal_save] on an empty student form, on a valid one, and
    on a valid course whose code is free. *)
Lemma add_modal_save_witness :
  (view (exec (saveRecord Dates.parse serve students ∅ Examples.today)
           (adding []))
   = view (adding [])
   /\ log (exec (saveRecord Dates.parse serve students ∅ Examples.today)
             (adding []))
      = (log (adding [])
         ++ [Alert (validation_alert
                      (errors (Student.validateStudent ∅)))])%list)
  /\ (formModalActive
        (view (exec (saveRecord Dates.parse serve students Examples.ann
                       Examples.today)
                 (adding [ok_empty; page1]))) = false
      /\ log (exec (saveRecord Dates.parse serve students Examples.ann
                      Examples.today)
                (adding [ok_empty; page1]))
         = (log (adding [ok_empty; page1])
            ++ [Fetch (Post (Student.normalize Examples.ann));
                FormReset;
                Fetch (GetList (query (view (adding [ok_empty; page1]))))])%list)
  /\ (formModalActive
        (view (exec (saveRecord Dates.parse serve courses Examples.cs101
                       Examples.today)
                 (adding [ok_list [] "0"; ok_empty; page1]))) = false
      /\ log (exec (saveRecord Dates.parse serve courses Examples.cs101
                      Examples.today)
                (adding [ok_list [] "0"; ok_empty; page1]))
         = (log (adding [ok_list [] "0"; ok_empty; page1])
            ++ [Fetch (GetByCode "CS101");
                Fetch (Post (Course.normalize Examples.cs101));
                FormReset;
                Fetch (GetList (query (view (adding [ok_list [] "0";
                                                     ok_empty; page1]))))])%list).
Proof.
  assert (Hbad : isValid (validate Dates.parse Examples.today students ∅)
                 = false) by (vm_compute; reflexivity).
  assert (Hann : isValid (validate Dates.parse Examples.today students
                            Examples.ann) = true)
    by (vm_compute; reflexivity).
  assert (Hcs : isValid (validate Dates.parse Examples.today courses
                           Examples.cs101) = true)
    by (vm_compute; reflexivity).
  assert (Hne : students <> courses) by discriminate.
  split; [|split].
  - destruct (proj1 (add_modal_save serve Dates.parse Examples.today
                       students ∅ (adding []) eq_refl) Hbad)
      as (V & _ & L & _).
    split; [exact V | exact L].
  - assert (E : serve (Post (payload students Examples.ann))
                  (srv (adding [ok_empty; page1]))
                = (ok_empty, [page1])) by (vm_compute; reflexivity).
    destruct (proj1 (proj2 (add_modal_save serve Dates.parse Examples.today
                       students Examples.ann (adding [ok_empty; page1])
                       eq_refl)) Hann Hne _ _ E eq_refl)
      as (F & _ & L).
    split; [exact F | exact L].
  - assert (E0 : serve (GetByCode (Js.toUpperCase
                                     (field Examples.cs101 "code")))
                   (srv (adding [ok_list [] "0"; ok_empty; page1]))
                 = (ok_list [] "0", [ok_empty; page1]))
      by (vm_compute; reflexivity).
    assert (E1 : serve (Post (payload courses Examples.cs101))
                   [ok_empty; page1]
                 = (ok_empty, [page1])) by (vm_compute; reflexivity).
    destruct (proj2 (proj2 (add_modal_save serve Dates.parse Examples.today
                       courses Examples.cs101
                       (adding [ok_list [] "0"; ok_empty; page1])
                       eq_refl)) Hcs eq_refl _ _ _ _ E0 eq_refl E1 eq_refl)
      as (F & _ & L).
    split; [exact F |]. rewrite L. vm_compute. reflexivity.
Defined.

(** [course_code] on the course [cs101]: added while [CS101] exists,
    and saved from the edit form. *)
Lemma course_code_witness :
  (~ In "Course code must be in format: CS101, ENG201, BUS301, etc."
        (errors (Course.validateCourse Examples.cs101))
   <-> Rules.code_shape "CS101")
  /\ Course.normalize Examples.cs101 !! "code" = Some (VStr "CS101")
  /\ (view (exec (Course.saveRecord serve Examples.cs101)
              (adding [ok_list [cs100] "1"]))
      = view (adding [ok_list [cs100] "1"])
      /\ log (exec (Course.saveRecord serve Examples.cs101)
                (adding [ok_list [cs100] "1"]))
         = (log (adding [ok_list [cs100] "1"])
            ++ [Fetch (GetByCode "CS101");
                Alert "Course code CS101 already exists!"])%list)
  /\ (exists rest,
        log (exec (Course.saveRecord serve Examples.cs101)
               (editing [ok_empty; page1]))
        = (log (editing [ok_empty; page1])
           ++ Fetch (Put (id_of (JObject cs100))
                       (with_id (Course.normalize Examples.cs101)
                                (JObject cs100)))
              :: rest)%list
        /\ forall x, ~ In (Fetch (GetByCode x)) rest).
Proof.
  assert (Hv : isValid (Course.validateCourse Examples.cs101) = true)
    by (vm_compute; reflexivity).
  destruct (course_code serve Examples.cs101 "cs101"
              (adding [ok_list [cs100] "1"]) eq_refl) as (S & V).
  destruct (V Hv) as (N & C & _).
  destruct (course_code serve Examples.cs101 "cs101"
              (editing [ok_empty; page1]) eq_refl) as (_ & V').
  destruct (V' Hv) as (_ & _ & E).
  split; [exact S |]. split; [exact N |]. split.
  - exact (C eq_refl (ok_list [cs100] "1") [] (Row cs100) eq_refl eq_refl).
  - exact (E (JObject cs100) eq_refl).
Defined.

(** [hire_date_bounds] on hire dates in 2030, in 1999 and on
    2000-01-01, checked on 2026-11-02. *)
Lemma hire_date_bounds_witness :
  In "Hire date cannot be in the future"
     (errors (Employee.validateEmployee Dates.parse Examples.today
                (Examples.clerk "2030-01-01")))
  /\ In "Hire date seems too old (before 2000)"
        (errors (Instructor.validateInstructor Dates.parse Examples.today
                   (Examples.lecturer "1999-12-31")))
  /\ (~ In "Hire date cannot be in the future"
          (errors (Employee.validateEmployee Dates.parse Examples.today
                     (Examples.clerk "2000-01-01")))
      /\ ~ In "Hire date seems too old (before 2000)"
            (errors (Employee.validateEmployee Dates.parse Examples.today
                       (Examples.clerk "2000-01-01")))).
Proof.
  split; [|split].
  - refine (proj1 (hire_date_bounds Dates.parse Examples.today
                     (Examples.clerk "2030-01-01") "2030-01-01"
                     1893456000000 _ eq_refl _ eq_refl eq_refl
                     (or_introl eq_refl)) _);
      [discriminate | reflexivity].
  - refine (proj1 (proj2 (hire_date_bounds Dates.parse Examples.today
                     (Examples.lecturer "1999-12-31") "1999-12-31"
                     946598400000 _ eq_refl _ eq_refl eq_refl
                     (or_intror eq_refl))) _);
      [discriminate | reflexivity].
  - refine (proj2 (proj2 (hire_date_bounds Dates.parse Examples.today
                     (Examples.clerk "2000-01-01") "2000-01-01"
                     946684800000 _ eq_refl _ eq_refl eq_refl
                     (or_introl eq_refl))) _);
      [discriminate | unfold Dates.floor2000, Examples.today; lia].
Defined.

End Witnesses.

(* ================================================================== *)
(** * More facts about the handlers *)
(* ================================================================== *)

Module OutcomeFacts.

Import DataTable App Frame EngineFacts.

#[local] Arguments query : simpl never.

Lemma eq_not_lt (x y : Js.number) : Js.eq x y = true -> Js.lt x y = false.
Proof.
  destruct x as [|s|a], y as [|t|b]; cbn; try discriminate.
  - destruct s, t; cbn; congruence.
  - intros H. apply Qeq_bool_iff in H.
    apply negb_false_iff, Qle_bool_iff. rewrite H. apply Qle_refl.
Qed.

Lemma zero_not_above (p : Z) (y : Js.number) :
  1 <= p -> Js.eq y (Js.of_Z 0) = true -> Js.lt (Js.of_Z p) y = false.
Proof.
  intros Hp. destruct y as [|t|b]; cbn; try discriminate.
  intros H. apply Qeq_bool_iff in H.
  apply negb_false_iff, Qle_bool_iff. rewrite H.
  change 0%Q with (inject_Z 0). rewrite <- Zle_Qle. lia.
Qed.

Section WithServer.
Context {Srv : Type} (serve : request -> Srv -> fetched * Srv).

(** ** The handlers as one reload of a changed view *)

Lemma sortBy_eq column (w : World Srv) :
  sortBy serve column w
  = loadData serve {| view := toggle column (view w);
                      srv := srv w; log := log w |}.
Proof. reflexivity. Qed.

Lemma onSearchInput_eq text (w : World Srv) :
  onSearchInput serve text w
  = loadData serve {| view := set_currentPage 1
                                (set_searchQuery text (view w));
                      srv := srv w; log := log w |}.
Proof. reflexivity. Qed.

Lemma onItemsPerPageChange_eq sel (w : World Srv) :
  onItemsPerPageChange serve sel w
  = loadData serve {| view := set_currentPage 1
                                (set_itemsPerPage (Js.parseInt sel) (view w));
                      srv := srv w; log := log w |}.
Proof. reflexivity. Qed.

Lemma previousPage_eq (w : World Srv) :
  previousPage serve w
  = if 1 <? currentPage (view w) then
      loadData serve {| view := set_currentPage (currentPage (view w) - 1)
                                  (view w);
                        srv := srv w; log := log w |}
    else (Ok tt, w).
Proof.
  unfold previousPage, bind, get. cbn.
  destruct (1 <? currentPage (view w)); reflexivity.
Qed.

Lemma nextPage_eq (w : World Srv) :
  nextPage serve w
  = if Js.lt (Js.of_Z (currentPage (view w))) (totalPages (view w)) then
      loadData serve {| view := set_currentPage (currentPage (view w) + 1)
                                  (view w);
                        srv := srv w; log := log w |}
    else (Ok tt, w).
Proof.
  unfold nextPage, bind, get. cbn -[Js.lt].
  destruct (Js.lt _ _); reflexivity.
Qed.

(** ** The two outcomes of a reload *)

Lemma loadData_failed (w : World Srv) a s1 :
  serve (GetList (query (view w))) (srv w) = (a, s1) ->
  json_of a = None ->
  loadData serve w
  = (Ok tt, {| view := set_loading false
                         (set_errorText (Some load_error) (view w));
               srv := s1;
               log := (log w ++ [Fetch (GetList (query (view w)))])%list |}).
Proof.
  intros E H. unfold loadData. unfold_handlers. unfold_eff. cbn.
  match goal with
  | |- context [serve ?r ?s] =>
      change (serve r s) with (serve (GetList (query (view w))) (srv w))
  end.
  rewrite E. destruct a as [|resp]; cbn; [reflexivity |].
  cbn in H. destruct (ok resp); cbn; [|reflexivity].
  rewrite H. reflexivity.
Qed.

(** A reload whose answer is a success with a body that parses: the
    body and the counts are stored, whether the table then renders or
    not. *)
Lemma loadData_stored (w : World Srv) resp s1 j :
  serve (GetList (query (view w))) (srv w) = (Resolved resp, s1) ->
  ok resp = true ->
  body resp = Some j ->
  let v' := view (exec (loadData serve) w) in
  data v' = j
  /\ totalItems v' = total_of (xTotalCount resp) j
  /\ totalPages v'
     = pages (to_number (total_of (xTotalCount resp) j)) (itemsPerPage (view w))
  /\ errorText v' = (if renders j then None else Some load_error)
  /\ loading v' = false.
Proof.
  intros E Hok Hb. unfold loadData. unfold_handlers. unfold_eff. cbn.
  match goal with
  | |- context [serve ?r ?s] =>
      change (serve r s) with (serve (GetList (query (view w))) (srv w))
  end.
  rewrite E. cbn. rewrite Hok. cbn. rewrite Hb. cbn.
  destruct (renders j); cbn; auto.
Qed.

Lemma loadData_loaded (w : World Srv) a s1 rows :
  serve (GetList (query (view w))) (srv w) = (a, s1) ->
  rows_of a = Some rows ->
  let v' := view (exec (loadData serve) w) in
  data v' = JArray rows
  /\ errorText v' = None
  /\ loading v' = false
  /\ prevDisabled v' = bool_decide (currentPage (view w) = 1)
  /\ nextDisabled v'
     = Js.eq (Js.of_Z (currentPage (view w))) (totalPages v')
       || Js.eq (totalPages v') (Js.of_Z 0)
  /\ kept (view w) v'.
Proof.
  intros E H. unfold loadData, kept. unfold_handlers. unfold_eff.
  cbn.
  match goal with
  | |- context [serve ?r ?s] =>
      change (serve r s) with (serve (GetList (query (view w))) (srv w))
  end.
  rewrite E. destruct a as [|resp]; cbn in *; [discriminate |].
  destruct (ok resp); cbn; [|discriminate].
  destruct (body resp) as [[rows'|o]|]; cbn; try discriminate.
  injection H as ->. repeat split.
Qed.

End WithServer.

End OutcomeFacts.

(* ================================================================== *)
(** * The state the listeners keep *)
(* ================================================================== *)

Module InvariantFacts.

Import DataTable App Frame EngineFacts OutcomeFacts.

Lemma wf_kept (v v' : View) : kept v v' -> wf v -> wf v'.
Proof.
  unfold kept, wf.
  intros (-> & _ & -> & -> & _ & -> & -> & -> & ->). auto.
Qed.

Lemma wf_initial : wf initial.
Proof.
  unfold wf. cbn. repeat split; try lia; try discriminate.
  - intros [x H]. discriminate.
  - intros [x H]. discriminate.
Qed.

Lemma wf_toggle column (v : View) : wf v -> wf (toggle column v).
Proof.
  unfold wf, toggle. intros (P & D & C & S).
  destruct (decide _) as [E|E]; cbn; repeat split; try apply D; auto;
    intros H; congruence.
Qed.

Section WithServer.
Context {Srv : Type} (serve : request -> Srv -> fetched * Srv).

Lemma keeps_wf_ret {A} (a : A) : keeps_wf (@ret Srv A a).
Proof. intros w H. exact H. Qed.

Lemma keeps_wf_throw {A} : keeps_wf (@throw Srv A).
Proof. intros w H. exact H. Qed.

Lemma keeps_wf_get : keeps_wf (@get Srv).
Proof. intros w H. exact H. Qed.

Lemma keeps_wf_emit e : keeps_wf (@emit Srv e).
Proof. intros w H. exact H. Qed.

Lemma keeps_wf_fetch r : keeps_wf (fetch serve r).
Proof.
  intros w H. unfold fetch.
  destruct (serve r (srv w)) as [[|resp] s']; exact H.
Qed.

Lemma keeps_wf_bind {A B} (m : M Srv A) (k : A -> M Srv B) :
  keeps_wf m -> (forall a, keeps_wf (k a)) -> keeps_wf (bind m k).
Proof.
  intros Hm Hk w H. unfold bind. specialize (Hm w H).
  destruct (m w) as [[a|] w1]; cbn in *; [|exact Hm].
  now apply Hk.
Qed.

Lemma keeps_wf_try_catch {A} (m h : M Srv A) :
  keeps_wf m -> keeps_wf h -> keeps_wf (try_catch m h).
Proof.
  intros Hm Hh w H. unfold try_catch. specialize (Hm w H).
  destruct (m w) as [[a|] w1]; cbn in *; [exact Hm |].
  now apply Hh.
Qed.

Lemma keeps_wf_loadData : keeps_wf (loadData serve).
Proof.
  intros w H. destruct (loadData_spec serve w) as (v & s & -> & K).
  exact (wf_kept _ _ K H).
Qed.

(** The handlers that assign two fields, one after the other. *)

Lemma keeps_wf_closeModal : keeps_wf (@closeModal Srv).
Proof.
  intros w (P & D & C & S). unfold wf. cbn. repeat split; try apply D; auto.
  intros [x H]. discriminate.
Qed.

Lemma keeps_wf_closeDeleteModal : keeps_wf (@closeDeleteModal Srv).
Proof.
  intros w (P & D & C & S). unfold wf. cbn. repeat split; auto.
  - discriminate.
  - intros [x H]. discriminate.
Qed.

Lemma keeps_wf_openDeleteModal id : keeps_wf (@openDeleteModal Srv id).
Proof.
  intros w (P & D & C & S). unfold wf. cbn. repeat split; eauto.
Qed.

Lemma keeps_wf_openAddModal : keeps_wf (@openAddModal Srv).
Proof.
  intros w (P & D & C & S). unfold wf. cbn. repeat split; try apply D; auto.
Qed.

Lemma keeps_wf_openEditModal id : keeps_wf (openEditModal serve id).
Proof.
  intros w (P & D & C & S). unfold openEditModal, response_json. unfold_eff.
  cbn. destruct (serve _ _) as [[|resp] s1]; cbn;
    [unfold wf; auto | ].
  destruct (ok resp); cbn; [|unfold wf; auto].
  destruct (body resp) as [j|]; cbn; unfold wf; cbn;
    repeat split; try apply D; auto.
Qed.

Lemma keeps_wf_write payload : keeps_wf (write serve payload).
Proof.
  unfold write. apply keeps_wf_bind; [apply keeps_wf_get | intros v].
  apply keeps_wf_fetch.
Qed.

Lemma keeps_wf_commit payload : keeps_wf (commit serve payload).
Proof.
  unfold commit.
  apply keeps_wf_bind; [apply keeps_wf_write | intros resp].
  destruct (negb (ok resp)); [apply keeps_wf_throw |].
  apply keeps_wf_bind; [apply keeps_wf_closeModal | intros _].
  apply keeps_wf_loadData.
Qed.

Lemma keeps_wf_confirmDelete : keeps_wf (confirmDelete serve).
Proof.
  unfold confirmDelete.
  apply keeps_wf_bind; [apply keeps_wf_get | intros v].
  destruct (recordToDelete v) as [[|c id]|]; try apply keeps_wf_ret.
  apply keeps_wf_try_catch; [|apply keeps_wf_emit].
  apply keeps_wf_bind; [apply keeps_wf_fetch | intros resp].
  destruct (negb (ok resp)); [apply keeps_wf_throw |].
  apply keeps_wf_bind; [apply keeps_wf_closeDeleteModal | intros _].
  apply keeps_wf_loadData.
Qed.

Context (Date_parse : string -> Js.number).

Lemma keeps_wf_saveRecord k fd now :
  keeps_wf (saveRecord Date_parse serve k fd now).
Proof.
  destruct k; cbn [saveRecord];
    unfold Student.saveRecord, Course.saveRecord, Course.getCourseByCode,
      Instructor.saveRecord, Employee.saveRecord, response_json;
    cbv zeta; apply keeps_wf_try_catch;
    try apply keeps_wf_emit;
    (destruct (negb (isValid _)); [apply keeps_wf_emit |]);
    try apply keeps_wf_commit.
  apply keeps_wf_bind; [apply keeps_wf_get | intros v].
  apply keeps_wf_bind.
  - destruct (currentRecord v); [apply keeps_wf_ret |].
    apply keeps_wf_try_catch; [|apply keeps_wf_ret].
    apply keeps_wf_bind; [apply keeps_wf_fetch | intros resp].
    destruct (negb (ok resp)); [apply keeps_wf_throw |].
    apply keeps_wf_bind; [|intros courses; apply keeps_wf_ret].
    destruct (body resp) as [j|]; [apply keeps_wf_ret | apply keeps_wf_throw].
  - intros e.
    destruct (truthy_element e); [apply keeps_wf_emit | apply keeps_wf_commit].
Qed.

Lemma handle_wf k a (w : World Srv) :
  wf (view w) -> wf (view (exec (handle Date_parse serve k a) w)).
Proof.
  intros H. destruct a; cbn [handle]; unfold exec.
  - now apply keeps_wf_loadData.
  - rewrite onSearchInput_eq. apply keeps_wf_loadData. cbn.
    destruct H as (P & D & C & S). unfold wf. cbn. repeat split; try apply D; auto; lia.
  - rewrite onItemsPerPageChange_eq. apply keeps_wf_loadData. cbn.
    destruct H as (P & D & C & S). unfold wf. cbn. repeat split; try apply D; auto; lia.
  - rewrite previousPage_eq.
    destruct (Z.ltb_spec 1 (currentPage (view w))); [|exact H].
    apply keeps_wf_loadData. cbn.
    destruct H as (P & D & C & S). unfold wf. cbn. repeat split; try apply D; auto; lia.
  - rewrite nextPage_eq. destruct (Js.lt _ _); [|exact H].
    apply keeps_wf_loadData. cbn.
    destruct H as (P & D & C & S). unfold wf. cbn. repeat split; try apply D; auto; lia.
  - rewrite sortBy_eq. apply keeps_wf_loadData. cbn. now apply wf_toggle.
  - now apply keeps_wf_openAddModal.
  - now apply keeps_wf_openEditModal.
  - now apply keeps_wf_openDeleteModal.
  - now apply keeps_wf_closeModal.
  - now apply keeps_wf_closeDeleteModal.
  - now apply keeps_wf_confirmDelete.
  - now apply keeps_wf_saveRecord.
Qed.

Lemma run_wf k acts : forall w : World Srv,
  wf (view w) -> wf (view (run Date_parse serve k acts w)).
Proof.
  induction acts as [|a acts IH]; intros w H; cbn; [exact H |].
  apply IH, handle_wf, H.
Qed.

End WithServer.

End InvariantFacts.

(* ================================================================== *)
(** * The engine beyond the claims *)
(* ================================================================== *)

Section Engine.
Import DataTable App Frame EngineFacts OutcomeFacts InvariantFacts SaveFacts.
Context {Srv : Type} (serve : request -> Srv -> fetched * Srv).

(** X1.  A reload sends one request and ends with the spinner hidden.
    When the request is rejected, the status is not a success or the
    body does not parse, the error panel shows the json-server message
    and everything else is as before: rows, counts, page, search and
    sort.  When the status is a success and the body parses, the body
    becomes the data and the counts are taken from it, array or not,
    while the query state and the modals are as before; the error
    panel is then hidden when the table renders, which every array
    does, and shows the message when it does not. *)
Theorem load_outcome (w : World Srv) (a : fetched) (s1 : Srv) :
  serve (GetList (query (view w))) (srv w) = (a, s1) ->
  let w' := exec (loadData serve) w in
  log w' = (log w ++ [Fetch (GetList (query (view w)))])%list
  /\ loading (view w') = false
  /\ (json_of a = None ->
      view w' = set_loading false
                  (set_errorText (Some load_error) (view w)))
  /\ (forall resp j,
        a = Resolved resp -> ok resp = true -> body resp = Some j ->
        data (view w') = j
        /\ totalItems (view w') = total_of (xTotalCount resp) j
        /\ totalPages (view w')
           = pages (to_number (total_of (xTotalCount resp) j))
                   (itemsPerPage (view w))
        /\ errorText (view w')
           = (if renders j then None else Some load_error)
        /\ kept (view w) (view w'))
  /\ (forall rows,
        rows_of a = Some rows ->
        data (view w') = JArray rows /\ errorText (view w') = None).
Proof.
  intros E w'.
  destruct (loadData_spec serve w) as (v & s & Q & K).
  assert (V : view w' = v) by (unfold w', exec; now rewrite Q).
  assert (S : forall resp j,
             a = Resolved resp -> ok resp = true -> body resp = Some j ->
             data (view w') = j
             /\ totalItems (view w') = total_of (xTotalCount resp) j
             /\ totalPages (view w')
                = pages (to_number (total_of (xTotalCount resp) j))
                        (itemsPerPage (view w))
             /\ errorText (view w')
                = (if renders j then None else Some load_error)
             /\ loading (view w') = false).
  { intros resp j -> Hok Hb. exact (loadData_stored serve w resp s1 j E Hok Hb). }
  assert (F : json_of a = None ->
              view w' = set_loading false
                          (set_errorText (Some load_error) (view w))).
  { intros N. unfold w', exec. now rewrite (loadData_failed serve w a s1 E N). }
  split; [unfold w', exec; now rewrite Q |]. split; [|split; [exact F | split]].
  - destruct (json_of a) as [j|] eqn:J.
    + destruct a as [|resp]; [discriminate |]. cbn in J.
      destruct (ok resp) eqn:Hok; [|discriminate].
      now destruct (S resp j eq_refl Hok J) as (_ & _ & _ & _ & L).
    + now rewrite (F eq_refl).
  - intros resp j Ha Hok Hb.
    destruct (S resp j Ha Hok Hb) as (D & T & P & X & _).
    rewrite V at 5. auto.
  - intros rows R. destruct a as [|resp]; [discriminate |]. cbn in R.
    destruct (ok resp) eqn:Hok; [|discriminate].
    destruct (body resp) as [[rows'|o]|] eqn:Hb; try discriminate.
    injection R as ->.
    destruct (S resp (JArray rows) eq_refl Hok Hb) as (D & _ & _ & X & _).
    auto.
Qed.

(** X2.  After a reload that brings rows, with the page at 1 or above:
    the Previous button is disabled exactly on page 1; a click on
    Previous while it is disabled, or on Next while it is disabled,
    changes nothing and sends nothing. *)
Theorem disabled_buttons_do_nothing (w : World Srv) a s1 rows :
  serve (GetList (query (view w))) (srv w) = (a, s1) ->
  rows_of a = Some rows ->
  1 <= currentPage (view w) ->
  let w' := exec (loadData serve) w in
  (prevDisabled (view w') = true <-> currentPage (view w') = 1)
  /\ (prevDisabled (view w') = true -> exec (previousPage serve) w' = w')
  /\ (nextDisabled (view w') = true -> exec (nextPage serve) w' = w').
Proof.
  intros E R P w'.
  destruct (loadData_loaded serve w a s1 rows E R)
    as (_ & _ & _ & HP & HN & K).
  fold w' in HP, HN, K. destruct K as (KP & _).
  rewrite HP, HN, <- KP. split; [|split].
  - apply bool_decide_eq_true.
  - intros H. apply bool_decide_eq_true in H.
    unfold exec. rewrite previousPage_eq, H. reflexivity.
  - intros H. unfold exec. rewrite nextPage_eq.
    replace (Js.lt (Js.of_Z (currentPage (view w'))) (totalPages (view w')))
      with false; [reflexivity |].
    symmetry. apply orb_true_iff in H as [H|H].
    + now apply eq_not_lt.
    + apply zero_not_above; [lia | exact H].
Qed.

(** X3.  From a page at 1 or above and below the page count, Next
    then Previous comes back to the same page: two fetches, the first
    for the next page, the second for the page the view started on. *)
Theorem next_then_previous (w : World Srv) :
  1 <= currentPage (view w) ->
  Js.lt (Js.of_Z (currentPage (view w))) (totalPages (view w)) = true ->
  let p := currentPage (view w) in
  let w1 := exec (nextPage serve) w in
  let w2 := exec (previousPage serve) w1 in
  currentPage (view w1) = p + 1
  /\ currentPage (view w2) = p
  /\ exists q1 q2,
       log w2 = (log w ++ [Fetch (GetList q1); Fetch (GetList q2)])%list
       /\ q_page q1 = p + 1
       /\ q_page q2 = p.
Proof.
  intros P L p w1 w2.
  assert (E1 : nextPage serve w
               = loadData serve {| view := set_currentPage (p + 1) (view w);
                                   srv := srv w; log := log w |})
    by (rewrite nextPage_eq, L; reflexivity).
  destruct (loadData_spec serve
              {| view := set_currentPage (p + 1) (view w);
                 srv := srv w; log := log w |}) as (v1 & s1 & Q1 & K1).
  assert (W1 : w1 = {| view := v1; srv := s1;
                       log := (log w ++ [Fetch (GetList
                                 (query (set_currentPage (p + 1) (view w))))])%list |})
    by (unfold w1, exec; rewrite E1, Q1; reflexivity).
  assert (C1 : currentPage v1 = p + 1) by (destruct K1 as (-> & _); reflexivity).
  assert (E2 : previousPage serve w1
               = loadData serve {| view := set_currentPage p (view w1);
                                   srv := srv w1; log := log w1 |}).
  { rewrite previousPage_eq, W1. cbn [view]. rewrite C1.
    destruct (Z.ltb_spec 1 (p + 1)); [|unfold p in *; lia].
    replace (p + 1 - 1) with p by lia. reflexivity. }
  destruct (loadData_spec serve
              {| view := set_currentPage p (view w1);
                 srv := srv w1; log := log w1 |}) as (v2 & s2 & Q2 & K2).
  repeat split.
  - rewrite W1. exact C1.
  - unfold w2, exec. rewrite E2, Q2. cbn. now destruct K2 as (-> & _).
  - exists (query (set_currentPage (p + 1) (view w))),
           (query (set_currentPage p (view w1))).
    unfold w2, exec. rewrite E2, Q2. cbn [snd log].
    rewrite W1 at 1. cbn [log]. rewrite <- app_assoc. auto.
Qed.

(** X4.  A click on Edit asks for the record by its id.  When the
    answer is a success whose body parses, that body, a record or not,
    becomes the current record, the form is rendered from it and the
    form modal is opened; nothing else changes.  Otherwise the view is
    as before, modal closed included, and one alert says that the
    record could not be loaded. *)
Theorem edit_click_outcome (w : World Srv) (id : string) a s1 :
  serve (GetById id) (srv w) = (a, s1) ->
  let w' := exec (openEditModal serve id) w in
  match json_of a with
  | Some r =>
      view w' = set_formModalActive true (set_currentRecord (Some r) (view w))
      /\ log w' = (log w ++ [Fetch (GetById id); RenderForm (Some r)])%list
  | None =>
      view w' = view w
      /\ log w' = (log w ++ [Fetch (GetById id);
                             Alert "Failed to load record for editing"])%list
  end.
Proof.
  intros E w'. unfold w', openEditModal, response_json. unfold_eff. cbn.
  rewrite E. destruct a as [|resp]; cbn.
  - now rewrite <- app_assoc.
  - destruct (ok resp); cbn; [|now rewrite <- app_assoc].
    destruct (body resp) as [j|]; cbn; rewrite <- app_assoc; auto.
Qed.

(** X5.  In every state that the listeners reach from a fresh view,
    the delete modal is open exactly when a record id is pending, and
    a record being edited has the form modal open. *)
Theorem modals_consistent (Date_parse : string -> Js.number) (k : kind)
        (acts : list action) (s : Srv) :
  let v := view (run Date_parse serve k acts (start s)) in
  (deleteModalActive v = true <-> is_Some (recordToDelete v))
  /\ (is_Some (currentRecord v) -> formModalActive v = true).
Proof.
  intros v.
  destruct (run_wf serve Date_parse k acts (start s) wf_initial)
    as (_ & D & C & _).
  split; assumption.
Qed.

(** X6.  In every state that the listeners reach from a fresh view,
    a confirm while the delete modal is closed does nothing: no
    request is sent and the view is unchanged. *)
Theorem no_delete_without_dialog (Date_parse : string -> Js.number)
        (k : kind) (acts : list action) (s : Srv) :
  let w := run Date_parse serve k acts (start s) in
  deleteModalActive (view w) = false ->
  exec (confirmDelete serve) w = w.
Proof.
  intros w H.
  destruct (run_wf serve Date_parse k acts (start s) wf_initial)
    as (_ & D & _). fold w in D.
  assert (N : recordToDelete (view w) = None).
  { destruct (recordToDelete (view w)) eqn:R; [|reflexivity].
    assert (T : deleteModalActive (view w) = true) by (apply D; eauto).
    congruence. }
  unfold exec, confirmDelete, bind, get. cbn. rewrite N. reflexivity.
Qed.

(** X7.  In every state that the listeners reach from a fresh view,
    the sort order is ascending as long as no column is sorted. *)
Theorem sort_order_without_column (Date_parse : string -> Js.number)
        (k : kind) (acts : list action) (s : Srv) :
  let w := run Date_parse serve k acts (start s) in
  sortColumn (view w) = None -> sortOrder (view w) = asc.
Proof.
  intros w.
  destruct (run_wf serve Date_parse k acts (start s) wf_initial)
    as (_ & _ & _ & S).
  exact S.
Qed.

(** X8.  Two clicks on the header of the sorted column bring the sort
    order back, and the column stays. *)
Theorem sort_click_twice (w : World Srv) (column : string) :
  sortColumn (view w) = Some column ->
  let w2 := exec (sortBy serve column) (exec (sortBy serve column) w) in
  sortColumn (view w2) = Some column
  /\ sortOrder (view w2) = sortOrder (view w).
Proof.
  intros H w2.
  destruct (sortBy_spec serve column w) as (_ & _ & C1 & O1).
  destruct (sortBy_spec serve column (exec (sortBy serve column) w))
    as (_ & _ & C2 & O2).
  fold w2 in C2, O2. rewrite C2, O2. unfold toggle in *.
  destruct (decide (sortColumn (view w) = Some column)); [|contradiction].
  cbn in C1, O1.
  destruct (decide (sortColumn (view (exec (sortBy serve column) w))
                    = Some column)) as [E|E]; [|congruence].
  cbn. rewrite O1. split; [congruence |].
  destruct (sortOrder (view w)); reflexivity.
Qed.

(** ** Saving *)

Lemma saveRecord_valid_alert (Date_parse : string -> Js.number) k fd now
      (w : World Srv) :
  isValid (validate Date_parse now k fd) = true ->
  (k = courses -> is_Some (currentRecord (view w))) ->
  saveRecord Date_parse serve k fd now w
  = try_catch (commit serve (payload k fd)) (emit (Alert (save_error k))) w.
Proof.
  intros H Hk. destruct k; cbn [saveRecord validate payload save_error] in *.
  - unfold Student.saveRecord. cbv zeta. unfold try_catch at 1.
    rewrite H. reflexivity.
  - destruct (Hk eq_refl) as [cur Hc].
    rewrite (saveRecord_course serve fd w H). cbv zeta. now rewrite Hc.
  - unfold Instructor.saveRecord. cbv zeta. unfold try_catch at 1.
    rewrite H. reflexivity.
  - unfold Employee.saveRecord. cbv zeta. unfold try_catch at 1.
    rewrite H. reflexivity.
Qed.

Lemma commit_failed payload h (w : World Srv) a s1 :
  serve (write_request payload (view w)) (srv w) = (a, s1) ->
  write_failed a = true ->
  try_catch (commit serve payload) (emit (Alert h)) w
  = (Ok tt, {| view := view w; srv := s1;
               log := (log w ++ [Fetch (write_request payload (view w));
                                 Alert h])%list |}).
Proof.
  intros E F. unfold try_catch. rewrite commit_spec. cbv zeta. rewrite E.
  destruct a as [|resp]; cbn in F.
  - unfold emit. cbn. now rewrite <- app_assoc.
  - apply negb_true_iff in F. rewrite F. unfold emit. cbn.
    now rewrite <- app_assoc.
Qed.

Lemma with_id_lookup (body : record) (cur : json) :
  with_id body cur !! "id" = id_of cur
  /\ forall key, key <> "id" -> with_id body cur !! key = body !! key.
Proof.
  unfold with_id. destruct (id_of cur) as [i|] eqn:E; split.
  - apply lookup_insert_eq.
  - intros key H. now apply lookup_insert_ne.
  - apply lookup_delete_eq.
  - intros key H. now apply lookup_delete_ne.
Qed.

(** X9.  On save with a record being edited, a valid form and a
    [PUT] that succeeds: exactly one write is sent, a [PUT] to the id
    of the record being edited, then the form is reset and the table
    reloaded once; the modal is closed and the current record cleared.
    The body carries the id of the record being edited, whatever the
    form holds under [id], and every other field as the kind writes
    it.  No kind looks anything up on this path. *)
Theorem edit_modal_save (Date_parse : string -> Js.number) (now : Z)
        (k : kind) (fd : formdata) (w : World Srv) (cur : json)
        (resp : response) (s1 : Srv) :
  currentRecord (view w) = Some cur ->
  isValid (validate Date_parse now k fd) = true ->
  serve (Put (id_of cur) (with_id (payload k fd) cur)) (srv w)
  = (Resolved resp, s1) ->
  ok resp = true ->
  let w' := exec (saveRecord Date_parse serve k fd now) w in
  formModalActive (view w') = false
  /\ currentRecord (view w') = None
  /\ log w' = (log w ++ [Fetch (Put (id_of cur)
                                   (with_id (payload k fd) cur));
                         FormReset;
                         Fetch (GetList (query (view w)))])%list
  /\ with_id (payload k fd) cur !! "id" = id_of cur
  /\ forall key, key <> "id" ->
       with_id (payload k fd) cur !! key = payload k fd !! key.
Proof.
  intros Hc Hv E Hok w'.
  assert (R : write_request (payload k fd) (view w)
              = Put (id_of cur) (with_id (payload k fd) cur))
    by (unfold write_request; now rewrite Hc).
  unfold w', exec.
  rewrite (saveRecord_valid_alert Date_parse k fd now w Hv)
    by (intros _; rewrite Hc; eauto).
  destruct (commit_ok serve (payload k fd) w resp s1) as (v' & s' & C & F & N);
    [now rewrite R | exact Hok |].
  unfold try_catch. rewrite C, R. cbn.
  repeat split; auto; apply with_id_lookup.
Qed.

(** X10.  On save with a valid form and a write that fails, rejected or
    answered without a success: the view is as before, so the modal
    stays open on what the user typed and the record being edited is
    kept; the failure message of the kind is alerted; nothing is
    reloaded.  The same holds for a new course once its lookup has
    found none. *)
Theorem save_write_failure (Date_parse : string -> Js.number) (now : Z)
        (k : kind) (fd : formdata) (w : World Srv) :
  isValid (validate Date_parse now k fd) = true ->
  let w' := exec (saveRecord Date_parse serve k fd now) w in
  ((k = courses -> is_Some (currentRecord (view w))) ->
   forall a s1,
     serve (write_request (payload k fd) (view w)) (srv w) = (a, s1) ->
     write_failed a = true ->
     view w' = view w
     /\ log w' = (log w ++ [Fetch (write_request (payload k fd) (view w));
                            Alert (save_error k)])%list)
  /\ (k = courses ->
      currentRecord (view w) = None ->
      let code := Js.toUpperCase (field fd "code") in
      forall a0 s0 a s1,
        serve (GetByCode code) (srv w) = (a0, s0) ->
        Course.found a0 = None ->
        serve (Post (payload k fd)) s0 = (a, s1) ->
        write_failed a = true ->
        view w' = view w
        /\ log w' = (log w ++ [Fetch (GetByCode code);
                               Fetch (Post (payload k fd));
                               Alert (save_error k)])%list).
Proof.
  intros Hv w'. split.
  - intros Hk a s1 E F. unfold w', exec.
    rewrite (saveRecord_valid_alert Date_parse k fd now w Hv Hk).
    rewrite (commit_failed _ _ w a s1 E F). cbn. auto.
  - intros -> Hc code a0 s0 a s1 E0 F0 E F. unfold w', exec.
    cbn [saveRecord payload validate save_error] in *.
    rewrite (saveRecord_course serve fd w Hv). cbv zeta. rewrite Hc.
    fold code. rewrite E0. cbn [fst snd]. rewrite F0.
    match goal with
    | |- context [try_catch _ _ ?w1] =>
        rewrite (commit_failed (Course.normalize fd)
                   "Failed to save course. Please try again." w1 a s1)
    end.
    + cbn. unfold write_request. cbn [view]. rewrite Hc, <- app_assoc. auto.
    + unfold write_request. cbn [view srv]. now rewrite Hc.
    + exact F.
Qed.

(** X11.  The [saveRecord] of the base table validates nothing: for
    every form, an empty one included, it sends the write at once,
    with every entry of the form as a string.  When the write succeeds
    the modal is closed, the form reset and the table reloaded; when
    it fails one alert is shown and the view is as before. *)
Theorem base_save_outcome (fd : formdata) (w : World Srv) a s1 :
  serve (write_request (body_of fd) (view w)) (srv w) = (a, s1) ->
  let w' := exec (DataTable.saveRecord serve fd) w in
  (forall key, body_of fd !! key = VStr <$> fd !! key)
  /\ if write_failed a then
       view w' = view w
       /\ log w' = (log w ++ [Fetch (write_request (body_of fd) (view w));
                     Alert "Failed to save record. Please try again."])%list
     else
       formModalActive (view w') = false
       /\ currentRecord (view w') = None
       /\ log w' = (log w ++ [Fetch (write_request (body_of fd) (view w));
                              FormReset;
                              Fetch (GetList (query (view w)))])%list.
Proof.
  intros E w'. split.
  - intros key. unfold body_of. apply lookup_fmap.
  - change (DataTable.saveRecord serve fd)
      with (try_catch (commit serve (body_of fd))
              (emit (Alert "Failed to save record. Please try again.")))
      in w'.
    destruct (write_failed a) eqn:F.
    + unfold w', exec. rewrite (commit_failed _ _ w a s1 E F). cbn. auto.
    + destruct a as [|resp]; [discriminate |]. cbn in F.
      apply negb_false_iff in F.
      destruct (commit_ok serve (body_of fd) w resp s1 E F)
        as (v' & s' & C & M & N).
      unfold w', exec, try_catch. rewrite C. cbn. auto.
Qed.

End Engine.

(* ================================================================== *)
(** * More facts about strings, patterns and rules *)
(* ================================================================== *)

Module ShapeFacts.

Import Regex RegexFacts ValidationFacts.

#[local] Arguments String.append !s1 s2 / : simpl nomatch.

Lemma Matches_Star_Class p s :
  Matches (Star (Class p)) s <-> all p s = true.
Proof.
  split.
  - intros H. remember (Star (Class p)) as r eqn:R.
    induction H as [| | | | | |r' s1 s2 H1 _ H2 IH2]; try discriminate.
    + reflexivity.
    + injection R as ->. apply Matches_Class in H1 as (c & -> & Hp).
      cbn. rewrite Hp. now apply IH2.
  - induction s as [|c s IH]; cbn; intros H; [constructor |].
    apply andb_true_iff in H as [Hp Ha].
    change (String c s) with (String c "" ++ s).
    constructor; [now constructor | auto].
Qed.

Lemma Matches_Plus_Class p s :
  Matches (Plus (Class p)) s <-> s <> "" /\ all p s = true.
Proof.
  unfold Plus. rewrite Matches_Cat. split.
  - intros (s1 & s2 & -> & H1 & H2).
    apply Matches_Class in H1 as (c & -> & Hp).
    apply Matches_Star_Class in H2. cbn. rewrite Hp, H2. split; [discriminate | reflexivity].
  - intros [Hne Ha]. destruct s as [|c s]; [contradiction |].
    cbn in Ha. apply andb_true_iff in Ha as [Hp Ha].
    exists (String c ""), s. repeat split.
    + now constructor.
    + now apply Matches_Star_Class.
Qed.

Lemma Matches_char a s :
  Matches (Class (is_char a)) s <-> s = String a "".
Proof.
  rewrite Matches_Class. unfold is_char. split.
  - intros (c & -> & H). apply Ascii.eqb_eq in H. now subst.
  - intros ->. exists a. split; [reflexivity | apply Ascii.eqb_refl].
Qed.

Theorem emailRegex_shape s :
  test emailRegex s = true <-> Rules.email_shape s.
Proof.
  rewrite test_Matches. unfold emailRegex, Rules.email_shape.
  rewrite Matches_Cat. split.
  - intros (l & r1 & -> & Hl & H1).
    apply Matches_Cat in H1 as (at' & r2 & -> & Hat & H2).
    apply Matches_Cat in H2 as (d & r3 & -> & Hd & H3).
    apply Matches_Cat in H3 as (dot & e & -> & Hdot & He).
    apply Matches_char in Hat as ->. apply Matches_char in Hdot as ->.
    apply Matches_Plus_Class in Hl as [? ?].
    apply Matches_Plus_Class in Hd as [? ?].
    apply Matches_Plus_Class in He as [? ?].
    exists l, d, e. repeat split; auto.
  - intros (l & d & e & -> & Nl & Nd & Ne & Al & Ad & Ae).
    exists l, ("@" ++ d ++ "." ++ e). repeat split.
    + now apply Matches_Plus_Class.
    + apply Matches_Cat. exists "@", (d ++ "." ++ e). repeat split.
      * now apply Matches_char.
      * apply Matches_Cat. exists d, ("." ++ e). repeat split.
        -- now apply Matches_Plus_Class.
        -- apply Matches_Cat. exists ".", e. repeat split.
           ++ now apply Matches_char.
           ++ now apply Matches_Plus_Class.
Qed.

(** ** White space *)

Lemma trimStart_blank s : all Js.is_space s = true -> Js.trimStart s = "".
Proof.
  induction s as [|c s IH]; cbn; [reflexivity |].
  intros H. apply andb_true_iff in H as [Hc Hs]. rewrite Hc. auto.
Qed.

Lemma trim_blank s : all Js.is_space s = true -> Js.trim s = "".
Proof. intros H. unfold Js.trim. now rewrite trimStart_blank. Qed.

(** ** Upper case *)

Lemma upper_upper c : Js.upper (Js.upper c) = Js.upper c.
Proof. destruct c as [[] [] [] [] [] [] [] []]; reflexivity. Qed.

Lemma toUpperCase_idempotent s :
  Js.toUpperCase (Js.toUpperCase s) = Js.toUpperCase s.
Proof.
  induction s as [|c s IH]; cbn; [reflexivity |].
  now rewrite upper_upper, IH.
Qed.

Lemma truthy_toUpperCase s :
  Js.truthy (Some (Js.toUpperCase s)) = Js.truthy (Some s).
Proof. destruct s; reflexivity. Qed.

(** ** Substrings *)

Lemma prefix_spec t s :
  String.prefix t s = true <-> exists post, s = t ++ post.
Proof.
  revert s. induction t as [|c t IH]; intros s.
  - destruct s; cbn; (split; [intros _; eexists; reflexivity | reflexivity]).
  - destruct s as [|d s]; cbn.
    + split; [discriminate | intros (p & H); discriminate].
    + destruct (ascii_dec c d) as [->|N].
      * rewrite IH. split; intros (p & H); exists p; congruence.
      * split; [discriminate | intros (p & H); congruence].
Qed.

Lemma includes_spec s t : Js.includes s t = true <-> Rules.contains s t.
Proof.
  unfold Rules.contains. induction s as [|c s IH]; cbn [Js.includes].
  - rewrite orb_false_r, prefix_spec. split.
    + intros (post & H). exists "", post. exact H.
    + intros (pre & post & H). destruct pre; [now exists post |].
      discriminate.
  - rewrite orb_true_iff, prefix_spec, IH. split.
    + intros [(post & H) | (pre & post & H)].
      * exists "", post. exact H.
      * exists (String c pre), post. cbn. now rewrite H.
    + intros (pre & post & H). destruct pre as [|d pre].
      * left. now exists post.
      * right. cbn in H. injection H as -> H. now exists pre, post.
Qed.

(** ** Rules that hold *)

Lemma violations_empty rules data r :
  violations rules data = [] -> In r rules -> violated r data = false.
Proof.
  intros E Hin. destruct (violated r data) eqn:V; [|reflexivity].
  pose proof (violations_complete rules data r Hin V) as H.
  rewrite E in H. contradiction.
Qed.

(** ** What the parsers return *)

Lemma parseInt_integer s :
  Js.parseInt s = Js.NaN \/ exists z, Js.parseInt s = Js.of_Z z.
Proof.
  unfold Js.parseInt.
  destruct (Js.sign (Js.trimStart s)) as [neg s1].
  generalize (match s1 with
              | String "0" (String "x" r) | String "0" (String "X" r) =>
                  (16, Js.is_hex, r)
              | _ => (10, Js.is_digit, s1)
              end).
  intros [[radix isd] s2].
  destruct (Js.span isd s2) as [ds rest].
  destruct ds; [left; reflexivity | right; eexists; reflexivity].
Qed.

End ShapeFacts.

(* ================================================================== *)
(** * The validators beyond the claims *)
(* ================================================================== *)

Module ReportFacts.

Import ValidationFacts.

Lemma same_message (rules : list rule) (r r' : rule) :
  NoDup (message <$> rules) ->
  In r rules -> In r' rules -> message r = message r' -> r = r'.
Proof.
  induction rules as [|x rules IH]; [contradiction |].
  rewrite fmap_cons, NoDup_cons. intros [Hx Hnd] [->|H] [->|H'] E; auto.
  - exfalso. apply Hx. rewrite E. apply list_elem_of_In, in_map, H'.
  - exfalso. apply Hx. rewrite <- E. apply list_elem_of_In, in_map, H.
Qed.

(** With one message a rule, a message is reported exactly when its
    rule is violated. *)
Lemma reports_iff (rules : list rule) data (r : rule) :
  NoDup (message <$> rules) ->
  In r rules ->
  In (message r) (violations rules data) <-> violated r data = true.
Proof.
  intros Hnd Hin. split.
  - intros H. induction rules as [|x rules IH] in Hnd, Hin, H |- *;
      [contradiction |].
    rewrite violations_cons, in_app_iff in H. destruct H as [H|H].
    + destruct (violated x data) eqn:V; [|contradiction].
      destruct H as [H|[]].
      assert (x = r) as <-; [|exact V].
      apply (same_message (x :: rules)); auto. now left.
    + clear IH.
      assert (exists r', In r' rules /\ violated r' data = true
                         /\ message r' = message r) as (r' & I' & V' & M').
      { clear - H. induction rules as [|y rules IH]; [contradiction |].
        rewrite violations_cons, in_app_iff in H. destruct H as [H|H].
        - destruct (violated y data) eqn:V; [|contradiction].
          destruct H as [H|[]]. exists y. cbn. auto.
        - destruct (IH H) as (r' & ? & ? & ?). exists r'. cbn. auto. }
      assert (r' = r) as <-; [|exact V'].
      apply (same_message (x :: rules)); auto. now right.
  - now apply violations_complete.
Qed.

Lemma student_messages : NoDup (message <$> Checks.student).
Proof. apply (bool_decide_unpack _). vm_compute. reflexivity. Qed.

Lemma course_messages : NoDup (message <$> Checks.course).
Proof. apply (bool_decide_unpack _). vm_compute. reflexivity. Qed.

Lemma employee_messages Date_parse now :
  NoDup (message <$> Checks.employee Date_parse now).
Proof. apply (bool_decide_unpack _). vm_compute. reflexivity. Qed.

Lemma instructor_messages Date_parse now :
  NoDup (message <$> Checks.instructor Date_parse now).
Proof. apply (bool_decide_unpack _). vm_compute. reflexivity. Qed.

End ReportFacts.

(* ================================================================== *)
(** * The rules of the pipeline and the validators *)
(* ================================================================== *)

Module PipelineFacts.

Import ValidationFacts ShapeFacts NumberFacts.

(** What each check of a validator lets through meets the rule. *)

Lemma truthy_given key (data : formdata) :
  Js.truthy (data !! key) = true -> Rules.given key data.
Proof.
  unfold Rules.given. destruct (data !! key) as [[|c s]|]; try discriminate.
  intros _. eexists. split; [reflexivity | discriminate].
Qed.

Lemma select_check key (data : formdata) :
  negb (Js.truthy (data !! key))
  || bool_decide (Js.trim (field data key) = "") = false ->
  Rules.given key data.
Proof.
  intros H. apply orb_false_iff in H as [T _]. apply negb_false_iff in T.
  now apply truthy_given.
Qed.

Lemma required_check key (data : formdata) :
  negb (Js.truthy (data !! key)) = false -> Rules.given key data.
Proof. intros T. apply negb_false_iff in T. now apply truthy_given. Qed.

Lemma text_check (n : nat) key (data : formdata) :
  negb (Js.truthy (data !! key))
  || (Js.len (Js.trim (field data key)) <? Z.of_nat n) = false ->
  Rules.text_of_length n key data.
Proof.
  intros H. apply orb_false_iff in H as [T L]. apply negb_false_iff in T.
  unfold Rules.text_of_length, field in *.
  destruct (data !! key) as [s|]; [|discriminate T].
  exists s. split; [reflexivity |].
  change (default "" (Some s)) with s in L.
  apply Z.ltb_ge in L. unfold Js.len in L. lia.
Qed.

Lemma email_check (data : formdata) :
  negb (Js.truthy (data !! "email"))
  || negb (Regex.test emailRegex (field data "email")) = false ->
  Rules.email_given data.
Proof.
  intros H. apply orb_false_iff in H as [T R].
  apply negb_false_iff in T, R.
  unfold Rules.email_given, field in *.
  destruct (data !! "email") as [e|]; [|discriminate T].
  exists e. split; [reflexivity |]. now apply emailRegex_shape.
Qed.

Lemma code_check (data : formdata) :
  Course.code_violated data = false -> Rules.code_given data.
Proof.
  unfold Course.code_violated. intros H.
  apply orb_false_iff in H as [T R]. apply negb_false_iff in T, R.
  unfold Rules.code_given, field in *.
  destruct (data !! "code") as [c|]; [|discriminate T].
  exists c. split; [reflexivity |]. now apply RegexFacts.codeRegex_shape.
Qed.

Lemma gpa_check (data : formdata) :
  Student.gpa_violated data = false -> Rules.gpa_in_range data.
Proof.
  unfold Student.gpa_violated, Rules.gpa_in_range, field. cbv zeta.
  destruct (data !! "gpa") as [g|]; [|discriminate].
  change (default "" (Some g)) with g. intros V.
  destruct (Js.parseFloat g) as [|[]|q] eqn:P; try discriminate V.
  exists g, q. split; [reflexivity |]. split; [exact P |].
  apply orb_false_iff in V as [V1 V2].
  apply orb_false_iff in V1 as [_ V1].
  unfold Js.gt, Js.lt, Js.of_Z in V1, V2.
  apply negb_false_iff, Qle_bool_iff in V1, V2. split; assumption.
Qed.

Lemma credits_check (data : formdata) :
  Course.credits_violated data = false -> Rules.credits_in_range data.
Proof.
  unfold Course.credits_violated, Rules.credits_in_range, field. cbv zeta.
  destruct (data !! "credits") as [c|]; [|discriminate].
  change (default "" (Some c)) with c. intros V.
  destruct (parseInt_integer c) as [E|(z & E)];
    rewrite E in V; [discriminate V |].
  unfold Js.gt in V. rewrite !lt_of_Z in V. cbn [Js.isNaN Js.of_Z] in V.
  exists c, z. split; [reflexivity |]. split; [exact E |].
  apply orb_false_iff in V as [V1 V2].
  apply orb_false_iff in V1 as [_ V1].
  apply Z.ltb_ge in V1, V2. lia.
Qed.

Section WithClock.
Context (Date_parse : string -> Js.number) (now : Z).

Lemma future_check (data : formdata) :
  Date_parse "" = Js.NaN ->
  HireDate.in_future Date_parse now data = false ->
  Rules.not_in_future Date_parse now data.
Proof.
  unfold HireDate.in_future, Rules.not_in_future, field.
  intros Hempty V h t Hh Ht. rewrite Hh in V.
  change (default "" (Some h)) with h in V.
  destruct h as [|c h]; [rewrite Hempty in Ht; discriminate Ht |].
  rewrite Ht in V. cbn [Js.truthy andb] in V.
  unfold Js.gt, Js.lt, Js.of_Z in V.
  now apply negb_false_iff, Qle_bool_iff in V.
Qed.

Lemma old_check (data : formdata) :
  Date_parse "" = Js.NaN ->
  Date_parse "2000-01-01" = Js.of_Z Dates.floor2000 ->
  HireDate.too_old Date_parse data = false ->
  Rules.not_too_old Date_parse data.
Proof.
  unfold HireDate.too_old, Rules.not_too_old, field.
  intros Hempty Hfloor V h t Hh Ht. rewrite Hh in V.
  change (default "" (Some h)) with h in V.
  destruct h as [|c h]; [rewrite Hempty in Ht; discriminate Ht |].
  rewrite Ht, Hfloor in V. cbn [Js.truthy andb] in V.
  unfold Js.lt, Js.of_Z in V.
  now apply negb_false_iff, Qle_bool_iff in V.
Qed.

End WithClock.

(** A rule that is not met has its check fire, and the message of the
    check is among the errors. *)
Ltac report checks f data fact :=
  let V := fresh "V" in
  destruct (f data) eqn:V;
  [ apply (violations_complete checks data {| violated := f; message := _ |});
    [cbn; tauto | exact V]
  | exfalso;
    match goal with Hn : ~ _ |- _ => apply Hn end;
    apply fact; exact V ].

Lemma student_reports (data : formdata) r :
  In r Rules.student -> ~ Rules.holds r data ->
  In (Rules.report r) (errors (Student.validateStudent data)).
Proof.
  intros Hin Hn. rewrite validateStudent_rules.
  cbn in Hin. decompose [or] Hin; try contradiction; subst r;
    cbn [Rules.holds Rules.report] in *.
  - report Checks.student Student.name_violated data (text_check 3 "name").
  - report Checks.student Student.email_violated data email_check.
  - report Checks.student Student.phone_violated data (text_check 10 "phone").
  - report Checks.student Student.gpa_violated data gpa_check.
  - report Checks.student Student.department_violated data
           (select_check "department").
  - report Checks.student Student.enrollmentDate_violated data
           (required_check "enrollmentDate").
Qed.

Lemma course_reports (data : formdata) r :
  In r Rules.course -> ~ Rules.holds r data ->
  In (Rules.report r) (errors (Course.validateCourse data)).
Proof.
  intros Hin Hn. rewrite validateCourse_rules.
  cbn in Hin. decompose [or] Hin; try contradiction; subst r;
    cbn [Rules.holds Rules.report] in *.
  - report Checks.course Course.code_violated data code_check.
  - report Checks.course Course.name_violated data (text_check 5 "name").
  - report Checks.course Course.credits_violated data credits_check.
  - report Checks.course Course.department_violated data
           (select_check "department").
  - report Checks.course Course.instructor_violated data
           (text_check 3 "instructor").
Qed.

Section WithClock.
Context (Date_parse : string -> Js.number) (now : Z).
Context (Hempty : Date_parse "" = Js.NaN).
Context (Hfloor : Date_parse "2000-01-01" = Js.of_Z Dates.floor2000).

Lemma instructor_reports (data : formdata) r :
  In r (Rules.instructor Date_parse now) -> ~ Rules.holds r data ->
  In (Rules.report r)
     (errors (Instructor.validateInstructor Date_parse now data)).
Proof.
  intros Hin Hn. rewrite validateInstructor_rules.
  cbn in Hin. decompose [or] Hin; try contradiction; subst r;
    cbn [Rules.holds Rules.report] in *.
  - report (Checks.instructor Date_parse now) Instructor.name_violated data
           (text_check 5 "name").
  - report (Checks.instructor Date_parse now) Instructor.email_violated data
           email_check.
  - report (Checks.instructor Date_parse now) Instructor.phone_violated data
           (text_check 10 "phone").
  - report (Checks.instructor Date_parse now) Instructor.department_violated
           data (select_check "department").
  - report (Checks.instructor Date_parse now)
           Instructor.specialization_violated data
           (text_check 3 "specialization").
  - report (Checks.instructor Date_parse now) HireDate.missing data
           (required_check "hireDate").
  - report (Checks.instructor Date_parse now)
           (HireDate.in_future Date_parse now) data
           (fun d => future_check Date_parse now d Hempty).
  - report (Checks.instructor Date_parse now)
           (HireDate.too_old Date_parse) data
           (fun d => old_check Date_parse d Hempty Hfloor).
Qed.

Lemma employee_reports (data : formdata) r :
  In r (Rules.employee Date_parse now) -> ~ Rules.holds r data ->
  In (Rules.report r)
     (errors (Employee.validateEmployee Date_parse now data)).
Proof.
  intros Hin Hn. rewrite validateEmployee_rules.
  cbn in Hin. decompose [or] Hin; try contradiction; subst r;
    cbn [Rules.holds Rules.report] in *.
  - report (Checks.employee Date_parse now) Employee.name_violated data
           (text_check 3 "name").
  - report (Checks.employee Date_parse now) Employee.email_violated data
           email_check.
  - report (Checks.employee Date_parse now) Employee.phone_violated data
           (text_check 10 "phone").
  - report (Checks.employee Date_parse now) Employee.position_violated data
           (select_check "position").
  - report (Checks.employee Date_parse now) Employee.department_violated
           data (select_check "department").
  - report (Checks.employee Date_parse now) HireDate.missing data
           (required_check "hireDate").
  - report (Checks.employee Date_parse now)
           (HireDate.in_future Date_parse now) data
           (fun d => future_check Date_parse now d Hempty).
  - report (Checks.employee Date_parse now)
           (HireDate.too_old Date_parse) data
           (fun d => old_check Date_parse d Hempty Hfloor).
Qed.

End WithClock.

End PipelineFacts.

Section Pipeline.
Import ValidationFacts PipelineFacts.

(** C7, as the code has it.  For the validator of each record kind and
    every input: [isValid] is true exactly when [errors] is empty, and
    [errors] holds the message of every rule of the kind that the input
    does not meet, all of them at once.  Numbers are read as
    [parseFloat] and [parseInt] read them.  Of a hire date the rules
    are that it be given, not in the future and not before 2000-01-01;
    that it parse to a valid date is not among them.  The parser of
    dates is any that gives no date for the empty string and gives
    2000-01-01 its time value. *)
Theorem validators_report_all (Date_parse : string -> Js.number) (now : Z)
        (data : formdata) :
  Date_parse "" = Js.NaN ->
  Date_parse "2000-01-01" = Js.of_Z Dates.floor2000 ->
  let reports (res : ValidationResult) (rules : list Rules.requirement) :=
    (isValid res = true <-> errors res = [])
    /\ (forall r, In r rules -> ~ Rules.holds r data ->
                  In (Rules.report r) (errors res)) in
  reports (Student.validateStudent data) Rules.student
  /\ reports (Course.validateCourse data) Rules.course
  /\ reports (Instructor.validateInstructor Date_parse now data)
             (Rules.instructor Date_parse now)
  /\ reports (Employee.validateEmployee Date_parse now data)
             (Rules.employee Date_parse now).
Proof.
  intros Hempty Hfloor. cbv zeta.
  repeat split; try apply isValid_result.
  - apply student_reports.
  - apply course_reports.
  - now apply instructor_reports.
  - now apply employee_reports.
Qed.

End Pipeline.

Section PipelineRuns.

(** Against C7 as stated: a hire date that is given but is no date
    breaks the rule that it parse to a valid date, and the validators
    of employees and instructors find the input valid, with no error
    at all. *)
Lemma invalid_hire_date_passes :
  Dates.parse "someday" = Js.NaN
  /\ ~ Rules.valid_date Dates.parse (Examples.clerk "someday")
  /\ Employee.validateEmployee Dates.parse Examples.today
       (Examples.clerk "someday")
     = {| isValid := true; errors := [] |}
  /\ ~ Rules.valid_date Dates.parse (Examples.lecturer "someday")
  /\ Instructor.validateInstructor Dates.parse Examples.today
       (Examples.lecturer "someday")
     = {| isValid := true; errors := [] |}.
Proof.
  split; [reflexivity |]. split; [|split; [|split]].
  - intros (h & Hh & Hp). vm_compute in Hh. injection Hh as <-.
    apply Hp. reflexivity.
  - vm_compute. reflexivity.
  - intros (h & Hh & Hp). vm_compute in Hh. injection Hh as <-.
    apply Hp. reflexivity.
  - vm_compute. reflexivity.
Qed.

(** [validators_report_all] on a student form that holds a gpa of 4.5
    and nothing else, and on a clerk hired in 2030. *)
Lemma validators_report_all_witness :
  In "GPA must be between 0.0 and 4.0"
     (errors (Student.validateStudent {[ "gpa" := "4.5" ]}))
  /\ In "Name must be at least 3 characters long"
        (errors (Student.validateStudent {[ "gpa" := "4.5" ]}))
  /\ In "Hire date cannot be in the future"
        (errors (Employee.validateEmployee Dates.parse Examples.today
                   (Examples.clerk "2030-01-01")))
  /\ (isValid (Student.validateStudent Examples.ann) = true
      <-> errors (Student.validateStudent Examples.ann) = []).
Proof.
  assert (E : Dates.parse "" = Js.NaN) by (vm_compute; reflexivity).
  assert (F : Dates.parse "2000-01-01" = Js.of_Z Dates.floor2000)
    by (vm_compute; reflexivity).
  destruct (validators_report_all Dates.parse Examples.today
              {[ "gpa" := "4.5" ]} E F) as ((_ & R) & _).
  destruct (validators_report_all Dates.parse Examples.today
              (Examples.clerk "2030-01-01") E F) as (_ & _ & _ & (_ & R')).
  destruct (validators_report_all Dates.parse Examples.today Examples.ann E F)
    as ((I & _) & _).
  split; [|split; [|split; [|exact I]]].
  - apply (R {| Rules.holds := Rules.gpa_in_range;
                Rules.report := "GPA must be between 0.0 and 4.0" |});
      [cbn; tauto |].
    intros (g & q & Hg & Hp & _ & Hq). vm_compute in Hg. injection Hg as <-.
    vm_compute in Hp. injection Hp as <-.
    apply Hq. reflexivity.
  - apply (R {| Rules.holds := Rules.text_of_length 3 "name";
                Rules.report := "Name must be at least 3 characters long" |});
      [cbn; tauto |].
    intros (s & Hs & _). vm_compute in Hs. discriminate Hs.
  - apply (R' {| Rules.holds :=
                   Rules.not_in_future Dates.parse Examples.today;
                 Rules.report := "Hire date cannot be in the future" |});
      [cbn; tauto |].
    intros H.
    specialize (H "2030-01-01" (inject_Z 1893456000000)
                  ltac:(vm_compute; reflexivity) ltac:(vm_compute; reflexivity)).
    apply H. reflexivity.
Defined.

End PipelineRuns.

Section ValidatorsMore.
Import ValidationFacts ShapeFacts ReportFacts NumberFacts.

Lemma email_violated_shape (data : formdata) (e : string) :
  data !! "email" = Some e ->
  Student.email_violated data = false <-> Rules.email_shape e.
Proof.
  intros H. unfold Student.email_violated, field. rewrite H.
  change (default "" (Some e)) with e.
  rewrite <- emailRegex_shape, orb_false_iff, !negb_false_iff.
  split; [tauto |]. intros T. split; [|exact T].
  destruct e; [discriminate T | reflexivity].
Qed.

(** X12.  For the validators of students, instructors and employees
    and an input with an [email] entry: the email error is absent
    exactly when the email is a local part, [@], a domain, a dot and an
    ending, each non-empty and free of white space and of [@]. *)
Theorem email_rule (Date_parse : string -> Js.number) (now : Z)
        (data : formdata) (e : string) :
  data !! "email" = Some e ->
  let absent (res : ValidationResult) :=
    ~ In "Please enter a valid email address" (errors res) in
  (absent (Student.validateStudent data) <-> Rules.email_shape e)
  /\ (absent (Instructor.validateInstructor Date_parse now data)
      <-> Rules.email_shape e)
  /\ (absent (Employee.validateEmployee Date_parse now data)
      <-> Rules.email_shape e).
Proof.
  intros H absent. unfold absent.
  rewrite validateStudent_rules, validateInstructor_rules,
    validateEmployee_rules.
  rewrite <- (email_violated_shape data e H).
  repeat split.
  all: try (intros N; destruct (Student.email_violated data) eqn:V;
            [exfalso; apply N | reflexivity]).
  all: try (intros V N).
  - apply (reports_iff Checks.student data
             {| violated := Student.email_violated;
             message := "Please enter a valid email address" |}
             student_messages);
      [cbn; tauto | exact V].
  - apply (reports_iff Checks.student data
             {| violated := Student.email_violated;
             message := "Please enter a valid email address" |}
             student_messages) in N;
      [cbn in N; congruence | cbn; tauto].
  - apply (reports_iff (Checks.instructor Date_parse now) data
             {| violated := Instructor.email_violated;
                message := "Please enter a valid email address" |}
             (instructor_messages _ _)); [cbn; tauto | exact V].
  - apply (reports_iff (Checks.instructor Date_parse now) data
             {| violated := Instructor.email_violated;
                message := "Please enter a valid email address" |}
             (instructor_messages _ _)) in N;
      [cbn in N; unfold Instructor.email_violated in N;
       unfold Student.email_violated in V; congruence | cbn; tauto].
  - apply (reports_iff (Checks.employee Date_parse now) data
             {| violated := Employee.email_violated;
                message := "Please enter a valid email address" |}
             (employee_messages _ _)); [cbn; tauto | exact V].
  - apply (reports_iff (Checks.employee Date_parse now) data
             {| violated := Employee.email_violated;
                message := "Please enter a valid email address" |}
             (employee_messages _ _)) in N;
      [cbn in N; unfold Employee.email_violated in N;
       unfold Student.email_violated in V; congruence | cbn; tauto].
Qed.

(** X13.  A name or a department made of white space only is reported
    by every validator: the minimum lengths count what is left after
    trimming. *)
Theorem blank_fields_reported (Date_parse : string -> Js.number) (now : Z)
        (data : formdata) :
  let blank (key : string) :=
    exists s, data !! key = Some s /\ Regex.all Js.is_space s = true in
  (blank "name" ->
   In "Name must be at least 3 characters long"
      (errors (Student.validateStudent data))
   /\ In "Course name must be at least 5 characters long"
         (errors (Course.validateCourse data))
   /\ In "Name must be at least 5 characters long (include title: Dr., Prof., etc.)"
         (errors (Instructor.validateInstructor Date_parse now data))
   /\ In "Name must be at least 3 characters long"
         (errors (Employee.validateEmployee Date_parse now data)))
  /\ (blank "department" ->
      forall res,
        In res [Student.validateStudent data;
                Course.validateCourse data;
                Instructor.validateInstructor Date_parse now data;
                Employee.validateEmployee Date_parse now data] ->
        In "Please select a department" (errors res)).
Proof.
  intros blank. split.
  - intros (s & H & B).
    assert (T : Js.trim (field data "name") = "")
      by (unfold field; rewrite H; now apply trim_blank).
    rewrite validateStudent_rules, validateCourse_rules,
      validateInstructor_rules, validateEmployee_rules.
    repeat split.
    + apply (violations_complete Checks.student data
               {| violated := Student.name_violated |}); [cbn; tauto |].
      cbn. unfold Student.name_violated. rewrite T. apply orb_true_r.
    + apply (violations_complete Checks.course data
               {| violated := Course.name_violated |}); [cbn; tauto |].
      cbn. unfold Course.name_violated. rewrite T. apply orb_true_r.
    + apply (violations_complete (Checks.instructor Date_parse now) data
               {| violated := Instructor.name_violated |}); [cbn; tauto |].
      cbn. unfold Instructor.name_violated. rewrite T. apply orb_true_r.
    + apply (violations_complete (Checks.employee Date_parse now) data
               {| violated := Employee.name_violated |}); [cbn; tauto |].
      cbn. unfold Employee.name_violated. rewrite T. apply orb_true_r.
  - intros (s & H & B) res Hres.
    assert (T : Js.trim (field data "department") = "")
      by (unfold field; rewrite H; now apply trim_blank).
    cbn in Hres. decompose [or] Hres; try contradiction; subst res.
    + rewrite validateStudent_rules.
      apply (violations_complete Checks.student data
               {| violated := Student.department_violated |}); [cbn; tauto |].
      cbn. unfold Student.department_violated. rewrite T. apply orb_true_r.
    + rewrite validateCourse_rules.
      apply (violations_complete Checks.course data
               {| violated := Course.department_violated |}); [cbn; tauto |].
      cbn. unfold Course.department_violated. rewrite T. apply orb_true_r.
    + rewrite validateInstructor_rules.
      apply (violations_complete (Checks.instructor Date_parse now) data
               {| violated := Instructor.department_violated |});
        [cbn; tauto |].
      cbn. unfold Instructor.department_violated. rewrite T.
      apply orb_true_r.
    + rewrite validateEmployee_rules.
      apply (violations_complete (Checks.employee Date_parse now) data
               {| violated := Employee.department_violated |});
        [cbn; tauto |].
      cbn. unfold Employee.department_violated. rewrite T.
      apply orb_true_r.
Qed.

(** X14.  The body written for a valid course carries a code of two to
    four capital letters and three digits, and credits that are an
    integer from 1 to 6. *)
Theorem valid_course_body (fd : formdata) :
  isValid (Course.validateCourse fd) = true ->
  (exists code, Course.normalize fd !! "code" = Some (VStr code)
                /\ Rules.code_shape code)
  /\ (exists n, Course.normalize fd !! "credits" = Some (VNum (Js.of_Z n))
                /\ 1 <= n <= 6).
Proof.
  intros Hv.
  assert (H : errors (Course.validateCourse fd) = [])
    by (apply isValid_result; exact Hv).
  rewrite validateCourse_rules in H. split.
  - pose proof (violations_empty Checks.course fd
                  {| violated := Course.code_violated;
                     message := "Course code must be in format: CS101, ENG201, BUS301, etc." |}
                  H) as V.
    cbn in V. specialize (V ltac:(tauto)).
    unfold Course.code_violated in V.
    apply orb_false_iff in V as [_ V]. apply negb_false_iff in V.
    exists (Js.toUpperCase (field fd "code")). split.
    + unfold Course.normalize. rewrite lookup_insert_ne by discriminate.
      apply lookup_insert_eq.
    + now apply RegexFacts.codeRegex_shape.
  - pose proof (violations_empty Checks.course fd
                  {| violated := Course.credits_violated;
                     message := "Credit hours must be between 1 and 6" |}
                  H) as V.
    cbn in V. specialize (V ltac:(tauto)).
    unfold Course.credits_violated in V. cbv zeta in V.
    unfold Course.normalize. rewrite lookup_insert_eq.
    destruct (parseInt_integer (field fd "credits")) as [E|(z & E)];
      rewrite E in V |- *; [discriminate V |].
    unfold Js.gt in V. rewrite !lt_of_Z in V. cbn [Js.isNaN Js.of_Z] in V.
    exists z. split; [reflexivity |].
    apply orb_false_iff in V as [V1 V2].
    apply orb_false_iff in V1 as [_ V1].
    apply Z.ltb_ge in V1, V2. lia.
Qed.

(** X15.  The body written for a valid student carries a gpa that is
    a finite number from 0 to 4. *)
Theorem valid_student_body (fd : formdata) :
  isValid (Student.validateStudent fd) = true ->
  exists q, Student.normalize fd !! "gpa" = Some (VNum (Js.Fin q))
            /\ (0 <= q <= 4)%Q.
Proof.
  intros Hv.
  assert (H : errors (Student.validateStudent fd) = [])
    by (apply isValid_result; exact Hv).
  rewrite validateStudent_rules in H.
  pose proof (violations_empty Checks.student fd
                {| violated := Student.gpa_violated;
                   message := "GPA must be between 0.0 and 4.0" |} H) as V.
  cbn in V. specialize (V ltac:(tauto)).
  unfold Student.gpa_violated in V. cbv zeta in V.
  unfold Student.normalize. rewrite lookup_insert_eq.
  destruct (Js.parseFloat (field fd "gpa")) as [|[]|q];
    try discriminate V.
  exists q. split; [reflexivity |].
  apply orb_false_iff in V as [V1 V2].
  apply orb_false_iff in V1 as [_ V1].
  unfold Js.gt, Js.lt, Js.of_Z in V1, V2.
  apply negb_false_iff, Qle_bool_iff in V1, V2. split; assumption.
Qed.

(** X16.  The code rule of a course does not look at the case of the
    letters, and upper-casing a code twice is upper-casing it once: a
    code and its upper case are judged alike and written alike. *)
Theorem course_code_case (fd : formdata) (c : string) :
  fd !! "code" = Some c ->
  let fd' := <["code" := Js.toUpperCase c]> fd in
  Course.code_violated fd' = Course.code_violated fd
  /\ Course.normalize fd' !! "code" = Course.normalize fd !! "code".
Proof.
  intros H fd'.
  assert (F : field fd "code" = c) by (unfold field; now rewrite H).
  assert (F' : field fd' "code" = Js.toUpperCase c)
    by (unfold field, fd'; now rewrite lookup_insert_eq).
  split.
  - unfold Course.code_violated. rewrite F, F', H.
    unfold fd'. rewrite lookup_insert_eq, truthy_toUpperCase.
    now rewrite toUpperCase_idempotent.
  - unfold Course.normalize.
    rewrite !(lookup_insert_ne _ "credits" "code") by discriminate.
    rewrite !lookup_insert_eq, F, F'. now rewrite toUpperCase_idempotent.
Qed.

(** X17.  For the Employee and the Instructor validator: ["Please enter
    hire date"] is reported exactly when the hire date is missing or
    empty, and then neither date error is.  A hire date that is present
    but parses to no valid date gets none of the three reports: an
    invalid date passes. *)
Theorem hire_date_edges (Date_parse : string -> Js.number) (now : Z)
        (data : formdata) (errs : list string) :
  errs = errors (Employee.validateEmployee Date_parse now data)
  \/ errs = errors (Instructor.validateInstructor Date_parse now data) ->
  (In "Please enter hire date" errs
   <-> Js.truthy (data !! "hireDate") = false)
  /\ (Js.truthy (data !! "hireDate") = false ->
      ~ In "Hire date cannot be in the future" errs
      /\ ~ In "Hire date seems too old (before 2000)" errs)
  /\ (forall h, data !! "hireDate" = Some h -> h <> "" ->
                Date_parse h = Js.NaN ->
                ~ In "Please enter hire date" errs
                /\ ~ In "Hire date cannot be in the future" errs
                /\ ~ In "Hire date seems too old (before 2000)" errs).
Proof.
  intros Herrs.
  assert (A : In "Please enter hire date" errs
              <-> HireDate.missing data = true).
  { destruct Herrs as [-> | ->];
      rewrite ?validateEmployee_rules, ?validateInstructor_rules.
    - apply (reports_iff (Checks.employee Date_parse now) data
               {| violated := HireDate.missing |} (employee_messages _ _)).
      cbn. tauto.
    - apply (reports_iff (Checks.instructor Date_parse now) data
               {| violated := HireDate.missing |} (instructor_messages _ _)).
      cbn. tauto. }
  assert (B : In "Hire date cannot be in the future" errs
              <-> HireDate.in_future Date_parse now data = true).
  { destruct Herrs as [-> | ->];
      rewrite ?validateEmployee_rules, ?validateInstructor_rules.
    - apply (reports_iff (Checks.employee Date_parse now) data
               {| violated := HireDate.in_future Date_parse now |}
               (employee_messages _ _)).
      cbn. tauto.
    - apply (reports_iff (Checks.instructor Date_parse now) data
               {| violated := HireDate.in_future Date_parse now |}
               (instructor_messages _ _)).
      cbn. tauto. }
  assert (C : In "Hire date seems too old (before 2000)" errs
              <-> HireDate.too_old Date_parse data = true).
  { destruct Herrs as [-> | ->];
      rewrite ?validateEmployee_rules, ?validateInstructor_rules.
    - apply (reports_iff (Checks.employee Date_parse now) data
               {| violated := HireDate.too_old Date_parse |}
               (employee_messages _ _)).
      cbn. tauto.
    - apply (reports_iff (Checks.instructor Date_parse now) data
               {| violated := HireDate.too_old Date_parse |}
               (instructor_messages _ _)).
      cbn. tauto. }
  rewrite A, B, C.
  unfold HireDate.missing, HireDate.in_future, HireDate.too_old.
  split; [|split].
  - apply negb_true_iff.
  - intros ->. cbn. split; discriminate.
  - intros h H Hne N. rewrite A, B, C.
    unfold HireDate.missing, HireDate.in_future, HireDate.too_old, field.
    rewrite H. change (default "" (Some h)) with h. rewrite N.
    destruct h; [contradiction |]. cbn.
    repeat split; discriminate.
Qed.

End ValidatorsMore.

(* ================================================================== *)
(** * The helpers of the entity classes and the dashboard *)
(* ================================================================== *)

Module HelperFacts.

Import ShapeFacts.

(** ** [filter] with a callback that may throw *)

Lemma filter_sound {A} (test : A -> option bool) l r :
  Js.filter test l = Some r ->
  forall x, In x r <-> In x l /\ test x = Some true.
Proof.
  revert r. induction l as [|y l IH]; cbn; intros r H x.
  - injection H as <-. cbn. tauto.
  - destruct (test y) as [keep|] eqn:T; [|discriminate].
    destruct (Js.filter test l) as [r'|]; [|discriminate].
    injection H as <-. specialize (IH r' eq_refl x).
    destruct keep; cbn; rewrite IH; split.
    + intros [<-|[? ?]]; auto.
    + intros [[<-|?] ?]; auto.
    + intros [? ?]; auto.
    + intros [[<-|?] ?]; [congruence | auto].
Qed.

Lemma filter_throws {A} (test : A -> option bool) l :
  Js.filter test l = None <-> exists x, In x l /\ test x = None.
Proof.
  induction l as [|y l IH]; cbn.
  - split; [discriminate | intros (x & [] & _)].
  - destruct (test y) as [keep|] eqn:T.
    + destruct (Js.filter test l) as [r|].
      * split; [discriminate |].
        intros (x & [<-|Hin] & Hx); [congruence |].
        assert (E : Some r = None) by (apply IH; eauto).
        discriminate E.
      * split; [|reflexivity]. intros _.
        destruct (proj1 IH eq_refl) as (x & ? & ?). eauto.
    + split; [|reflexivity]. intros _. eauto.
Qed.

(** What the catch-all of the two filtering helpers gives. *)
Lemma filter_or_empty {A} (test : A -> option bool) l :
  let res := default [] (Js.filter test l) in
  (forall x, In x res -> In x l /\ test x = Some true)
  /\ ((exists x, In x l /\ test x = None) -> res = [])
  /\ ((forall x, In x l -> test x <> None) ->
      forall x, In x res <-> In x l /\ test x = Some true).
Proof.
  intros res. unfold res.
  destruct (Js.filter test l) as [r|] eqn:F; cbn; (split; [|split]).
  - intros x. apply (filter_sound test l r F).
  - intros H. apply filter_throws in H. congruence.
  - intros _ x. apply (filter_sound test l r F).
  - contradiction.
  - reflexivity.
  - intros H. apply filter_throws in F as (y & Hy & Ty).
    exfalso. exact (H y Hy Ty).
Qed.

(** ** Numbers of records *)

Lemma max_of_Z (a b : Z) : Js.max (Js.of_Z a) (Js.of_Z b) = Js.of_Z (Z.max a b).
Proof.
  unfold Js.max. change (Js.of_Z a) with (Js.Fin (inject_Z a)) at 1.
  change (Js.of_Z b) with (Js.Fin (inject_Z b)) at 1.
  change (Js.Fin (inject_Z a)) with (Js.of_Z a).
  change (Js.Fin (inject_Z b)) with (Js.of_Z b).
  rewrite NumberFacts.lt_of_Z.
  destruct (Z.ltb_spec a b); f_equal; lia.
Qed.

Lemma eq_of_Z (a b : Z) : Js.eq (Js.of_Z a) (Js.of_Z b) = (a =? b).
Proof.
  unfold Js.eq, Js.of_Z, Qeq_bool, inject_Z. cbn.
  now rewrite !Z.mul_1_r.
Qed.

End HelperFacts.

Section Helpers.
Import ShapeFacts HelperFacts NumberFacts.

(** X18.  [calculateYearsOfService] gives [NaN] for a hire date that is
    invalid.  For a valid one it gives the whole number [r] of years
    such that, on the calendar, today is not before the [r]-th
    anniversary of the hire and is before the next one; nothing keeps
    it from being negative when the hire date is still to come. *)
Theorem years_of_service (Date_fields : string -> option Dates.calendar)
        (today : Dates.calendar) (hireDate : string) :
  let years := Employee.calculateYearsOfService Date_fields today hireDate in
  (Date_fields hireDate = None -> years = Js.NaN)
  /\ (forall hire,
        Date_fields hireDate = Some hire ->
        exists r,
          years = Js.of_Z r
          /\ ~ Dates.before today (Dates.anniversary hire r)
          /\ Dates.before today (Dates.anniversary hire (r + 1))
          /\ (r < 0 <-> Dates.before today hire)).
Proof.
  intros years. unfold years, Employee.calculateYearsOfService. split.
  - intros ->. reflexivity.
  - intros hire ->. unfold Dates.before, Dates.anniversary. cbn.
    destruct (Z.ltb_spec (Dates.month today - Dates.month hire) 0); cbn.
    + eexists. split; [reflexivity |]. lia.
    + destruct (Z.eqb_spec (Dates.month today - Dates.month hire) 0); cbn.
      * destruct (Z.ltb_spec (Dates.date today) (Dates.date hire)); cbn;
          (eexists; split; [reflexivity |]; lia).
      * eexists. split; [reflexivity |]. lia.
Qed.

Lemma staff_by_rows (a : fetched) :
  Employee.getStudentAffairsStaff a
  = match DataTable.rows_of a with
    | Some l => default [] (Js.filter Employee.in_student_affairs l)
    | None => []
    end.
Proof.
  unfold Employee.getStudentAffairsStaff, Employee.getAllEmployees,
    DataTable.rows_of.
  destruct a as [|resp]; [reflexivity |].
  destruct (ok resp); [|reflexivity].
  destruct (body resp) as [[l|o]|]; reflexivity.
Qed.

Lemma in_student_affairs_true (e : record) :
  Employee.in_student_affairs e = Some true <->
  exists d phrase,
    e !! "department" = Some (VStr d)
    /\ In phrase Rules.student_affairs
    /\ Rules.contains d phrase.
Proof.
  unfold Employee.in_student_affairs, Rules.student_affairs.
  destruct (e !! "department") as [[d|x]|].
  - split.
    + intros H. injection H as H.
      apply andb_true_iff in H as [_ H].
      repeat (apply orb_true_iff in H as [H|H]);
        apply includes_spec in H; exists d; eexists;
        (split; [reflexivity |]); (split; [|exact H]); cbn; tauto.
    + intros (d' & phrase & E & Hin & C). injection E as <-.
      f_equal. apply andb_true_iff. split.
      * destruct C as (pre & post & ->).
        cbn in Hin. decompose [or] Hin; try contradiction; subst phrase;
          destruct pre; reflexivity.
      * apply includes_spec in C.
        cbn in Hin. decompose [or] Hin; try contradiction; subst phrase;
          rewrite C; cbn; rewrite ?orb_true_r; reflexivity.
  - split.
    + destruct (Js.truthy_number x); discriminate.
    + intros (d & phrase & E & _). discriminate.
  - split; [discriminate | intros (d & phrase & E & _); discriminate].
Qed.

Lemma in_student_affairs_throws (e : record) :
  Employee.in_student_affairs e = None <->
  exists x, e !! "department" = Some (VNum x) /\ Js.truthy_number x = true.
Proof.
  unfold Employee.in_student_affairs.
  destruct (e !! "department") as [[d|x]|].
  - split; [discriminate | intros (x & E & _); discriminate].
  - destruct (Js.truthy_number x) eqn:T; split; try discriminate; eauto.
    intros (y & E & Ty). congruence.
  - split; [discriminate | intros (x & E & _); discriminate].
Qed.

(** X19.  [getStudentAffairsStaff] only returns employees that the
    resource listed and whose department is a string that contains one
    of the four Student Affairs names.  It returns nothing when the
    request for the employees fails, and nothing either when some
    listed employee has a number other than 0 as department, since
    [includes] then throws.  When no listed employee has such a
    department, it returns every listed employee whose department
    contains one of the four names. *)
Theorem student_affairs_staff (a : fetched) :
  let res := Employee.getStudentAffairsStaff a in
  let named (e : record) :=
    exists d phrase,
      e !! "department" = Some (VStr d)
      /\ In phrase Rules.student_affairs
      /\ Rules.contains d phrase in
  let numbered (e : record) :=
    exists x, e !! "department" = Some (VNum x)
              /\ Js.truthy_number x = true in
  (forall e, In e res ->
             named e /\ exists l, DataTable.rows_of a = Some l /\ In e l)
  /\ (DataTable.rows_of a = None -> res = [])
  /\ (forall l, DataTable.rows_of a = Some l ->
                (exists e, In e l /\ numbered e) -> res = [])
  /\ (forall l, DataTable.rows_of a = Some l ->
                (forall e, In e l -> ~ numbered e) ->
                forall e, In e l -> named e -> In e res).
Proof.
  intros res named numbered. unfold res. rewrite staff_by_rows.
  destruct (DataTable.rows_of a) as [l|].
  - destruct (filter_or_empty Employee.in_student_affairs l) as (S & T & C).
    cbv zeta in S, T, C. split; [|split; [|split]].
    + intros e H. destruct (S e H) as [Hin Ht].
      split; [now apply in_student_affairs_true | eauto].
    + discriminate.
    + intros l' E (e & Hin & N). injection E as <-. apply T.
      exists e. split; [exact Hin | now apply in_student_affairs_throws].
    + intros l' E N e Hin Hn. injection E as <-. apply C.
      * intros x Hx Tx. apply (N x Hx).
        now apply in_student_affairs_throws.
      * split; [exact Hin | now apply in_student_affairs_true].
  - split; [|split; [|split]].
    + contradiction.
    + reflexivity.
    + discriminate.
    + discriminate.
Qed.

Lemma by_domain_by_rows domain (a : fetched) :
  Instructor.getInstructorsByEmailDomain domain a
  = match DataTable.rows_of a with
    | Some l => default [] (Js.filter (Instructor.has_domain domain) l)
    | None => []
    end.
Proof.
  unfold Instructor.getInstructorsByEmailDomain, Instructor.getAllInstructors,
    DataTable.rows_of.
  destruct a as [|resp]; [reflexivity |].
  destruct (ok resp); [|reflexivity].
  destruct (body resp) as [[l|o]|]; reflexivity.
Qed.

(** X20.  [getInstructorsByEmailDomain] returns, of the instructors
    that the resource listed, those whose email is a non-empty string
    that contains the domain, provided no listed instructor has a
    number other than 0 as email; with such an instructor, or when the
    request fails, it returns nothing.  With the empty domain it keeps
    every instructor whose email is a non-empty string. *)
Theorem instructors_by_email_domain (domain : string) (a : fetched) :
  let res := Instructor.getInstructorsByEmailDomain domain a in
  let matches (e : record) :=
    exists email, e !! "email" = Some (VStr email)
                  /\ email <> "" /\ Rules.contains email domain in
  let numbered (e : record) :=
    exists x, e !! "email" = Some (VNum x) /\ Js.truthy_number x = true in
  (forall e, In e res ->
             matches e /\ exists l, DataTable.rows_of a = Some l /\ In e l)
  /\ (DataTable.rows_of a = None -> res = [])
  /\ (forall l, DataTable.rows_of a = Some l ->
                (exists e, In e l /\ numbered e) -> res = [])
  /\ (forall l, DataTable.rows_of a = Some l ->
                (forall e, In e l -> ~ numbered e) ->
                forall e, In e l -> matches e -> In e res)
  /\ (domain = "" ->
      forall e, matches e <->
                exists email, e !! "email" = Some (VStr email) /\ email <> "").
Proof.
  intros res matches numbered.
  assert (Tr : forall e, Instructor.has_domain domain e = Some true
                         <-> matches e).
  { intros e. unfold Instructor.has_domain, matches.
    destruct (e !! "email") as [[m|x]|].
    - split.
      + intros H. injection H as H. apply andb_true_iff in H as [Hn H].
        apply includes_spec in H. exists m. repeat split; auto.
        intros ->. discriminate.
      + intros (m' & E & Hn & C). injection E as <-. f_equal.
        apply andb_true_iff. split; [destruct m; [contradiction | reflexivity] |].
        now apply includes_spec.
    - split; [destruct (Js.truthy_number x); discriminate |].
      intros (m & E & _). discriminate.
    - split; [discriminate | intros (m & E & _); discriminate]. }
  assert (Th : forall e, Instructor.has_domain domain e = None
                         <-> numbered e).
  { intros e. unfold Instructor.has_domain, numbered.
    destruct (e !! "email") as [[m|x]|].
    - split; [discriminate | intros (x & E & _); discriminate].
    - destruct (Js.truthy_number x) eqn:T; split; try discriminate; eauto.
      intros (y & E & Ty). congruence.
    - split; [discriminate | intros (x & E & _); discriminate]. }
  unfold res. rewrite by_domain_by_rows.
  split; [|split; [|split; [|split]]].
  - destruct (DataTable.rows_of a) as [l|]; [|contradiction].
    destruct (filter_or_empty (Instructor.has_domain domain) l) as (S & _).
    intros e H. destruct (S e H) as [Hin Ht].
    split; [now apply Tr | eauto].
  - intros ->. reflexivity.
  - intros l -> (e & Hin & N).
    destruct (filter_or_empty (Instructor.has_domain domain) l) as (_ & T & _).
    apply T. exists e. split; [exact Hin | now apply Th].
  - intros l -> N e Hin Hm.
    destruct (filter_or_empty (Instructor.has_domain domain) l) as (_ & _ & C).
    apply C.
    + intros x Hx Tx. apply (N x Hx). now apply Th.
    + split; [exact Hin | now apply Tr].
  - intros ->. intros e. unfold matches. split.
    + intros (m & E & Hn & _). eauto.
    + intros (m & E & Hn). exists m. repeat split; auto.
      exists "", m. reflexivity.
Qed.

(** X21.  On whole numbers of records [getMostActive] names a module
    that has the most, the first of Students, Courses, Instructors,
    Employees among equals, and never says None: so four empty
    collections make Students the most active.  As soon as one of the
    four numbers is [NaN] it says None. *)
Theorem most_active (this : Dashboard.statsData) :
  let name := Dashboard.getMostActive this in
  (forall s c i e,
     this = {| Dashboard.students := Js.of_Z s;
               Dashboard.courses := Js.of_Z c;
               Dashboard.instructors := Js.of_Z i;
               Dashboard.employees := Js.of_Z e |} ->
     (name = "Students" <-> c <= s /\ i <= s /\ e <= s)
     /\ (name = "Courses" <-> s < c /\ i <= c /\ e <= c)
     /\ (name = "Instructors" <-> s < i /\ c < i /\ e <= i)
     /\ (name = "Employees" <-> s < e /\ c < e /\ i < e)
     /\ name <> "None")
  /\ (Dashboard.students this = Js.NaN
      \/ Dashboard.courses this = Js.NaN
      \/ Dashboard.instructors this = Js.NaN
      \/ Dashboard.employees this = Js.NaN ->
      name = "None").
Proof.
  intros name. unfold name, Dashboard.getMostActive. split.
  - intros s c i e ->. cbn [Dashboard.students Dashboard.courses
                             Dashboard.instructors Dashboard.employees].
    cbv zeta. rewrite !max_of_Z, !eq_of_Z.
    destruct (Z.eqb_spec (Z.max (Z.max (Z.max s c) i) e) s);
      [repeat split; intros; try discriminate; try lia |].
    destruct (Z.eqb_spec (Z.max (Z.max (Z.max s c) i) e) c);
      [repeat split; intros; try discriminate; try lia |].
    destruct (Z.eqb_spec (Z.max (Z.max (Z.max s c) i) e) i);
      [repeat split; intros; try discriminate; try lia |].
    destruct (Z.eqb_spec (Z.max (Z.max (Z.max s c) i) e) e);
      [repeat split; intros; try discriminate; try lia |].
    lia.
  - destruct this as [s c i e]. cbn.
    assert (R : forall x, Js.max x Js.NaN = Js.NaN) by (intros []; reflexivity).
    intros [-> | [-> | [-> | ->]]]; rewrite ?R; reflexivity.
Qed.

End Helpers.

(* ================================================================== *)
(** * What is sent *)
(* ================================================================== *)

Module TraceFacts.

Import DataTable App Frame EngineFacts OutcomeFacts SaveFacts.

Section WithServer.
Context {Srv : Type} (serve : request -> Srv -> fetched * Srv).

Lemma keeps_pages_ret {A} (a : A) : keeps_pages (@ret Srv A a).
Proof. intros w H. exact H. Qed.

Lemma keeps_pages_throw {A} : keeps_pages (@throw Srv A).
Proof. intros w H. exact H. Qed.

Lemma keeps_pages_get : keeps_pages (@get Srv).
Proof. intros w H. exact H. Qed.

Lemma keeps_pages_emit e :
  (forall q, e <> Fetch (GetList q)) -> keeps_pages (@emit Srv e).
Proof.
  intros N w [P L]. split; [exact P |]. cbn. intros q H.
  apply in_app_iff in H as [H|[H|[]]]; [auto | now apply N in H].
Qed.

Lemma keeps_pages_fetch r :
  (forall q, r <> GetList q) -> keeps_pages (fetch serve r).
Proof.
  intros N w [P L]. unfold fetch.
  destruct (serve r (srv w)) as [[|resp] s']; (split; [exact P |]); cbn;
    intros q H; apply in_app_iff in H as [H|[H|[]]]; auto;
    injection H as H; now apply N in H.
Qed.

Lemma keeps_pages_modify f :
  (forall v, currentPage (f v) = currentPage v) ->
  keeps_pages (@modify Srv f).
Proof. intros E w [P L]. split; [cbn; now rewrite E | exact L]. Qed.

Lemma keeps_pages_bind {A B} (m : M Srv A) (k : A -> M Srv B) :
  keeps_pages m -> (forall a, keeps_pages (k a)) -> keeps_pages (bind m k).
Proof.
  intros Hm Hk w H. unfold bind. specialize (Hm w H).
  destruct (m w) as [[a|] w1]; cbn in *; [|exact Hm].
  now apply Hk.
Qed.

Lemma keeps_pages_try_catch {A} (m h : M Srv A) :
  keeps_pages m -> keeps_pages h -> keeps_pages (try_catch m h).
Proof.
  intros Hm Hh w H. unfold try_catch. specialize (Hm w H).
  destruct (m w) as [[a|] w1]; cbn in *; [exact Hm |].
  now apply Hh.
Qed.

Lemma keeps_pages_loadData : keeps_pages (loadData serve).
Proof.
  intros w [P L]. destruct (loadData_spec serve w) as (v & s & -> & K & _).
  split; cbn; [now rewrite K |].
  intros q H. apply in_app_iff in H as [H|[H|[]]]; [auto |].
  injection H as <-. exact P.
Qed.

(** One step of a proof that a program keeps the pages from 1. *)
Ltac keeps_pages_step :=
  lazymatch goal with
  | |- keeps_pages (bind _ _) => apply keeps_pages_bind; [|intros ?]
  | |- keeps_pages (try_catch _ _) => apply keeps_pages_try_catch
  | |- keeps_pages (ret _) => apply keeps_pages_ret
  | |- keeps_pages throw => apply keeps_pages_throw
  | |- keeps_pages get => apply keeps_pages_get
  | |- keeps_pages (emit _) => apply keeps_pages_emit; discriminate
  | |- keeps_pages (fetch _ (write_request _ _)) =>
      apply keeps_pages_fetch; unfold write_request;
      let q := fresh in intros q; destruct (currentRecord _); discriminate
  | |- keeps_pages (fetch _ _) => apply keeps_pages_fetch; discriminate
  | |- keeps_pages (modify _) => apply keeps_pages_modify; reflexivity
  | |- keeps_pages (loadData _) => apply keeps_pages_loadData
  | |- keeps_pages (if ?b then _ else _) => destruct b
  | |- keeps_pages (match ?x with _ => _ end) => destruct x
  end.

Ltac keeps_pages_auto := cbv zeta; repeat keeps_pages_step.

Lemma keeps_pages_commit payload : keeps_pages (commit serve payload).
Proof. unfold commit, write, closeModal. keeps_pages_auto. Qed.

Context (Date_parse : string -> Js.number).

Lemma keeps_pages_saveRecord k fd now :
  keeps_pages (saveRecord Date_parse serve k fd now).
Proof.
  destruct k; cbn [saveRecord];
    unfold Student.saveRecord, Course.saveRecord, Course.getCourseByCode,
      Instructor.saveRecord, Employee.saveRecord, response_json;
    cbv zeta; apply keeps_pages_try_catch;
    try (apply keeps_pages_emit; discriminate);
    (destruct (negb (isValid _)); [apply keeps_pages_emit; discriminate |]);
    try apply keeps_pages_commit.
  apply keeps_pages_bind; [apply keeps_pages_get | intros v].
  apply keeps_pages_bind; [keeps_pages_auto | intros e].
  destruct (truthy_element e).
  - apply keeps_pages_emit. discriminate.
  - apply keeps_pages_commit.
Qed.

Lemma handle_pages k a (w : World Srv) :
  pages_from_1 w -> pages_from_1 (exec (handle Date_parse serve k a) w).
Proof.
  intros H. destruct a; cbn [handle]; unfold exec.
  - now apply keeps_pages_loadData.
  - rewrite onSearchInput_eq. apply keeps_pages_loadData.
    destruct H as [P L]. split; [cbn; lia | exact L].
  - rewrite onItemsPerPageChange_eq. apply keeps_pages_loadData.
    destruct H as [P L]. split; [cbn; lia | exact L].
  - rewrite previousPage_eq.
    destruct (Z.ltb_spec 1 (currentPage (view w))); [|exact H].
    apply keeps_pages_loadData.
    destruct H as [P L]. split; [cbn; lia | exact L].
  - rewrite nextPage_eq. destruct (Js.lt _ _); [|exact H].
    apply keeps_pages_loadData.
    destruct H as [P L]. split; [cbn; lia | exact L].
  - rewrite sortBy_eq. apply keeps_pages_loadData.
    destruct H as [P L]. split; [|exact L]. cbn.
    unfold toggle. destruct (decide _); exact P.
  - revert w H. change (keeps_pages (@openAddModal Srv)).
    unfold openAddModal. keeps_pages_auto.
  - revert w H. change (keeps_pages (openEditModal serve id)).
    unfold openEditModal, response_json. keeps_pages_auto.
  - revert w H. change (keeps_pages (@openDeleteModal Srv id)).
    unfold openDeleteModal. keeps_pages_auto.
  - revert w H. change (keeps_pages (@closeModal Srv)).
    unfold closeModal. keeps_pages_auto.
  - revert w H. change (keeps_pages (@closeDeleteModal Srv)).
    unfold closeDeleteModal. keeps_pages_auto.
  - revert w H. change (keeps_pages (confirmDelete serve)).
    unfold confirmDelete, closeDeleteModal. keeps_pages_auto.
  - now apply keeps_pages_saveRecord.
Qed.

Lemma run_pages k acts : forall w : World Srv,
  pages_from_1 w -> pages_from_1 (run Date_parse serve k acts w).
Proof.
  induction acts as [|a acts IH]; intros w H; cbn; [exact H |].
  apply IH, handle_pages, H.
Qed.

End WithServer.

End TraceFacts.

Section Sent.
Import DataTable App Frame EngineFacts OutcomeFacts SaveFacts TraceFacts.
Context {Srv : Type} (serve : request -> Srv -> fetched * Srv).

(** X22.  Whatever the listeners are made to do from a fresh view and
    whatever the server answers, no list request is ever sent for a
    page below 1. *)
Theorem no_page_below_1 (Date_parse : string -> Js.number) (k : kind)
        (acts : list action) (s : Srv) (q : listquery) :
  In (Fetch (GetList q)) (log (run Date_parse serve k acts (start s))) ->
  1 <= q_page q.
Proof.
  apply (run_pages serve Date_parse k acts (start s)).
  split; [cbn; lia | intros q' []].
Qed.

(** X23.  The lookup of a course code is best effort and takes the
    body as it comes.  On the create path with a valid form: when the
    lookup is rejected, comes back without a success or with a body
    that does not parse, the save goes on and sends the [POST] of the
    course; when it comes back with an object, in place of an array,
    whose [length] counts as a positive number and whose field [0] is
    truthy, the save stops as for a listed course, with the alert and
    no write. *)
Theorem failed_lookup_does_not_block (fd : formdata) (w : World Srv)
        (a0 : fetched) (s0 : Srv) :
  isValid (Course.validateCourse fd) = true ->
  currentRecord (view w) = None ->
  let code := Js.toUpperCase (field fd "code") in
  serve (GetByCode code) (srv w) = (a0, s0) ->
  let w' := exec (Course.saveRecord serve fd) w in
  (json_of a0 = None ->
   exists rest,
     log w' = (log w ++ Fetch (GetByCode code)
                     :: Fetch (Post (Course.normalize fd)) :: rest)%list)
  /\ (forall o x,
        json_of a0 = Some (JObject o) ->
        Js.gt (to_number (o !! "length")) (Js.of_Z 0) = true ->
        o !! "0" = Some x ->
        truthy_value (Some x) = true ->
        view w' = view w
        /\ log w' = (log w ++ [Fetch (GetByCode code);
                               Alert ("Course code " ++ code
                                      ++ " already exists!")])%list).
Proof.
  intros Hv Hc code E w'. split.
  - intros J.
    assert (F : Course.found a0 = None)
      by (unfold Course.found, Course.returned; now rewrite J).
    unfold w', exec. rewrite (saveRecord_course serve fd w Hv). cbv zeta.
    rewrite Hc. fold code. rewrite E. cbn [fst snd]. rewrite F.
    match goal with
    | |- context [try_catch _ (emit (Alert ?h)) ?w1] =>
        destruct (commit_log serve (Course.normalize fd) h w1) as (rest & L & _)
    end.
    exists rest. unfold exec in L. rewrite L. cbn [log view].
    unfold write_request. cbn [view]. rewrite Hc, <- app_assoc. reflexivity.
  - intros o x J G X T.
    assert (F : Course.found a0 = Some (Field x)).
    { unfold Course.found, Course.returned, Course.first_course.
      rewrite J. cbn [length_of first_of]. rewrite G, X. cbn [fmap option_fmap option_map].
      cbn [truthy_element]. now rewrite T. }
    unfold w', exec. rewrite (saveRecord_course serve fd w Hv). cbv zeta.
    rewrite Hc. fold code. rewrite E. cbn [fst snd]. rewrite F.
    cbn. rewrite <- app_assoc. auto.
Qed.

End Sent.

Section SentWitnesses.
Import DataTable App Script Runs.

(** [no_page_below_1] on the run that deletes the only row of page 2. *)
Lemma no_page_below_1_witness :
  1 <= q_page {| q_page := 2; q_limit := Js.of_Z 10; q_text := None;
                 q_sort := None |}.
Proof.
  apply (no_page_below_1 serve Dates.parse students
           [Init; NextClick; DeleteClick "11"; DeleteConfirmClick]
           [page1; page2; ok_empty; ok_list [] "10"]).
  vm_compute. tauto.
Defined.

(** [failed_lookup_does_not_block] on [cs101], with the lookup refused
    and with the lookup answered by an object that reads like an
    array. *)
Lemma failed_lookup_does_not_block_witness :
  (exists rest,
     log (exec (Course.saveRecord serve Examples.cs101)
            (adding [failed; ok_empty; page1]))
     = (log (adding [failed; ok_empty; page1])
        ++ Fetch (GetByCode (Js.toUpperCase (field Examples.cs101 "code")))
           :: Fetch (Post (Course.normalize Examples.cs101)) :: rest)%list)
  /\ log (exec (Course.saveRecord serve Examples.cs101)
             (adding [ok_object Examples.array_like; ok_empty; page1]))
     = (log (adding [ok_object Examples.array_like; ok_empty; page1])
        ++ [Fetch (GetByCode (Js.toUpperCase (field Examples.cs101 "code")));
            Alert ("Course code "
                   ++ Js.toUpperCase (field Examples.cs101 "code")
                   ++ " already exists!")])%list.
Proof.
  assert (V : isValid (Course.validateCourse Examples.cs101) = true)
    by (vm_compute; reflexivity).
  assert (E : serve (GetByCode (Js.toUpperCase (field Examples.cs101 "code")))
                (srv (adding [failed; ok_empty; page1]))
              = (failed, [ok_empty; page1])) by (vm_compute; reflexivity).
  assert (E' : serve (GetByCode (Js.toUpperCase (field Examples.cs101 "code")))
                 (srv (adding [ok_object Examples.array_like; ok_empty; page1]))
               = (ok_object Examples.array_like, [ok_empty; page1]))
    by (vm_compute; reflexivity).
  assert (G : Js.gt (to_number (Examples.array_like !! "length")) (Js.of_Z 0)
              = true) by (vm_compute; reflexivity).
  assert (X : Examples.array_like !! "0" = Some (VStr "x"))
    by (vm_compute; reflexivity).
  split.
  - exact (proj1 (failed_lookup_does_not_block serve Examples.cs101
                    (adding [failed; ok_empty; page1]) failed
                    [ok_empty; page1] V eq_refl E) eq_refl).
  - exact (proj2 (proj2 (failed_lookup_does_not_block serve Examples.cs101
                    (adding [ok_object Examples.array_like; ok_empty; page1])
                    (ok_object Examples.array_like) [ok_empty; page1]
                    V eq_refl E')
                    Examples.array_like (VStr "x") eq_refl G X eq_refl)).
Defined.

End SentWitnesses.

(* ================================================================== *)
(** * The further properties on sample runs *)
(* ================================================================== *)

Section MoreWitnesses.
Import DataTable App Script Runs.

(** [load_outcome] on a first load that is refused, on one that
    brings the first page, and on one that brings a record in place of
    an array. *)
Lemma load_outcome_witness :
  view (exec (loadData serve) (start [failed]))
  = set_loading false
      (set_errorText (Some Frame.load_error) (view (start [failed])))
  /\ data (view (exec (loadData serve) (start [page1]))) = JArray (rows 1 10)
  /\ (data (view (exec (loadData serve) (start [ok_object cs100])))
      = JObject cs100
      /\ errorText (view (exec (loadData serve) (start [ok_object cs100])))
         = Some Frame.load_error).
Proof.
  split; [|split].
  - exact (proj1 (proj2 (proj2 (load_outcome serve (start [failed]) failed []
                                  eq_refl))) eq_refl).
  - exact (proj1 (proj2 (proj2 (proj2 (proj2
             (load_outcome serve (start [page1]) page1 [] eq_refl))))
             (rows 1 10) eq_refl)).
  - destruct (proj1 (proj2 (proj2 (proj2
                (load_outcome serve (start [ok_object cs100])
                   (ok_object cs100) [] eq_refl))))
                _ (JObject cs100) eq_refl eq_refl eq_refl)
      as (D & _ & _ & X & _).
    split; [exact D | exact X].
Defined.

(** [disabled_buttons_do_nothing] on page 1 of 2, where Previous is
    disabled, and on page 1 of 1, where Next is. *)
Lemma disabled_buttons_do_nothing_witness :
  exec (previousPage serve) (exec (loadData serve) (start [page1]))
  = exec (loadData serve) (start [page1])
  /\ exec (nextPage serve) (exec (loadData serve) (start [one_page]))
     = exec (loadData serve) (start [one_page]).
Proof.
  assert (P : 1 <= currentPage (view (start [page1]))) by (cbn; lia).
  assert (Q : 1 <= currentPage (view (start [one_page]))) by (cbn; lia).
  split.
  - apply (proj1 (proj2 (disabled_buttons_do_nothing serve (start [page1])
                           page1 [] (rows 1 10) eq_refl eq_refl P))).
    vm_compute. reflexivity.
  - apply (proj2 (proj2 (disabled_buttons_do_nothing serve (start [one_page])
                           one_page [] (rows 1 3) eq_refl eq_refl Q))).
    vm_compute. reflexivity.
Defined.

(** [next_then_previous] from page 1 of 2. *)
Lemma next_then_previous_witness :
  currentPage (view (exec (previousPage serve)
                       (exec (nextPage serve) (listed [page2; page1]))))
  = currentPage (view (listed [page2; page1])).
Proof.
  assert (P : 1 <= currentPage (view (listed [page2; page1])))
    by (vm_compute; discriminate).
  assert (L : Js.lt (Js.of_Z (currentPage (view (listed [page2; page1]))))
                (totalPages (view (listed [page2; page1]))) = true)
    by (vm_compute; reflexivity).
  exact (proj1 (proj2 (next_then_previous serve (listed [page2; page1]) P L))).
Defined.

(** [edit_click_outcome] on a record that comes back, on an array
    that comes back in its place, and on a request that is refused. *)
Lemma edit_click_outcome_witness :
  view (exec (openEditModal serve "5") (listed [ok_object cs100]))
  = set_formModalActive true
      (set_currentRecord (Some (JObject cs100))
         (view (listed [ok_object cs100])))
  /\ view (exec (openEditModal serve "5") (listed [page2]))
     = set_formModalActive true
         (set_currentRecord (Some (JArray (rows 11 1)))
            (view (listed [page2])))
  /\ view (exec (openEditModal serve "5") (listed [failed]))
     = view (listed [failed]).
Proof.
  split; [|split].
  - exact (proj1 (edit_click_outcome serve (listed [ok_object cs100]) "5"
                    (ok_object cs100) [] eq_refl)).
  - exact (proj1 (edit_click_outcome serve (listed [page2]) "5"
                    page2 [] eq_refl)).
  - exact (proj1 (edit_click_outcome serve (listed [failed]) "5"
                    failed [] eq_refl)).
Defined.

(** [modals_consistent] with course 5 in the edit form. *)
Lemma modals_consistent_witness :
  formModalActive (view (editing [])) = true.
Proof.
  apply (proj2 (modals_consistent serve Dates.parse students
                  [Init; EditClick "5"] [page1; ok_object cs100])).
  exists (JObject cs100). vm_compute. reflexivity.
Defined.

(** [no_delete_without_dialog] once a delete has closed the dialog. *)
Lemma no_delete_without_dialog_witness :
  exec (confirmDelete serve) after_delete = after_delete.
Proof.
  apply (no_delete_without_dialog serve Dates.parse students
           [Init; NextClick; DeleteClick "11"; DeleteConfirmClick]
           [page1; page2; ok_empty; ok_list [] "10"]).
  vm_compute. reflexivity.
Defined.

(** [sort_order_without_column] on the second page, nothing sorted. *)
Lemma sort_order_without_column_witness :
  sortOrder (view on_page2) = asc.
Proof.
  apply (sort_order_without_column serve Dates.parse students
           [Init; NextClick] [page1; page2; page2]).
  vm_compute. reflexivity.
Defined.

(** [sort_click_twice] on the [Name] header, already sorted. *)
Lemma sort_click_twice_witness :
  sortOrder (view (exec (sortBy serve "name")
                     (exec (sortBy serve "name")
                        (exec (sortBy serve "name") on_page2))))
  = sortOrder (view (exec (sortBy serve "name") on_page2)).
Proof.
  apply (sort_click_twice serve (exec (sortBy serve "name") on_page2) "name").
  vm_compute. reflexivity.
Defined.

(** [edit_modal_save] on course 5 saved as [cs101]. *)
Lemma edit_modal_save_witness :
  formModalActive
    (view (exec (saveRecord Dates.parse serve courses Examples.cs101
                   Examples.today) (editing [ok_empty; page1]))) = false
  /\ with_id (payload courses Examples.cs101) (JObject cs100) !! "id"
     = id_of (JObject cs100).
Proof.
  assert (C : currentRecord (view (editing [ok_empty; page1]))
              = Some (JObject cs100))
    by (vm_compute; reflexivity).
  assert (V : isValid (validate Dates.parse Examples.today courses
                         Examples.cs101) = true)
    by (vm_compute; reflexivity).
  assert (E : serve (Put (id_of (JObject cs100))
                       (with_id (payload courses Examples.cs101)
                                (JObject cs100)))
                (srv (editing [ok_empty; page1]))
              = (ok_empty, [page1])) by (vm_compute; reflexivity).
  destruct (edit_modal_save serve Dates.parse Examples.today courses
              Examples.cs101 (editing [ok_empty; page1]) (JObject cs100) _ _
              C V E eq_refl) as (F & _ & _ & I & _).
  split; [exact F | exact I].
Defined.

(** [save_write_failure] on a valid student whose [POST] is refused. *)
Lemma save_write_failure_witness :
  view (exec (saveRecord Dates.parse serve students Examples.ann
                Examples.today) (adding [failed]))
  = view (adding [failed]).
Proof.
  assert (V : isValid (validate Dates.parse Examples.today students
                         Examples.ann) = true)
    by (vm_compute; reflexivity).
  assert (E : serve (write_request (payload students Examples.ann)
                       (view (adding [failed])))
                (srv (adding [failed]))
              = (failed, [])) by (vm_compute; reflexivity).
  assert (K : students = courses ->
              is_Some (currentRecord (view (adding [failed]))))
    by discriminate.
  exact (proj1 (proj1 (save_write_failure serve Dates.parse Examples.today
                         students Examples.ann (adding [failed]) V)
                      K failed [] E eq_refl)).
Defined.

(** [base_save_outcome] on an empty form whose [POST] is refused. *)
Lemma base_save_outcome_witness :
  view (exec (DataTable.saveRecord serve ∅) (adding [failed]))
  = view (adding [failed]).
Proof.
  assert (E : serve (write_request (body_of ∅) (view (adding [failed])))
                (srv (adding [failed]))
              = (failed, [])) by (vm_compute; reflexivity).
  exact (proj1 (proj2 (base_save_outcome serve ∅ (adding [failed])
                         failed [] E))).
Defined.

End MoreWitnesses.

Section MoreWitnesses2.
Import Script Runs.

(** [email_rule] on the student form of the samples. *)
Lemma email_rule_witness :
  ~ In "Please enter a valid email address"
       (errors (Student.validateStudent Examples.ann)).
Proof.
  assert (E : Examples.ann !! "email" = Some "a@b.edu")
    by (vm_compute; reflexivity).
  apply (proj2 (proj1 (email_rule Dates.parse Examples.today Examples.ann
                         "a@b.edu" E))).
  exists "a", "b", "edu". repeat split; try discriminate; reflexivity.
Defined.

(** [blank_fields_reported] on a name of three spaces. *)
Lemma blank_fields_reported_witness :
  In "Name must be at least 3 characters long"
     (errors (Student.validateStudent {[ "name" := "   " ]})).
Proof.
  apply (proj1 (blank_fields_reported Dates.parse Examples.today
                  {[ "name" := "   " ]})).
  exists "   ". split; vm_compute; reflexivity.
Defined.

(** [valid_course_body] on the course [cs101]. *)
Lemma valid_course_body_witness :
  (exists code, Course.normalize Examples.cs101 !! "code" = Some (VStr code)
                /\ Rules.code_shape code)
  /\ (exists n, Course.normalize Examples.cs101 !! "credits"
                = Some (VNum (Js.of_Z n))
                /\ 1 <= n <= 6).
Proof.
  apply valid_course_body. vm_compute. reflexivity.
Defined.

(** [valid_student_body] on the student form of the samples. *)
Lemma valid_student_body_witness :
  exists q, Student.normalize Examples.ann !! "gpa" = Some (VNum (Js.Fin q))
            /\ (0 <= q <= 4)%Q.
Proof.
  apply valid_student_body. vm_compute. reflexivity.
Defined.

(** [course_code_case] on [cs101] and [CS101]. *)
Lemma course_code_case_witness :
  Course.code_violated (<["code" := Js.toUpperCase "cs101"]> Examples.cs101)
  = Course.code_violated Examples.cs101
  /\ Course.normalize (<["code" := Js.toUpperCase "cs101"]> Examples.cs101)
       !! "code"
     = Course.normalize Examples.cs101 !! "code".
Proof.
  assert (E : Examples.cs101 !! "code" = Some "cs101")
    by (vm_compute; reflexivity).
  exact (course_code_case Examples.cs101 "cs101" E).
Defined.

(** [hire_date_edges] on a hire date that is no date. *)
Lemma hire_date_edges_witness :
  ~ In "Please enter hire date"
       (errors (Employee.validateEmployee Dates.parse Examples.today
                  (Examples.clerk "soon")))
  /\ ~ In "Hire date cannot be in the future"
         (errors (Employee.validateEmployee Dates.parse Examples.today
                    (Examples.clerk "soon")))
  /\ ~ In "Hire date seems too old (before 2000)"
         (errors (Employee.validateEmployee Dates.parse Examples.today
                    (Examples.clerk "soon"))).
Proof.
  assert (E : Examples.clerk "soon" !! "hireDate" = Some "soon")
    by (vm_compute; reflexivity).
  assert (N : "soon" <> "") by discriminate.
  exact (proj2 (proj2 (hire_date_edges Dates.parse Examples.today
                         (Examples.clerk "soon") _ (or_introl eq_refl)))
               "soon" E N eq_refl).
Defined.

(** [years_of_service] on someone hired on 2020-11-03, asked on
    2026-11-02: five years, the sixth anniversary being tomorrow. *)
Lemma years_of_service_witness :
  exists r,
    Employee.calculateYearsOfService Dates.fields Examples.today_fields
      "2020-11-03" = Js.of_Z r
    /\ ~ Dates.before Examples.today_fields
           (Dates.anniversary {| Dates.fullYear := 2020; Dates.month := 10;
                                 Dates.date := 3 |} r)
    /\ Dates.before Examples.today_fields
         (Dates.anniversary {| Dates.fullYear := 2020; Dates.month := 10;
                               Dates.date := 3 |} (r + 1))
    /\ (r < 0 <-> Dates.before Examples.today_fields
                    {| Dates.fullYear := 2020; Dates.month := 10;
                       Dates.date := 3 |}).
Proof.
  assert (F : Dates.fields "2020-11-03"
              = Some {| Dates.fullYear := 2020; Dates.month := 10;
                        Dates.date := 3 |}) by (vm_compute; reflexivity).
  exact (proj2 (years_of_service Dates.fields Examples.today_fields
                  "2020-11-03") _ F).
Defined.

(** [student_affairs_staff] on a registrar and a librarian, then with
    an employee whose department is a number. *)
Lemma student_affairs_staff_witness :
  In Examples.registrar
     (Employee.getStudentAffairsStaff
        (ok_list [Examples.registrar; Examples.librarian] "2"))
  /\ Employee.getStudentAffairsStaff
       (ok_list [Examples.registrar; Examples.misfiled] "2") = [].
Proof.
  split.
  - apply (proj2 (proj2 (proj2 (student_affairs_staff
             (ok_list [Examples.registrar; Examples.librarian] "2"))))
             [Examples.registrar; Examples.librarian] eq_refl).
    + intros e [<-|[<-|[]]] (x & E & _); vm_compute in E; discriminate E.
    + left. reflexivity.
    + exists "Student Affairs Office", "Student Affairs".
      split; [vm_compute; reflexivity |]. split; [left; reflexivity |].
      exists "", " Office". reflexivity.
  - apply (proj1 (proj2 (proj2 (student_affairs_staff
             (ok_list [Examples.registrar; Examples.misfiled] "2"))))
             [Examples.registrar; Examples.misfiled] eq_refl).
    exists Examples.misfiled. split; [right; left; reflexivity |].
    exists (Js.of_Z 7). split; vm_compute; reflexivity.
Defined.

(** [instructors_by_email_domain] on the domain [university.edu]. *)
Lemma instructors_by_email_domain_witness :
  In Examples.dr_kim
     (Instructor.getInstructorsByEmailDomain "university.edu"
        (ok_list [Examples.dr_kim; Examples.dr_roe] "2"))
  /\ Instructor.getInstructorsByEmailDomain "university.edu" failed = [].
Proof.
  split.
  - apply (proj1 (proj2 (proj2 (proj2 (instructors_by_email_domain
             "university.edu"
             (ok_list [Examples.dr_kim; Examples.dr_roe] "2")))))
             [Examples.dr_kim; Examples.dr_roe] eq_refl).
    + intros e [<-|[<-|[]]] (x & E & _); vm_compute in E; discriminate E.
    + left. reflexivity.
    + exists "kim@university.edu".
      split; [vm_compute; reflexivity |]. split; [discriminate |].
      exists "kim@", "". reflexivity.
  - apply (proj1 (proj2 (instructors_by_email_domain "university.edu"
                           failed))).
    reflexivity.
Defined.

(** [most_active] on a dashboard that has loaded nothing. *)
Lemma most_active_witness :
  Dashboard.getMostActive Dashboard.initial = "Students".
Proof.
  apply (proj1 (proj1 (most_active Dashboard.initial) 0 0 0 0 eq_refl)).
  lia.
Defined.

End MoreWitnesses2.
